(** * Log analysis and seed generation: a shallow embedding

    This development embeds the two scripts of the repository,
    [analyze_logs.py] and [generate_seed.py], and proves the properties
    that their specification states about them.

    Conventions of the embedding.
    - A Python [str] is a [string]; a character is a code point below 256
      ([ascii]), with Python's [str.isspace] and [str.lower] on that range.
    - A Python value of unknown type (what [json.loads] produced) is a
      [pyval]; operations that Python checks at run time return [res] and
      raise [AttributeError] or [TypeError] as Python does.
    - A dict whose keys are fixed by the code is a record; a dict with data
      keys is an association list in insertion order.
    - [json.loads] is library code: the functions of [analyze_logs.py] take
      it as a parameter [json_loads], and every universally quantified
      statement holds for whatever that function returns.
    - [print] collects a line of the report. That the output stream can
      refuse a line, and [print] then raises, is [on_stdout]. *)

From Stdlib Require Import Bool Arith List ZArith Lia String Ascii Floats.
From Stdlib Require Import DecimalString DecimalPos DecimalZ.
From Stdlib Require Import Permutation Sorted.
Import ListNotations.

Set Warnings "-register-all,-notation-overridden".

Open Scope string_scope.
Open Scope list_scope.

(** ** Characters and strings *)

(** [str.isspace] on code points below 256; the same class is [\s] of
    the [re] module on [str] patterns. *)
Definition isspace (c : ascii) : bool :=
  let n := nat_of_ascii c in
  (((9 <=? n) && (n <=? 13)) || ((28 <=? n) && (n <=? 32))
   || (n =? 133) || (n =? 160))%nat.

(** [\S] *)
Definition nonspace (c : ascii) : bool := negb (isspace c).

Definition newline : ascii := "010".

(** [.] without DOTALL: anything but a newline. *)
Definition dot (c : ascii) : bool := negb (Ascii.eqb c newline).

(** [str.lower] on one code point below 256. *)
Definition lower_char (c : ascii) : ascii :=
  let n := nat_of_ascii c in
  if (((65 <=? n) && (n <=? 90))
      || ((192 <=? n) && (n <=? 222) && negb (n =? 215)))%nat
  then ascii_of_nat (n + 32) else c.

Fixpoint lower (s : string) : string :=
  match s with
  | EmptyString => EmptyString
  | String c s' => String (lower_char c) (lower s')
  end.

Fixpoint all_chars (p : ascii -> bool) (s : string) : bool :=
  match s with
  | EmptyString => true
  | String c s' => p c && all_chars p s'
  end.

Fixpoint lstrip (s : string) : string :=
  match s with
  | EmptyString => EmptyString
  | String c s' => if isspace c then lstrip s' else s
  end.

Fixpoint rstrip (s : string) : string :=
  match s with
  | EmptyString => EmptyString
  | String c s' =>
      let r := rstrip s' in
      if isspace c && (r =? "") then "" else String c r
  end.

(** [s.strip()] *)
Definition strip (s : string) : string := rstrip (lstrip s).

(** [s.startswith(p)] *)
Definition startswith (p s : string) : bool := prefix p s.

(** [sub in s] for two strings. *)
Fixpoint contains (sub s : string) : bool :=
  prefix sub s ||
  match s with
  | EmptyString => false
  | String _ s' => contains sub s'
  end.

(** [s[:n]] *)
Fixpoint take (n : nat) (s : string) : string :=
  match n, s with
  | S n', String c s' => String c (take n' s')
  | _, _ => EmptyString
  end.

(** ** The pattern of [parse_log_line]

    A backtracking matcher in continuation-passing style: each combinator
    consumes a prefix of the subject and hands the rest to its
    continuation; a greedy repetition tries the longest run first and
    gives characters back when the continuation fails, as [re] does. *)

Section Regex.
Context {R : Type}.

(** [p*], greedy; [acc] is the text already consumed by this group. *)
Fixpoint re_star (p : ascii -> bool) (k : string -> string -> option R)
         (acc s : string) : option R :=
  match s with
  | String c s' =>
      if p c then
        match re_star p k (acc ++ String c "") s' with
        | Some r => Some r
        | None => k acc s
        end
      else k acc s
  | EmptyString => k acc s
  end.

(** [p+], greedy. *)
Definition re_plus (p : ascii -> bool) (k : string -> string -> option R)
           (s : string) : option R :=
  match s with
  | String c s' => if p c then re_star p k (String c "") s' else None
  | EmptyString => None
  end.

(** one literal character *)
Definition re_char (a : ascii) (k : string -> option R) (s : string)
  : option R :=
  match s with
  | String c s' => if Ascii.eqb c a then k s' else None
  | EmptyString => None
  end.

(** [$] without MULTILINE: the end of the subject, or just before a
    newline that ends it. *)
Definition re_end (r : R) (s : string) : option R :=
  match s with
  | EmptyString => Some r
  | String c EmptyString => if Ascii.eqb c newline then Some r else None
  | _ => None
  end.
End Regex.

(** [re.match(r'^(\S+)\s+\|\s+(.+)$', line)]: the two groups. *)
Definition re_match (line : string) : option (string * string) :=
  re_plus nonspace (fun g1 s1 =>
  re_plus isspace (fun _ s2 =>
  re_char "|" (fun s3 =>
  re_plus isspace (fun _ s4 =>
  re_plus dot (fun g2 s5 =>
  re_end (g1, g2) s5) s4) s3) s2) s1) line.

(** ** Python values and exceptions *)

Inductive pyval : Type :=
| PNone
| PBool (b : bool)
| PInt (z : Z)
| PFloat (f : float)
| PStr (s : string)
| PList (l : list pyval)
| PDict (d : list (string * pyval)).

Inductive exn : Type :=
| AttributeError
| TypeError
| KeyError
| IndexError
| DecodeError.   (* what [json.loads] raises: ValueError, RecursionError *)

Inductive res (A : Type) : Type :=
| Ok (a : A)
| Raise (e : exn).
Arguments Ok {A} a.
Arguments Raise {A} e.

(** [bool(v)] *)
Definition truthy (v : pyval) : bool :=
  match v with
  | PNone => false
  | PBool b => b
  | PInt z => negb (z =? 0)%Z
  | PFloat f => negb (PrimFloat.eqb f PrimFloat.zero)
  | PStr s => negb (s =? "")
  | PList l => match l with [] => false | _ => true end
  | PDict d => match d with [] => false | _ => true end
  end.

(** [x or y] *)
Definition py_or (x y : pyval) : pyval := if truthy x then x else y.

Fixpoint dict_lookup {V : Type} (d : list (string * V)) (k : string)
  : option V :=
  match d with
  | [] => None
  | (k', v) :: d' => if k' =? k then Some v else dict_lookup d' k
  end.

(** [d[k] = v]: an existing key keeps its place, a new one goes last. *)
Fixpoint dict_set {V : Type} (d : list (string * V)) (k : string) (v : V)
  : list (string * V) :=
  match d with
  | [] => [(k, v)]
  | (k', v') :: d' =>
      if k' =? k then (k', v) :: d' else (k', v') :: dict_set d' k v
  end.

(** [v.get(k, default)]: only a dict has the method. *)
Definition py_get (v : pyval) (k : string) (default : pyval) : res pyval :=
  match v with
  | PDict d =>
      Ok (match dict_lookup d k with Some x => x | None => default end)
  | _ => Raise AttributeError
  end.

(** [k in v] for a string [k]: a key of a dict, a substring of a str, an
    element of a list; the other values are not iterable. *)
Definition py_in (k : string) (v : pyval) : res bool :=
  match v with
  | PDict d =>
      Ok (match dict_lookup d k with Some _ => true | None => false end)
  | PStr s => Ok (contains k s)
  | PList l =>
      Ok (existsb (fun x => match x with PStr t => t =? k | _ => false end) l)
  | _ => Raise TypeError
  end.

(** [v[k]] for a string [k] *)
Definition py_getitem (v : pyval) (k : string) : res pyval :=
  match v with
  | PDict d =>
      match dict_lookup d k with Some x => Ok x | None => Raise KeyError end
  | _ => Raise TypeError
  end.

(** [v.lower()]: only a str has the method. *)
Definition py_lower (v : pyval) : res string :=
  match v with
  | PStr s => Ok (lower s)
  | _ => Raise AttributeError
  end.

(** [a + b] where the code gives one operand as a str: concatenation of
    two strs, [TypeError] for every other operand. *)
Definition str_add (a b : pyval) : res string :=
  match a, b with
  | PStr x, PStr y => Ok (x ++ y)%string
  | _, _ => Raise TypeError
  end.

(** ** State and exceptions

    A computation over a mutable object of type [S] that may raise: the
    object keeps what was written to it before the exception. *)

Definition M (S A : Type) : Type := S -> S * res A.

Definition ret {S A} (a : A) : M S A := fun s => (s, Ok a).

Definition bind {S A B} (m : M S A) (k : A -> M S B) : M S B :=
  fun s =>
    match m s with
    | (s', Ok a) => k a s'
    | (s', Raise e) => (s', Raise e)
    end.

Definition lift {S A} (r : res A) : M S A := fun s => (s, r).

Definition modify {S} (f : S -> S) : M S unit := fun s => (f s, Ok tt).

Definition get {S} : M S S := fun s => (s, Ok s).

(** [when c: m] *)
Definition when {S} (c : bool) (m : M S unit) : M S unit :=
  if c then m else ret tt.

(** [try: body except Exception: handler] *)
Definition try_except {S A} (body : M S A) (handler : exn -> M S A)
  : M S A :=
  fun s =>
    match body s with
    | (s', Ok a) => (s', Ok a)
    | (s', Raise e) => handler e s'
    end.

Declare Scope monad_scope.
Delimit Scope monad_scope with monad.
Notation "x <- m ;; k" := (bind m (fun x => k))
  (at level 61, m at next level, right associativity) : monad_scope.
Notation "m ;; k" := (bind m (fun _ => k))
  (at level 61, right associativity) : monad_scope.
Open Scope monad_scope.

(** [for x in xs: body x] *)
Fixpoint for_each {S X} (xs : list X) (body : X -> M S unit) : M S unit :=
  match xs with
  | [] => ret tt
  | x :: xs' => body x ;; for_each xs' body
  end.

(** ** [analyze_logs.py]: the data *)

Definition dquote : ascii := "034".

(** a text in double quotes *)
Definition dq (s : string) : string :=
  String dquote (s ++ String dquote "").

(** The dict [result] of [parse_log_line]; the key ['caller'] is absent
    unless a structured payload has it. *)
Record parsed : Type := mk_parsed {
  service : option string;
  timestamp : pyval;
  level : pyval;
  message : pyval;
  error : pyval;
  caller : option pyval;
  raw : string }.

Definition set_service (v : option string) (r : parsed) : parsed :=
  mk_parsed v (timestamp r) (level r) (message r) (error r) (caller r) (raw r).
Definition set_timestamp (v : pyval) (r : parsed) : parsed :=
  mk_parsed (service r) v (level r) (message r) (error r) (caller r) (raw r).
Definition set_level (v : pyval) (r : parsed) : parsed :=
  mk_parsed (service r) (timestamp r) v (message r) (error r) (caller r) (raw r).
Definition set_message (v : pyval) (r : parsed) : parsed :=
  mk_parsed (service r) (timestamp r) (level r) v (error r) (caller r) (raw r).
Definition set_error (v : pyval) (r : parsed) : parsed :=
  mk_parsed (service r) (timestamp r) (level r) (message r) v (caller r) (raw r).
Definition set_caller (v : pyval) (r : parsed) : parsed :=
  mk_parsed (service r) (timestamp r) (level r) (message r) (error r)
            (Some v) (raw r).

(** [parsed.get('caller', '')] *)
Definition caller_or_empty (r : parsed) : pyval :=
  match caller r with Some v => v | None => PStr "" end.

(** The dicts appended to the lists of the analysis. *)
Record error_entry : Type := mk_error {
  err_service : option string;
  err_message : pyval;
  err_error : pyval;
  err_caller : pyval;
  err_raw : string }.

(** entries of [warnings] and of [info] *)
Record level_entry : Type := mk_level {
  lvl_service : option string;
  lvl_message : pyval }.

Record fatal_entry : Type := mk_fatal {
  fat_service : option string;
  fat_message : pyval;
  fat_error : pyval;
  fat_raw : string }.

Record conn_entry : Type := mk_conn {
  conn_service : option string;
  conn_message : pyval;
  conn_error : pyval;
  conn_raw : string }.

Record startup_entry : Type := mk_startup {
  st_service : option string;
  st_message : pyval;
  st_timestamp : pyval }.

Record health_entry : Type := mk_health {
  hc_service : option string;
  hc_message : pyval;
  hc_status : string }.

(** The dict [analysis]; [services] is the [defaultdict(int)]. *)
Record analysis : Type := mk_analysis {
  services : list (string * nat);
  errors : list error_entry;
  warnings : list level_entry;
  info : list level_entry;
  fatal : list fatal_entry;
  connection_errors : list conn_entry;
  startup_sequence : list startup_entry;
  health_checks : list health_entry;
  service_status : list (string * pyval) }.

Definition init_analysis : analysis :=
  mk_analysis [] [] [] [] [] [] [] [] [].

(** [analysis['services'][k] += 1] *)
Definition incr_service (k : string) (a : analysis) : analysis :=
  mk_analysis
    (dict_set (services a) k
       (match dict_lookup (services a) k with Some n => n | None => 0 end + 1))
    (errors a) (warnings a) (info a) (fatal a) (connection_errors a)
    (startup_sequence a) (health_checks a) (service_status a).

(** [analysis[...].append(e)], one per list *)
Definition add_error (e : error_entry) (a : analysis) : analysis :=
  mk_analysis (services a) (errors a ++ [e]) (warnings a) (info a) (fatal a)
    (connection_errors a) (startup_sequence a) (health_checks a)
    (service_status a).
Definition add_warning (e : level_entry) (a : analysis) : analysis :=
  mk_analysis (services a) (errors a) (warnings a ++ [e]) (info a) (fatal a)
    (connection_errors a) (startup_sequence a) (health_checks a)
    (service_status a).
Definition add_info (e : level_entry) (a : analysis) : analysis :=
  mk_analysis (services a) (errors a) (warnings a) (info a ++ [e]) (fatal a)
    (connection_errors a) (startup_sequence a) (health_checks a)
    (service_status a).
Definition add_fatal (e : fatal_entry) (a : analysis) : analysis :=
  mk_analysis (services a) (errors a) (warnings a) (info a) (fatal a ++ [e])
    (connection_errors a) (startup_sequence a) (health_checks a)
    (service_status a).
Definition add_connection_error (e : conn_entry) (a : analysis) : analysis :=
  mk_analysis (services a) (errors a) (warnings a) (info a) (fatal a)
    (connection_errors a ++ [e]) (startup_sequence a) (health_checks a)
    (service_status a).
Definition add_startup (e : startup_entry) (a : analysis) : analysis :=
  mk_analysis (services a) (errors a) (warnings a) (info a) (fatal a)
    (connection_errors a) (startup_sequence a ++ [e]) (health_checks a)
    (service_status a).
Definition add_health_check (e : health_entry) (a : analysis) : analysis :=
  mk_analysis (services a) (errors a) (warnings a) (info a) (fatal a)
    (connection_errors a) (startup_sequence a) (health_checks a ++ [e])
    (service_status a).

(** The keywords of the startup test and of the connection test. *)
Definition startup_keywords : list string :=
  ["starting"; "started"; "connected"; "initialized"].

Definition is_connection_text (full_text : string) : bool :=
  contains "connection refused" full_text
  || contains "connect() failed" full_text
  || contains "dial error" full_text.

(** the literal of the health test: status, a double quote, :200 *)
Definition status_200 : string := "status" ++ String dquote ":200".

(** ** [analyze_logs.py]: the functions *)

Section Logs.

Variable json_loads : string -> res pyval.

(** The [try] block of [parse_log_line] and its handler, on the dict
    [result]. *)
Definition parse_structured (log_content : string) : M parsed unit :=
  try_except
    (log_data <- lift (json_loads log_content) ;;
     v <- lift (py_get log_data "level" (PStr "info")) ;;
     modify (set_level v) ;;
     v <- lift (py_get log_data "msg" (PStr "")) ;;
     modify (set_message v) ;;
     v <- lift (py_get log_data "ts" (PInt 0)) ;;
     modify (set_timestamp v) ;;
     v <- lift (py_get log_data "error" (PStr "")) ;;
     modify (set_error v) ;;
     has_caller <- lift (py_in "caller" log_data) ;;
     when has_caller
       (v <- lift (py_getitem log_data "caller") ;;
        modify (set_caller v)))
    (fun _ => modify (set_message (PStr log_content))).

(** The [else] branch: plain text, with a level guessed from the text. *)
Definition parse_plain (log_content : string) : M parsed unit :=
  modify (set_message (PStr log_content)) ;;
  if contains "error" (lower log_content) then
    modify (set_level (PStr "error"))
  else if contains "warn" (lower log_content) then
    modify (set_level (PStr "warn"))
  else ret tt.

Definition init_result (line : string) : parsed :=
  mk_parsed None PNone PNone PNone PNone None (strip line).

Definition parse_log_line (line : string) : res parsed :=
  snd
    ((match re_match line with
      | None => get
      | Some (svc, log_content) =>
          modify (set_service (Some svc)) ;;
          (if startswith "{" log_content
           then parse_structured log_content
           else parse_plain log_content) ;;
          get
      end) (init_result line)).

(** The body of the loop of [analyze_logs], on the dict [analysis], block
    by block. [msg] and [err] are the locals [message] and [error]. *)

(** [if parsed['service']: analysis['services'][...] += 1] *)
Definition count_service (p : parsed) : M analysis unit :=
  when (match service p with Some s => negb (s =? "") | None => false end)
    (modify (incr_service
               (match service p with Some s => s | None => "" end))).

(** the [if]/[elif] chain on the level *)
Definition route_level (p : parsed) (lvl : string) (msg err : pyval)
  : M analysis unit :=
  if lvl =? "error" then
    modify (add_error
              (mk_error (service p) msg err (caller_or_empty p) (raw p)))
  else if lvl =? "warn" then
    modify (add_warning (mk_level (service p) msg))
  else if lvl =? "fatal" then
    modify (add_fatal (mk_fatal (service p) msg err (raw p)))
  else if lvl =? "info" then
    modify (add_info (mk_level (service p) msg))
  else ret tt.

(** the connection errors *)
Definition find_connection_error (p : parsed) (msg err : pyval)
  : M analysis unit :=
  t <- lift (str_add msg (PStr " ")) ;;
  t <- lift (str_add (PStr t) err) ;;
  let full_text := lower t in
  when (is_connection_text full_text)
    (modify (add_connection_error (mk_conn (service p) msg err (raw p)))).

(** the startup sequence *)
Definition find_startup (p : parsed) (msg : pyval) : M analysis unit :=
  ml <- lift (py_lower msg) ;;
  when (existsb (fun keyword => contains keyword ml) startup_keywords)
    (modify (add_startup (mk_startup (service p) msg (timestamp p)))).

(** the health checks *)
Definition find_health_check (line : string) (p : parsed) (msg : pyval)
  : M analysis unit :=
  ml <- lift (py_lower msg) ;;
  is_health <- (if contains "health" ml then ret true
                else lift (py_in "/health" msg)) ;;
  when is_health
    (modify (add_health_check
               (mk_health (service p) msg
                  (if contains status_200 line then "200" else "unknown")))).

Definition classify_line (line : string) : M analysis unit :=
  if strip line =? "" then ret tt
  else
    p <- lift (parse_log_line line) ;;
    count_service p ;;
    lvl <- lift (py_lower (py_or (level p) (PStr "info"))) ;;
    let msg := py_or (message p) (PStr "") in
    let err := py_or (error p) (PStr "") in
    route_level p lvl msg err ;;
    find_connection_error p msg err ;;
    find_startup p msg ;;
    find_health_check line p msg.

Definition analyze_logs (logs : list string) : res analysis :=
  match for_each logs classify_line init_analysis with
  | (a, Ok _) => Ok a
  | (_, Raise e) => Raise e
  end.

End Logs.

(** ** A reference decoder for [json.loads]

    The concrete runs below need a concrete decoder. [json_loads_ref]
    follows the scanner of the [json] module (whitespace, objects, arrays,
    strings with the two-character escapes, integers, [null], [true],
    [false]; strict control characters; the last duplicate key wins) on the
    documents that have no fraction, no exponent, no [NaN] or [Infinity] and
    no [\u] escape; those it rejects. It is only ever run on documents of
    the fragment. *)

Module Json.

Definition is_ws (c : ascii) : bool :=
  Ascii.eqb c " " || Ascii.eqb c "009" || Ascii.eqb c "010"
  || Ascii.eqb c "013".

Fixpoint skip_ws (s : string) : string :=
  match s with
  | String c s' => if is_ws c then skip_ws s' else s
  | EmptyString => s
  end.

Definition backslash : ascii := "092".

(** the table BACKSLASH of the decoder *)
Definition unescape (c : ascii) : option ascii :=
  let n := nat_of_ascii c in
  if (n =? 34)%nat then Some dquote
  else if (n =? 92)%nat then Some backslash
  else if (n =? 47)%nat then Some c
  else if (n =? 98)%nat then Some (ascii_of_nat 8)
  else if (n =? 102)%nat then Some (ascii_of_nat 12)
  else if (n =? 110)%nat then Some (ascii_of_nat 10)
  else if (n =? 114)%nat then Some (ascii_of_nat 13)
  else if (n =? 116)%nat then Some (ascii_of_nat 9)
  else None.

(** the text of a string, after its opening quote *)
Fixpoint scan_string (s acc : string) : option (string * string) :=
  match s with
  | EmptyString => None
  | String c s' =>
      if Ascii.eqb c dquote then Some (acc, s')
      else if Ascii.eqb c backslash then
        match s' with
        | String e s'' =>
            match unescape e with
            | Some ch => scan_string s'' (acc ++ String ch "")
            | None => None
            end
        | EmptyString => None
        end
      else if (nat_of_ascii c <? 32)%nat then None
      else scan_string s' (acc ++ String c "")
  end.

Definition digit_of (c : ascii) : option Z :=
  let n := nat_of_ascii c in
  if ((48 <=? n) && (n <=? 57))%nat then Some (Z.of_nat (n - 48)) else None.

Fixpoint scan_digits (s : string) (acc : Z) : Z * string :=
  match s with
  | String c s' =>
      match digit_of c with
      | Some d => scan_digits s' (10 * acc + d)%Z
      | None => (acc, s)
      end
  | EmptyString => (acc, s)
  end.

(** what follows the integer part would make the number a float *)
Definition float_tail (s : string) : bool :=
  match s with
  | String c _ =>
      let n := nat_of_ascii c in ((n =? 46) || (n =? 101) || (n =? 69))%nat
  | EmptyString => false
  end.

Definition scan_unsigned (s : string) : option (Z * string) :=
  match s with
  | String c s' =>
      match digit_of c with
      | Some 0%Z => if float_tail s' then None else Some (0%Z, s')
      | Some d =>
          let (n, rest) := scan_digits s' d in
          if float_tail rest then None else Some (n, rest)
      | None => None
      end
  | EmptyString => None
  end.

Definition scan_int (s : string) : option (Z * string) :=
  match s with
  | String c s' =>
      if (nat_of_ascii c =? 45)%nat then
        match scan_unsigned s' with
        | Some (n, rest) => Some ((- n)%Z, rest)
        | None => None
        end
      else scan_unsigned s
  | EmptyString => None
  end.

Fixpoint drop (n : nat) (s : string) : string :=
  match n, s with
  | S n', String _ s' => drop n' s'
  | _, _ => s
  end.

(** [scan_once] with the loops of JSONObject and JSONArray; [fuel] bounds
    the depth of the calls. *)
Fixpoint scan_once (fuel : nat) (s : string) : option (pyval * string) :=
  match fuel with
  | O => None
  | S fuel' =>
      match s with
      | EmptyString => None
      | String c s' =>
          if Ascii.eqb c dquote then
            match scan_string s' "" with
            | Some (str, rest) => Some (PStr str, rest)
            | None => None
            end
          else if Ascii.eqb c "{" then
            match skip_ws s' with
            | String c1 s1 =>
                if Ascii.eqb c1 "}" then Some (PDict [], s1)
                else if Ascii.eqb c1 dquote then scan_members fuel' [] s1
                else None
            | EmptyString => None
            end
          else if Ascii.eqb c "[" then
            match skip_ws s' with
            | String c1 s1 =>
                if Ascii.eqb c1 "]" then Some (PList [], s1)
                else scan_elements fuel' [] (String c1 s1)
            | EmptyString => None
            end
          else if prefix "null" s then Some (PNone, drop 4 s)
          else if prefix "true" s then Some (PBool true, drop 4 s)
          else if prefix "false" s then Some (PBool false, drop 5 s)
          else
            match scan_int s with
            | Some (n, rest) => Some (PInt n, rest)
            | None => None
            end
      end
  end

(** the pairs of an object, from just after the opening quote of a key *)
with scan_members (fuel : nat) (pairs : list (string * pyval)) (s : string)
  : option (pyval * string) :=
  match fuel with
  | O => None
  | S fuel' =>
      match scan_string s "" with
      | None => None
      | Some (key, s1) =>
          match skip_ws s1 with
          | String c2 s2 =>
              if Ascii.eqb c2 ":" then
                match scan_once fuel' (skip_ws s2) with
                | None => None
                | Some (value, s3) =>
                    let pairs' := dict_set pairs key value in
                    match skip_ws s3 with
                    | String c4 s4 =>
                        if Ascii.eqb c4 "}" then Some (PDict pairs', s4)
                        else if Ascii.eqb c4 "," then
                          match skip_ws s4 with
                          | String c5 s5 =>
                              if Ascii.eqb c5 dquote
                              then scan_members fuel' pairs' s5
                              else None
                          | EmptyString => None
                          end
                        else None
                    | EmptyString => None
                    end
                end
              else None
          | EmptyString => None
          end
      end
  end

(** the values of an array, from the start of a value *)
with scan_elements (fuel : nat) (values : list pyval) (s : string)
  : option (pyval * string) :=
  match fuel with
  | O => None
  | S fuel' =>
      match scan_once fuel' s with
      | None => None
      | Some (value, s1) =>
          let values' := values ++ [value] in
          match skip_ws s1 with
          | String c2 s2 =>
              if Ascii.eqb c2 "]" then Some (PList values', s2)
              else if Ascii.eqb c2 "," then
                scan_elements fuel' values' (skip_ws s2)
              else None
          | EmptyString => None
          end
      end
  end.

(** [json.loads(s)]: one value, nothing but whitespace around it. *)
Definition json_loads_ref (s : string) : res pyval :=
  match scan_once (S (String.length s)) (skip_ws s) with
  | Some (v, rest) =>
      if skip_ws rest =? "" then Ok v else Raise DecodeError
  | None => Raise DecodeError
  end.

(** Writes a document with apostrophes where it has double quotes. *)
Fixpoint q (s : string) : string :=
  match s with
  | EmptyString => EmptyString
  | String c s' =>
      String (if (nat_of_ascii c =? 39)%nat then dquote else c) (q s')
  end.

End Json.

(** ** [print_analysis]: the section on connection errors

    What [print] writes is a list of output lines; a line that formats a
    value of the analysis carries that value, a fixed line is a
    constructor of its own. *)

Inductive out_line : Type :=
| ConnSectionTitle                      (* the title and the rule under it *)
| ConnHeader (i : nat) (svc : option string)   (* [i] Service: ... *)
| ConnMessage (v : pyval)               (* Message: message[:100]... *)
| ConnError (v : pyval)                 (* Error: error[:150]... *)
| LabelFabricPeer                       (* Fabric Peer (port 7051) *)
| LabelPostgreSQL                       (* PostgreSQL (port 5432) *)
| LabelApiGateway                       (* Nginx to API Gateway (port 8080) *)
| NoConnectionErrors.

(** [print(...)]: the line is collected. What the stream does with the
    lines, and that [print] raises when it refuses one, is [on_stdout]
    below. *)
Definition emit (l : out_line) : M (list out_line) unit :=
  modify (fun out => out ++ [l]).

(** [v[:n]] *)
Definition py_slice (v : pyval) (n : nat) : res pyval :=
  match v with
  | PStr s => Ok (PStr (take n s))
  | PList l => Ok (PList (firstn n l))
  | _ => Raise TypeError
  end.

(** The body of the loop over [enumerate(analysis['connection_errors'], 1)]. *)
Definition print_connection_error (i : nat) (conn_err : conn_entry)
  : M (list out_line) unit :=
  emit (ConnHeader i (conn_service conn_err)) ;;
  when (truthy (conn_message conn_err))
    (v <- lift (py_slice (conn_message conn_err) 100) ;; emit (ConnMessage v)) ;;
  when (truthy (conn_error conn_err))
    (v <- lift (py_slice (conn_error conn_err) 150) ;; emit (ConnError v)) ;;
  let raw := conn_raw conn_err in
  when (contains "172.21.0." raw || contains "7051" raw || contains "5432" raw)
    (if contains "7051" raw then emit LabelFabricPeer
     else if contains "5432" raw then emit LabelPostgreSQL
     else if contains "8080" raw then emit LabelApiGateway
     else ret tt).

(** [enumerate(xs, start)] *)
Fixpoint enumerate {X} (xs : list X) (start : nat) : list (nat * X) :=
  match xs with
  | [] => []
  | x :: xs' => (start, x) :: enumerate xs' (S start)
  end.

Definition print_connection_errors (a : analysis) : M (list out_line) unit :=
  emit ConnSectionTitle ;;
  match connection_errors a with
  | [] => emit NoConnectionErrors
  | _ :: _ =>
      for_each (enumerate (connection_errors a) 1)
        (fun ie => print_connection_error (fst ie) (snd ie))
  end.

(** ** [generate_seed.py]

    The script draws from [random], [uuid] and the clock. The outcomes of
    its draws are a sequence [entropy], read in the order the script asks;
    the clock readings are a sequence [clock]. The digest, the two
    renderings of a UUID and the ISO rendering of a date are library
    functions, taken as parameters. *)

Module Seed.

(** [str.upper] on ASCII text (the digits of [uuid.hex]). *)
Definition upper_char (c : ascii) : ascii :=
  let n := nat_of_ascii c in
  if ((97 <=? n) && (n <=? 122))%nat then ascii_of_nat (n - 32) else c.

Fixpoint upper (s : string) : string :=
  match s with
  | EmptyString => EmptyString
  | String c s' => String (upper_char c) (upper s')
  end.

(** [str(n)] for an int *)
Definition str_of_Z (z : Z) : string :=
  DecimalString.NilZero.string_of_int (Z.to_int z).

(** the module-level names of the script, and the position in the draws *)
Record globals : Type := mk_globals {
  tick : nat;
  batches : list string;
  packages : list string;
  sql_statements : list string }.

Definition init_globals : globals := mk_globals 0 [] [] [].

Definition nl : string := String newline "".

(** The f-string of the four loops: the same text in each, with the name
    of the chaincode function in it. *)
Definition insert_sql (tx_id function_name args : string) (block_number : Z)
           (block_hash timestamp : string) : string :=
  "INSERT INTO transactions (id, tx_id, channel_name, chaincode_name, function_name, args, status, block_number, block_hash, timestamp) "
  ++ nl ++ "    VALUES (gen_random_uuid(), '" ++ tx_id
  ++ "', 'ibnchannel', 'teatrace', '" ++ function_name ++ "', '" ++ args
  ++ "', 'VALID', " ++ str_of_Z block_number ++ ", '" ++ block_hash
  ++ "', '" ++ timestamp ++ "');".

(** the four f-strings [args] *)
Definition batch_args (batch_id : string) (i : nat) : string :=
  "[" ++ dq batch_id ++ ", " ++ dq ("Tea Batch " ++ str_of_Z (Z.of_nat i + 1))
  ++ ", " ++ dq "Organic Green Tea" ++ ", " ++ dq "1000kg" ++ "]".
Definition package_args (package_id batch_id : string) : string :=
  "[" ++ dq package_id ++ ", " ++ dq batch_id ++ ", "
  ++ dq "Premium Tea Package" ++ ", " ++ dq "500g" ++ "]".
Definition update_args (package_id : string) : string :=
  "[" ++ dq package_id ++ ", " ++ dq "PROCESSING" ++ ", "
  ++ dq "Drying tea leaves" ++ "]".
Definition transfer_args (package_id : string) : string :=
  "[" ++ dq package_id ++ ", " ++ dq "Distributor A" ++ ", "
  ++ dq "Retailer B" ++ "]".

Section World.

Variable entropy : nat -> N.
Variable clock : nat -> N.
Variable sha256_hexdigest : string -> string.
Variable uuid_str : N -> string.        (* [str(u)] *)
Variable uuid_hex : N -> string.        (* [u.hex] *)
Variable isoformat_days_before : N -> Z -> string.

(** one draw, or one reading of the clock *)
Definition draw : M globals N :=
  fun g => (mk_globals (S (tick g)) (batches g) (packages g)
              (sql_statements g),
            Ok (entropy (tick g))).
Definition now : M globals N :=
  fun g => (mk_globals (S (tick g)) (batches g) (packages g)
              (sql_statements g),
            Ok (clock (tick g))).

Definition uuid4 : M globals N := draw.

(** [random.randint(a, b)]: some integer of [a..b]. *)
Definition randint (a b : Z) : M globals Z :=
  d <- draw ;; ret (a + Z.of_N d mod (b - a + 1))%Z.

(** [random.choice(seq)]: some element; [IndexError] on an empty list. *)
Definition choice (seq : list string) : M globals string :=
  d <- draw ;;
  match nth_error seq (N.to_nat d mod List.length seq) with
  | Some x => ret x
  | None => lift (Raise IndexError)
  end.

Definition generate_tx_id : M globals string :=
  u <- uuid4 ;; ret (sha256_hexdigest (uuid_str u)).

Definition generate_block_hash : M globals string :=
  u <- uuid4 ;; ret (sha256_hexdigest (uuid_str u)).

Definition get_timestamp (days_ago : Z) : M globals string :=
  t <- now ;; ret (isoformat_days_before t days_ago).

Definition append_batch (x : string) : M globals unit :=
  modify (fun g => mk_globals (tick g) (batches g ++ [x]) (packages g)
                     (sql_statements g)).
Definition append_package (x : string) : M globals unit :=
  modify (fun g => mk_globals (tick g) (batches g) (packages g ++ [x])
                     (sql_statements g)).
Definition append_sql (x : string) : M globals unit :=
  modify (fun g => mk_globals (tick g) (batches g) (packages g)
                     (sql_statements g ++ [x])).

Definition create_batch (i : nat) : M globals unit :=
  tx_id <- generate_tx_id ;;
  u <- uuid4 ;;
  let batch_id := ("BATCH_" ++ upper (take 8 (uuid_hex u)))%string in
  append_batch batch_id ;;
  block_number <- randint 10 100 ;;
  block_hash <- generate_block_hash ;;
  days <- randint 5 10 ;;
  timestamp <- get_timestamp days ;;
  let args := batch_args batch_id i in
  append_sql
    (insert_sql tx_id "CreateBatch" args block_number block_hash timestamp).

Definition create_package (i : nat) : M globals unit :=
  tx_id <- generate_tx_id ;;
  u <- uuid4 ;;
  let package_id := ("PKG_" ++ upper (take 8 (uuid_hex u)))%string in
  append_package package_id ;;
  g <- get ;;
  batch_id <- choice (batches g) ;;
  block_number <- randint 101 200 ;;
  block_hash <- generate_block_hash ;;
  days <- randint 3 5 ;;
  timestamp <- get_timestamp days ;;
  let args := package_args package_id batch_id in
  append_sql
    (insert_sql tx_id "CreatePackage" args block_number block_hash timestamp).

Definition update_package (i : nat) : M globals unit :=
  tx_id <- generate_tx_id ;;
  g <- get ;;
  package_id <- choice (packages g) ;;
  block_number <- randint 201 300 ;;
  block_hash <- generate_block_hash ;;
  days <- randint 1 2 ;;
  timestamp <- get_timestamp days ;;
  let args := update_args package_id in
  append_sql
    (insert_sql tx_id "UpdatePackage" args block_number block_hash timestamp).

Definition transfer_package (i : nat) : M globals unit :=
  tx_id <- generate_tx_id ;;
  g <- get ;;
  package_id <- choice (packages g) ;;
  block_number <- randint 301 400 ;;
  block_hash <- generate_block_hash ;;
  timestamp <- get_timestamp 0 ;;
  let args := transfer_args package_id in
  append_sql
    (insert_sql tx_id "TransferPackage" args block_number block_hash
       timestamp).

(** The script, up to the [print]. *)
Definition script : M globals unit :=
  for_each (seq 0 5) create_batch ;;
  for_each (seq 0 10) create_package ;;
  for_each (seq 0 8) update_package ;;
  for_each (seq 0 5) transfer_package.

(** [print("\n".join(sql_statements))]: what the run writes, statement by
    statement. *)
Definition output : res (list string) :=
  match script init_globals with
  | (g, Ok _) => Ok (sql_statements g)
  | (_, Raise e) => Raise e
  end.

End World.

End Seed.

(** ** Notions used in the statements *)

(** the next character, if any, is outside the class [p] *)
Definition stops (p : ascii -> bool) (s : string) : bool :=
  match s with
  | EmptyString => true
  | String c _ => negb (p c)
  end.

(** the level that the plain-text branch of [parse_log_line] guesses *)
Definition guessed_level (log_content : string) : pyval :=
  if contains "error" (lower log_content) then PStr "error"
  else if contains "warn" (lower log_content) then PStr "warn"
  else PNone.

(** a line that is not blank and matches the pattern *)
Definition has_service (line : string) : bool :=
  negb (strip line =? "")
  && match re_match line with Some _ => true | None => false end.

(** the sum of the counts of a service map *)
Fixpoint sum_counts (d : list (string * nat)) : nat :=
  match d with
  | [] => 0
  | (_, n) :: d' => n + sum_counts d'
  end.

(** A computation leaves the observation [f] of its state as it was,
    whether it returns or raises. *)
Definition keeps {S A X : Type} (f : S -> X) (m : M S A) : Prop :=
  forall s, f (fst (m s)) = f s.

(** the four lists that the level of a record chooses between *)
Definition level_lists (a : analysis)
  : list error_entry * list level_entry * list fatal_entry * list level_entry
  := (errors a, warnings a, fatal a, info a).

(** One record more at the end of one of the four lists, or none in any. *)
Definition at_most_one_more
  (b b' : list error_entry * list level_entry * list fatal_entry
          * list level_entry) : Prop :=
  match b, b' with
  | (e, w, f, i), (e', w', f', i') =>
      (e' = e /\ w' = w /\ f' = f /\ i' = i)
      \/ ((exists x, e' = e ++ [x]) /\ w' = w /\ f' = f /\ i' = i)
      \/ (e' = e /\ (exists x, w' = w ++ [x]) /\ f' = f /\ i' = i)
      \/ (e' = e /\ w' = w /\ (exists x, f' = f ++ [x]) /\ i' = i)
      \/ (e' = e /\ w' = w /\ f' = f /\ (exists x, i' = i ++ [x]))
  end.

(** A computation moves the observation [f] of its state by [R], whether
    it returns or raises. *)
Definition moves {S A X : Type} (R : X -> X -> Prop) (f : S -> X)
           (m : M S A) : Prop :=
  forall s, R (f s) (f (fst (m s))).

(** the level lists, by name *)
Inductive bucket : Type := Errors | Warnings | Fatal | Info.

Definition bucket_length (b : bucket) (a : analysis) : nat :=
  match b with
  | Errors => List.length (errors a)
  | Warnings => List.length (warnings a)
  | Fatal => List.length (fatal a)
  | Info => List.length (info a)
  end.

Definition bucket_eqb (b1 b2 : bucket) : bool :=
  match b1, b2 with
  | Errors, Errors | Warnings, Warnings | Fatal, Fatal | Info, Info => true
  | _, _ => false
  end.

(** [1] for [true] *)
Definition indicator (b : bool) : nat := if b then 1 else 0.

(** One line for each choice of a level list (or none) and of the three
    substring tests: a structured payload with that level and a message
    made of the words that the chosen tests look for. *)
Definition example_line (lv : option bucket) (c s h : bool) : string :=
  Json.q
    ("svc | {'level':'"
     ++ match lv with
        | Some Errors => "error"
        | Some Warnings => "warn"
        | Some Fatal => "fatal"
        | Some Info => "info"
        | None => "debug"
        end
     ++ "','msg':'request "
     ++ (if c then "connection refused " else "")
     ++ (if s then "started " else "")
     ++ (if h then "health" else "")
     ++ "'}").

(** Lines in the shape of the sample of [main], with the timestamps as
    integers; one blank line and one line without the bar. *)
Definition sample_logs : list string :=
  map Json.q
    ["api-gateway-1          | {'level':'info','ts':1763352224,'caller':'server/main.go:98','msg':'Connected to PostgreSQL'}";
     "api-gateway-1          | {'level':'fatal','ts':1763352222,'caller':'server/main.go:95','msg':'Failed to connect to database','error':'failed to ping database: dial error (dial tcp 172.21.0.14:5432: connect: connection refused)'}";
     "   ";
     "couchdb0               | [notice] 2025-11-17T04:04:09.169298Z nonode@nohost <0.1086.0> 655de37663 localhost:5984 127.0.0.1 admin GET /_up 200 ok 2";
     "api-gateway-nginx      | 2025/11/17 04:04:17 [error] 24#24: *11 connect() failed (111: Connection refused) while connecting to upstream, client: 127.0.0.1, server: localhost, request: 'GET /health HTTP/1.1', upstream: 'http://172.21.0.15:8080/health', host: '127.0.0.1'";
     "api-gateway-2          | {'level':'info','ts':1763352257,'caller':'middleware/logger.go:56','msg':'HTTP request','method':'GET','path':'/health','status':200,'user_agent':'Wget'}";
     "not a log line"].

(** a decoder that rejects every document *)
Definition json_loads_never (s : string) : res pyval := Raise DecodeError.

(** plain-text lines in the shape of the sample, and a line without the
    bar *)
Definition plain_logs : list string :=
  ["couchdb0               | [notice] 2025-11-17T04:04:09.169298Z nonode@nohost <0.1086.0> 655de37663 localhost:5984 127.0.0.1 admin GET /_up 200 ok 2";
   "node-exporter-proxy    | 172.21.0.8 - - [17/Nov/2025:04:04:13 +0000] GET /metrics HTTP/1.1 200 8953 Prometheus/2.45.0";
   "not a log line"].

(** the line of the sample that nginx wrote *)
Definition nginx_line : string :=
  Json.q "api-gateway-nginx      | 2025/11/17 04:04:17 [error] 24#24: *11 connect() failed (111: Connection refused) while connecting to upstream, client: 127.0.0.1, server: localhost, request: 'GET /health HTTP/1.1', upstream: 'http://172.21.0.15:8080/health', host: '127.0.0.1'".

(** the keys of a structured payload that [parse_log_line] reads *)
Definition consumed_keys : list string :=
  ["level"; "msg"; "ts"; "error"; "caller"].

Definition agree_on_consumed (d1 d2 : list (string * pyval)) : Prop :=
  forall k, In k consumed_keys -> dict_lookup d1 k = dict_lookup d2 k.

(** An analysis without what is copied or computed from the text of the
    line itself: the [raw] fields and the [status] of the health checks. *)
Definition forget_line_text (a : analysis) : analysis :=
  mk_analysis (services a)
    (map (fun x => mk_error (err_service x) (err_message x) (err_error x)
                     (err_caller x) "") (errors a))
    (warnings a) (info a)
    (map (fun x => mk_fatal (fat_service x) (fat_message x) (fat_error x) "")
       (fatal a))
    (map (fun x => mk_conn (conn_service x) (conn_message x) (conn_error x) "")
       (connection_errors a))
    (startup_sequence a)
    (map (fun x => mk_health (hc_service x) (hc_message x) "")
       (health_checks a))
    (service_status a).

(** Two computations that, from analyses equal up to the text of the
    line, end in analyses equal up to it, with the same result. *)
Definition related {A : Type} (m1 m2 : M analysis A) : Prop :=
  forall s1 s2,
    forget_line_text s1 = forget_line_text s2 ->
    forget_line_text (fst (m1 s1)) = forget_line_text (fst (m2 s2))
    /\ snd (m1 s1) = snd (m2 s2).

(** two health-check lines that differ in a field that is not consumed *)
Definition health_line_200 : string :=
  Json.q "svc | {'msg':'health probe','status':200}".
Definition health_line_500 : string :=
  Json.q "svc | {'msg':'health probe','status':500}".

(** a connection error of nginx with an upstream outside 172.21.0.x *)
Definition gateway_line : string :=
  "api-gateway-nginx | connect() failed (111: Connection refused) while connecting to upstream http://10.0.0.5:8080/health".

Definition is_gateway_label (l : out_line) : bool :=
  match l with LabelApiGateway => true | _ => false end.

Definition is_label (l : out_line) : bool :=
  match l with
  | LabelFabricPeer | LabelPostgreSQL | LabelApiGateway => true
  | _ => false
  end.

(** the message and the error of a connection entry are strs *)
Definition conn_entry_str (x : conn_entry) : Prop :=
  exists m er, conn_message x = PStr m /\ conn_error x = PStr er.

(** ** Notions for the seed generator *)

(** What one pass of a loop of the script chose or drew: the transaction
    id, the id it made ([r_id]: a batch or a package), the id it refers to
    ([r_ref]: the batch of a package, the package of an update or a
    transfer), the block number, the block hash, the timestamp. *)
Record row : Type := mk_row {
  r_tx_id : string;
  r_id : string;
  r_ref : string;
  r_block_number : Z;
  r_block_hash : string;
  r_timestamp : string }.

Definition batch_sql (ir : nat * row) : string :=
  let (i, r) := ir in
  Seed.insert_sql (r_tx_id r) "CreateBatch" (Seed.batch_args (r_id r) i)
    (r_block_number r) (r_block_hash r) (r_timestamp r).
Definition package_sql (r : row) : string :=
  Seed.insert_sql (r_tx_id r) "CreatePackage"
    (Seed.package_args (r_id r) (r_ref r))
    (r_block_number r) (r_block_hash r) (r_timestamp r).
Definition update_sql (r : row) : string :=
  Seed.insert_sql (r_tx_id r) "UpdatePackage" (Seed.update_args (r_ref r))
    (r_block_number r) (r_block_hash r) (r_timestamp r).
Definition transfer_sql (r : row) : string :=
  Seed.insert_sql (r_tx_id r) "TransferPackage" (Seed.transfer_args (r_ref r))
    (r_block_number r) (r_block_hash r) (r_timestamp r).

(** a world for the runs below *)
Definition demo_entropy (n : nat) : N := N.of_nat (7 * n + 3).
Definition demo_clock (n : nat) : N := N.of_nat (1000 + n).
Definition demo_digest (s : string) : string := ("h(" ++ s ++ ")")%string.
Definition demo_uuid_str (u : N) : string :=
  ("u" ++ Seed.str_of_Z (Z.of_N u))%string.
Definition demo_uuid_hex (u : N) : string :=
  ("00ab" ++ Seed.str_of_Z (Z.of_N u) ++ "cdef0123456789")%string.
Definition demo_iso (t : N) (days : Z) : string :=
  (Seed.str_of_Z (Z.of_N t) ++ "-" ++ Seed.str_of_Z days)%string.
Definition demo_output : res (list string) :=
  Seed.output demo_entropy demo_clock demo_digest demo_uuid_str
    demo_uuid_hex demo_iso.

(** ** Notions for the reference decoder *)

(** a character that a JSON string holds as it is *)
Definition plain_char (c : ascii) : bool :=
  negb (Ascii.eqb c dquote) && negb (Ascii.eqb c Json.backslash)
  && negb (nat_of_ascii c <? 32)%nat.

Definition plain (s : string) : bool := all_chars plain_char s.

(** the text of an object whose values are strings, without white space:
    from just after the opening quote of its first key *)
Fixpoint render_members (k v : string) (more : list (string * string))
  : string :=
  match more with
  | [] => (k ++ String dquote ":" ++ dq v ++ "}")%string
  | (k', v') :: more' =>
      (k ++ String dquote ":" ++ dq v ++ "," ++ String dquote ""
       ++ render_members k' v' more')%string
  end.

Definition render_object (k v : string) (more : list (string * string))
  : string :=
  String "{" (String dquote (render_members k v more)).

(** the dict of these pairs *)
Definition dict_of (pairs : list (string * pyval))
           (kvs : list (string * string)) : list (string * pyval) :=
  fold_left (fun d kv => dict_set d (fst kv) (PStr (snd kv))) kvs pairs.

(** the payload of the third testable property, for a message [m] and an
    error [e] *)
Definition error_payload (m e : string) : string :=
  render_object "level" "error" [("msg", m); ("error", e)].

(** ** [print_analysis] and [main]: the whole report

    A line of the report that formats values of the analysis carries
    them; the title of a section stands for the title and the rule under
    it; the lines of the connection section are those of
    [print_connection_errors]. *)

Inductive section : Type :=
| SecServices | SecErrors | SecWarnings | SecFatal | SecStartup | SecHealth
| SecSummary | SecAdvice.

Inductive report_line : Type :=
| DoubleRule                              (* "=" * 80 *)
| ReportTitle
| SectionTitle (s : section)
| ServiceCount (svc : string) (count : nat)
| ErrorLine (svc : option string) (msg : pyval)
| ErrorDetail (e : pyval)
| ErrorCaller (c : pyval)
| NoErrors
| WarningLine (svc : option string) (msg : pyval)
| NoWarnings
| FatalService (svc : option string)
| FatalMessage (msg : pyval)
| FatalDetail (e : pyval)
| NoFatal
| Conn (l : out_line)
| StartupService (svc : option string)
| StartupMessage (msg : pyval)
| HealthSummary (svc : option string) (success total : nat)
| NoHealthChecks
| SummaryServices (n : nat)
| SummaryErrors (n : nat)
| SummaryWarnings (n : nat)
| SummaryFatal (n : nat)
| SummaryConnections (n : nat)
| AdviceFatal                             (* the heading under [fatal] *)
| AdviceDatabase                          (* the two lines on the database *)
| AdviceConnection                        (* the heading under the errors *)
| AdviceFabric                            (* the three lines on the peer *)
| AdvicePostgres                          (* the two lines on PostgreSQL *)
| AdviceNginx                             (* the three lines on nginx *)
| AdviceHealthOk
| BlankLine.

(** [print(...)] into the report: the line is collected, as by [emit] *)
Definition say (l : report_line) : M (list report_line) unit :=
  modify (fun out => out ++ [l]).

(** the prints of a computation on [out_line], in the report *)
Definition embed (m : M (list out_line) unit) : M (list report_line) unit :=
  fun out => let (l, r) := m [] in (out ++ map Conn l, r).

(** [sorted(items, key=lambda x: x[1], reverse=True)]: by count, largest
    first; the sort is stable, items with the same count keep their
    order. *)
Fixpoint insert_by_count (x : string * nat) (l : list (string * nat))
  : list (string * nat) :=
  match l with
  | [] => [x]
  | y :: l' =>
      if (snd y <=? snd x)%nat then x :: y :: l'
      else y :: insert_by_count x l'
  end.

Definition sorted_by_count (items : list (string * nat))
  : list (string * nat) :=
  fold_right insert_by_count [] items.

(** the keys of the two [defaultdict(list)]: a service, or [None] *)
Definition key_eqb (a b : option string) : bool :=
  match a, b with
  | Some x, Some y => x =? y
  | None, None => true
  | _, _ => false
  end.

(** [d[k].append(v)] on a [defaultdict(list)] *)
Fixpoint group_append {V : Type} (d : list (option string * list V))
         (k : option string) (v : V) : list (option string * list V) :=
  match d with
  | [] => [(k, [v])]
  | (k', vs) :: d' =>
      if key_eqb k' k then (k', vs ++ [v]) :: d'
      else (k', vs) :: group_append d' k v
  end.

(** the loop that fills it *)
Definition group_by {E V : Type} (key : E -> option string) (val : E -> V)
           (es : list E) : list (option string * list V) :=
  fold_left (fun d e => group_append d (key e) (val e)) es [].

(** [l[-n:]] for [n > 0] *)
Definition last_n {V : Type} (n : nat) (l : list V) : list V :=
  skipn (List.length l - n) l.

Definition print_services (a : analysis) : M (list report_line) unit :=
  say (SectionTitle SecServices) ;;
  for_each (sorted_by_count (services a))
    (fun sc => say (ServiceCount (fst sc) (snd sc))).

Definition print_errors (a : analysis) : M (list report_line) unit :=
  say (SectionTitle SecErrors) ;;
  match errors a with
  | [] => say NoErrors
  | _ :: _ =>
      for_each (errors a)
        (fun err =>
           say (ErrorLine (err_service err) (err_message err)) ;;
           when (truthy (err_error err)) (say (ErrorDetail (err_error err))) ;;
           when (truthy (err_caller err))
             (say (ErrorCaller (err_caller err))))
  end.

Definition print_warnings (a : analysis) : M (list report_line) unit :=
  say (SectionTitle SecWarnings) ;;
  match warnings a with
  | [] => say NoWarnings
  | _ :: _ =>
      for_each (firstn 10 (warnings a))
        (fun warn => say (WarningLine (lvl_service warn) (lvl_message warn)))
  end.

Definition print_fatal (a : analysis) : M (list report_line) unit :=
  say (SectionTitle SecFatal) ;;
  match fatal a with
  | [] => say NoFatal
  | _ :: _ =>
      for_each (fatal a)
        (fun f =>
           say (FatalService (fat_service f)) ;;
           say (FatalMessage (fat_message f)) ;;
           when (truthy (fat_error f)) (say (FatalDetail (fat_error f))))
  end.

Definition print_startup (a : analysis) : M (list report_line) unit :=
  say (SectionTitle SecStartup) ;;
  let startup_by_service :=
    group_by st_service st_message (startup_sequence a) in
  for_each startup_by_service
    (fun sm =>
       say (StartupService (fst sm)) ;;
       for_each (last_n 5 (snd sm)) (fun msg => say (StartupMessage msg))).

Definition print_health (a : analysis) : M (list report_line) unit :=
  say (SectionTitle SecHealth) ;;
  match health_checks a with
  | [] => say NoHealthChecks
  | _ :: _ =>
      let health_by_service :=
        group_by hc_service hc_status (health_checks a) in
      for_each health_by_service
        (fun ss =>
           let success :=
             List.length (filter (fun s => s =? "200") (snd ss)) in
           let total := List.length (snd ss) in
           say (HealthSummary (fst ss) success total))
  end.

Definition print_summary (a : analysis) : M (list report_line) unit :=
  say DoubleRule ;;
  say (SectionTitle SecSummary) ;;
  say (SummaryServices (List.length (services a))) ;;
  say (SummaryErrors (List.length (errors a))) ;;
  say (SummaryWarnings (List.length (warnings a))) ;;
  say (SummaryFatal (List.length (fatal a))) ;;
  say (SummaryConnections (List.length (connection_errors a))) ;;
  say DoubleRule.

Definition print_analysis (a : analysis) : M (list report_line) unit :=
  say DoubleRule ;; say ReportTitle ;; say DoubleRule ;;
  print_services a ;;
  print_errors a ;;
  print_warnings a ;;
  print_fatal a ;;
  embed (print_connection_errors a) ;;
  print_startup a ;;
  print_health a ;;
  print_summary a.

(** The recommendations of [main]. *)

(** [if 'database' in fatal['error'].lower(): ...] *)
Definition advise_fatal (f : fatal_entry) : M (list report_line) unit :=
  el <- lift (py_lower (fat_error f)) ;;
  when (contains "database" el) (say AdviceDatabase).

(** the [if]/[elif] on the error of a connection error *)
Definition advise_connection (conn_err : conn_entry)
  : M (list report_line) unit :=
  el <- lift (py_lower (conn_error conn_err)) ;;
  is_fabric <- (if contains "fabric" el then ret true
                else lift (py_in "7051" (conn_error conn_err))) ;;
  if is_fabric then say AdviceFabric
  else
    el <- lift (py_lower (conn_error conn_err)) ;;
    is_postgres <- (if contains "postgres" el then ret true
                    else lift (py_in "5432" (conn_error conn_err))) ;;
    when is_postgres (say AdvicePostgres).

(** [any('nginx' in err.get('service', '') for err in ...)]: the key is
    always there, so the default is never taken, and [None] is not
    iterable. *)
Fixpoint any_nginx (es : list conn_entry) : res bool :=
  match es with
  | [] => Ok false
  | err :: es' =>
      match conn_service err with
      | None => Raise TypeError
      | Some s => if contains "nginx" s then Ok true else any_nginx es'
      end
  end.

Definition recommend (a : analysis) : M (list report_line) unit :=
  say (SectionTitle SecAdvice) ;;
  when (match fatal a with [] => false | _ => true end)
    (say AdviceFatal ;; for_each (fatal a) advise_fatal) ;;
  when (match connection_errors a with [] => false | _ => true end)
    (say AdviceConnection ;;
     for_each (connection_errors a) advise_connection) ;;
  nginx <- lift (any_nginx (connection_errors a)) ;;
  when nginx (say AdviceNginx) ;;
  when (0 <? List.length (health_checks a))%nat (say AdviceHealthOk) ;;
  say BlankLine.

(** [main], for the lines [logs] in the place of the embedded sample. *)
Definition main_with (json_loads : string -> res pyval) (logs : list string)
  : M (list report_line) unit :=
  a <- lift (analyze_logs json_loads logs) ;;
  print_analysis a ;;
  recommend a.

(** ** The report on a standard output

    [print] writes to [sys.stdout] and raises when the stream refuses the
    text (a character that its encoding does not have, a closed pipe).
    The printers above collect the lines of the report; [on_stdout]
    replays them on a stream that accepts some lines and refuses others.
    The run stops at the first line that the stream refuses: the lines
    before it are printed, and the exception is the one of [print]. (A
    line of the report that stands for two consecutive [print]s is
    refused when one of them is.) *)

Inductive outcome : Type :=
| Completed                        (* the run returned *)
| PrintRaised (l : report_line)    (* [print] raised on this line *)
| Raised (e : exn).                (* the code raised, outside [print] *)

Fixpoint printed_until (accepts : report_line -> bool)
         (lines : list report_line)
  : list report_line * option report_line :=
  match lines with
  | [] => ([], None)
  | l :: ls =>
      if accepts l
      then let (p, r) := printed_until accepts ls in (l :: p, r)
      else ([], Some l)
  end.

Definition on_stdout (accepts : report_line -> bool)
           (m : M (list report_line) unit) : list report_line * outcome :=
  let (lines, r) := m [] in
  match printed_until accepts lines with
  | (p, Some l) => (p, PrintRaised l)
  | (p, None) =>
      (p, match r with Ok _ => Completed | Raise e => Raised e end)
  end.

(** ** Notions for the further properties *)

Definition nonblank (line : string) : bool := negb (strip line =? "").

(** a line that is not blank and has the token [k] *)
Definition token_is (k : string) (line : string) : bool :=
  nonblank line
  && match re_match line with
     | Some (svc, _) => svc =? k
     | None => false
     end.

(** [d[k]] of the [defaultdict(int)], without inserting *)
Definition count_of (d : list (string * nat)) (k : string) : nat :=
  match dict_lookup d k with Some n => n | None => 0 end.

Definition is_prefix {A : Type} (l l' : list A) : Prop :=
  exists t, l' = l ++ t.

(** every list of [a'] starts with the list of [a] *)
Definition extends (a a' : analysis) : Prop :=
  is_prefix (errors a) (errors a')
  /\ is_prefix (warnings a) (warnings a')
  /\ is_prefix (info a) (info a')
  /\ is_prefix (fatal a) (fatal a')
  /\ is_prefix (connection_errors a) (connection_errors a')
  /\ is_prefix (startup_sequence a) (startup_sequence a')
  /\ is_prefix (health_checks a) (health_checks a').

Definition level_total (a : analysis) : nat :=
  List.length (errors a) + List.length (warnings a)
  + List.length (fatal a) + List.length (info a).

Definition is_str (v : pyval) : Prop := exists s, v = PStr s.

(** the messages and the errors of all records are strs *)
Definition str_fields (a : analysis) : Prop :=
  Forall (fun x => is_str (err_message x) /\ is_str (err_error x)) (errors a)
  /\ Forall (fun x => is_str (lvl_message x)) (warnings a)
  /\ Forall (fun x => is_str (lvl_message x)) (info a)
  /\ Forall (fun x => is_str (fat_message x) /\ is_str (fat_error x))
       (fatal a)
  /\ Forall (fun x => is_str (conn_message x) /\ is_str (conn_error x))
       (connection_errors a)
  /\ Forall (fun x => is_str (st_message x)) (startup_sequence a)
  /\ Forall (fun x => is_str (hc_message x)) (health_checks a).

Definition has_token (o : option string) : Prop :=
  exists svc, o = Some svc /\ svc <> "".

(** the records of the three substring tests all have a service *)
Definition heuristics_have_service (a : analysis) : Prop :=
  Forall (fun x => has_token (conn_service x)) (connection_errors a)
  /\ Forall (fun x => has_token (st_service x)) (startup_sequence a)
  /\ Forall (fun x => has_token (hc_service x)) (health_checks a).

(** The analysis after a line whose level, message and error are the strs
    [lvl], [m] and [e]: the five blocks of the loop body, one after the
    other. *)
Definition run_line (line : string) (p : parsed) (lvl m e : string)
           (a : analysis) : analysis :=
  let a1 := fst (count_service p a) in
  let a2 := fst (route_level p lvl (PStr m) (PStr e) a1) in
  let a3 := if is_connection_text (lower (m ++ " " ++ e))
            then add_connection_error
                   (mk_conn (service p) (PStr m) (PStr e) (raw p)) a2
            else a2 in
  let a4 := if existsb (fun keyword => contains keyword (lower m))
                 startup_keywords
            then add_startup (mk_startup (service p) (PStr m) (timestamp p)) a3
            else a3 in
  if contains "health" (lower m) || contains "/health" m
  then add_health_check
         (mk_health (service p) (PStr m)
            (if contains status_200 line then "200" else "unknown")) a4
  else a4.

(** [d.get(k)] on a [defaultdict(list)] *)
Fixpoint group_lookup {V : Type} (d : list (option string * list V))
         (k : option string) : option (list V) :=
  match d with
  | [] => None
  | (k', vs) :: d' => if key_eqb k' k then Some vs else group_lookup d' k
  end.

(** larger counts first *)
Definition count_ge (x y : string * nat) : Prop := snd y <= snd x.

(** what the loop of a section prints for one group *)
Definition startup_lines (sm : option string * list pyval)
  : list report_line :=
  StartupService (fst sm) :: map StartupMessage (last_n 5 (snd sm)).

Definition health_line (ss : option string * list string) : report_line :=
  HealthSummary (fst ss)
    (List.length (filter (fun s => s =? "200") (snd ss)))
    (List.length (snd ss)).

(** a computation on the report that cannot raise *)
Definition returns {S : Type} (m : M S unit) : Prop :=
  forall s, snd (m s) = Ok tt.

(** a row of a phase of the seed script: its block number is in the
    range of the phase, its transaction id and its block hash are
    digests, its timestamp is a reading of the clock moved back by a
    number of days of the phase *)
Definition in_phase (clock : nat -> N) (sha : string -> string)
           (iso : N -> Z -> string) (lo hi days_lo days_hi : Z) (r : row)
  : Prop :=
  (lo <= r_block_number r <= hi)%Z
  /\ (exists x, r_tx_id r = sha x)
  /\ (exists y, r_block_hash r = sha y)
  /\ exists n days,
      (days_lo <= days <= days_hi)%Z
      /\ r_timestamp r = iso (clock n) days.

(** the id of a row is [prefix] and the first eight digits of a UUID, in
    upper case *)
Definition made_id (prefix : string) (uuid_hex : N -> string) (r : row)
  : Prop :=
  exists u, r_id r = (prefix ++ Seed.upper (take 8 (uuid_hex u)))%string.

(** [u.hex] of a UUID: 32 hexadecimal digits, the letters in lower case *)
Definition is_hex_lower (c : ascii) : bool :=
  let n := nat_of_ascii c in
  (((48 <=? n) && (n <=? 57)) || ((97 <=? n) && (n <=? 102)))%nat.
Definition is_hex_upper (c : ascii) : bool :=
  let n := nat_of_ascii c in
  (((48 <=? n) && (n <=? 57)) || ((65 <=? n) && (n <=? 70)))%nat.
Definition is_uuid_hex (s : string) : bool :=
  ((String.length s =? 32)%nat && all_chars is_hex_lower s)%bool.

(** [prefix] and eight hexadecimal digits, the letters in upper case *)
Definition id_shape (prefix id : string) : Prop :=
  exists t,
    id = (prefix ++ t)%string /\ String.length t = 8
    /\ all_chars is_hex_upper t = true.

(** a decoder that agrees with the reference decoder on the texts that
    start with a brace, and on the others answers a dict of its own *)
Definition json_loads_other (s : string) : res pyval :=
  if startswith "{" s then Json.json_loads_ref s
  else Ok (PDict [("level"%string, PStr "fatal")]).

(** In a run of [analyze_logs] the line [line] appends one entry to
    [errors], with the service [svc], the message [m] and the error [e],
    and nothing to the other level lists: whatever lines [pre] come
    before it, if the run over them returns, the run over [pre] and the
    line returns with that one entry more; and whatever lines [post]
    follow, the entry stays where it was put. *)
Definition appends_error (json_loads : string -> res pyval)
           (line svc m e : string) : Prop :=
  forall (pre : list string) (a : analysis),
    analyze_logs json_loads pre = Ok a ->
    exists a' entry,
      analyze_logs json_loads (pre ++ [line]) = Ok a'
      /\ errors a' = errors a ++ [entry]
      /\ err_service entry = Some svc
      /\ err_message entry = PStr m
      /\ err_error entry = PStr e
      /\ warnings a' = warnings a /\ fatal a' = fatal a /\ info a' = info a
      /\ forall (post : list string) (r : analysis),
          analyze_logs json_loads (pre ++ line :: post) = Ok r ->
          exists rest, errors r = errors a ++ entry :: rest.

(** ** Reading a statement back

    The statements that the seed script prints are text. What they say is
    read off the text itself: a statement is cut at its apostrophes, the
    [args] column at its double quotes. *)

(** [s.split(c)] for a separator of one character *)
Fixpoint split_on (c : ascii) (s : string) : list string :=
  match s with
  | EmptyString => [EmptyString]
  | String x s' =>
      if Ascii.eqb x c then EmptyString :: split_on c s'
      else match split_on c s' with
           | [] => [String x EmptyString]
           | h :: t => String x h :: t
           end
  end.

Definition apostrophe : ascii := "039".

(** no character of [s] is [c] *)
Definition free_of (c : ascii) (s : string) : bool :=
  all_chars (fun x => negb (Ascii.eqb x c)) s.

(** a text that can stand between apostrophes in a statement *)
Definition sql_safe (s : string) : bool := free_of apostrophe s.

(** the values of one row of [transactions], as a statement gives them *)
Record insert_row : Type := mk_insert_row {
  i_tx_id : string;
  i_channel : string;
  i_chaincode : string;
  i_function : string;
  i_args : string;
  i_status : string;
  i_block_number : Z;
  i_block_hash : string;
  i_timestamp : string }.

Definition insert_head : string :=
  ("INSERT INTO transactions (id, tx_id, channel_name, chaincode_name, function_name, args, status, block_number, block_hash, timestamp) "
   ++ String newline "    VALUES (gen_random_uuid(), ")%string.

(** a decimal integer *)
Definition read_Z (s : string) : option Z :=
  option_map Z.of_int (NilZero.int_of_string s).

(** the text between two string literals that holds the one number of a
    statement: a comma, a blank, the digits, a comma, a blank *)
Definition read_number (seg : string) : option Z :=
  match split_on "," seg with
  | [a; String sp digits; b] =>
      if (a =? "")%string && Ascii.eqb sp " " && (b =? " ")%string
      then read_Z digits
      else None
  | _ => None
  end.

(** An INSERT statement into [transactions], read back: the text is cut
    at the apostrophes, so that the string literals are every second
    piece; the pieces between them must be the fixed text and the one
    number. A statement with an apostrophe inside a literal does not
    read. *)
Definition read_insert (s : string) : option insert_row :=
  match split_on apostrophe s with
  | [head; tx; c1; channel; c2; chaincode; c3; fn; c4; args; c5; status;
     num; hash; c6; ts; tail] =>
      if ((head =? insert_head) && (c1 =? ", ") && (c2 =? ", ")
          && (c3 =? ", ") && (c4 =? ", ") && (c5 =? ", ") && (c6 =? ", ")
          && (tail =? ");"))%string
      then match read_number num with
           | Some n =>
               Some (mk_insert_row tx channel chaincode fn args status n
                       hash ts)
           | None => None
           end
      else None
  | _ => None
  end.

(** The JSON array of strs of the [args] column, read back: cut at the
    double quotes. *)
Fixpoint read_items (segs : list string) : option (list string) :=
  match segs with
  | [x; close] => if (close =? "]")%string then Some [x] else None
  | x :: sep :: rest =>
      if (sep =? ", ")%string then option_map (cons x) (read_items rest)
      else None
  | _ => None
  end.

Definition read_args (args : string) : option (list string) :=
  match split_on dquote args with
  | open :: segs => if (open =? "[")%string then read_items segs else None
  | [] => None
  end.

(** the statement [s] is an INSERT into [transactions] of a call of the
    chaincode function [fn] on the channel, with the chaincode and the
    status that the script fixes, and its arguments are the strs [argl] *)
Definition reads_as (s fn : string) (argl : list string) : Prop :=
  exists v,
    read_insert s = Some v
    /\ i_function v = fn
    /\ i_channel v = "ibnchannel"%string
    /\ i_chaincode v = "teatrace"%string
    /\ i_status v = "VALID"%string
    /\ read_args (i_args v) = Some argl.

(** the block number that the statement [s] gives is in [lo..hi], and its
    timestamp is a reading of the clock moved back by [days_lo..days_hi]
    days *)
Definition reads_in_phase (clock : nat -> N) (iso : N -> Z -> string)
           (lo hi days_lo days_hi : Z) (s : string) : Prop :=
  exists v,
    read_insert s = Some v
    /\ (lo <= i_block_number v <= hi)%Z
    /\ exists n days,
        (days_lo <= days <= days_hi)%Z
        /\ i_timestamp v = iso (clock n) days.

(** a digit or a minus sign *)
Definition is_num_char (c : ascii) : bool :=
  let n := nat_of_ascii c in (((48 <=? n) && (n <=? 57)) || (n =? 45))%nat.

(** a world in which the digests and the UUIDs are hexadecimal *)
Definition hex_digest (s : string) : string :=
  if (String.length s mod 2 =? 0)%nat
  then "9f86d081884c7d659a2feaa0c55ad015a3bf4f1b2b0b822cd15d6c15b0f00a08"
  else "60303ae22b998861bce3b28f33eec1be758a213c86c93c076dbe9f558c11c752".
Definition hex_uuid (u : N) : string :=
  if N.even (N.div u 42) then "0123456789abcdef0123456789abcdef"
  else "fedcba9876543210fedcba9876543210".

(** the keys of a list in the order in which they are first seen, as a
    [dict] keeps them *)
Fixpoint first_seen_from (seen ks : list (option string))
  : list (option string) :=
  match ks with
  | [] => []
  | k :: ks' =>
      if existsb (fun k' => key_eqb k' k) seen then first_seen_from seen ks'
      else k :: first_seen_from (seen ++ [k]) ks'
  end.
Definition first_seen (ks : list (option string)) : list (option string) :=
  first_seen_from [] ks.

(** * Properties *)

(** ** Strings *)

Lemma append_empty_r (s : string) : (s ++ "")%string = s.
Proof. induction s; simpl; congruence. Qed.

Lemma append_assoc (a b c : string) :
  ((a ++ b) ++ c)%string = (a ++ (b ++ c))%string.
Proof. induction a; simpl; congruence. Qed.

Lemma lower_append (a b : string) :
  lower (a ++ b) = (lower a ++ lower b)%string.
Proof. induction a; simpl; congruence. Qed.

Lemma prefix_empty (s : string) : prefix "" s = true.
Proof. destruct s; reflexivity. Qed.

Lemma prefix_append (p s t : string) :
  prefix p s = true -> prefix p (s ++ t) = true.
Proof.
  revert s; induction p as [|c p IH]; intros s H.
  - apply prefix_empty.
  - destruct s as [|d s]; simpl in *; [discriminate|].
    destruct (ascii_dec c d); [auto | discriminate].
Qed.

Lemma contains_append_l (sub s t : string) :
  contains sub s = true -> contains sub (s ++ t) = true.
Proof.
  induction s as [|c s IH]; simpl; intros H.
  - rewrite orb_false_r in H.
    destruct sub; [|discriminate].
    destruct t; reflexivity.
  - apply orb_true_iff in H. apply orb_true_iff.
    destruct H as [H|H]; [left | right; auto].
    exact (prefix_append sub (String c s) t H).
Qed.

Lemma contains_append_r (sub s t : string) :
  contains sub t = true -> contains sub (s ++ t) = true.
Proof.
  intros H. induction s as [|c s IH]; simpl; [assumption|].
  rewrite IH. apply orb_true_r.
Qed.

Lemma all_chars_append (p : ascii -> bool) (a b : string) :
  all_chars p (a ++ b) = all_chars p a && all_chars p b.
Proof.
  induction a as [|c a IH]; simpl; [reflexivity|].
  rewrite IH. apply andb_assoc.
Qed.

(** A string with a character that is not white space is not blank. *)
Lemma lstrip_nonspace (c : ascii) (s : string) :
  isspace c = false -> lstrip (String c s) = String c s.
Proof. intros H. simpl. rewrite H. reflexivity. Qed.

Lemma rstrip_first_nonspace (c : ascii) (s : string) :
  isspace c = false -> rstrip (String c s) = String c (rstrip s).
Proof. intros H. simpl. rewrite H. reflexivity. Qed.

Lemma strip_starts_nonspace (c : ascii) (s : string) :
  isspace c = false -> strip (String c s) = String c (rstrip s).
Proof.
  intros H. unfold strip. rewrite lstrip_nonspace by assumption.
  apply rstrip_first_nonspace; assumption.
Qed.

(** ** The pattern *)

Section RegexFacts.
Context {R : Type}.
Variable p : ascii -> bool.
Variable k : string -> string -> option R.

(** The longest run is tried first: when the continuation accepts it, that
    is the match. *)
Lemma re_star_longest (pre rest acc : string) (r : R) :
  all_chars p pre = true -> stops p rest = true ->
  k (acc ++ pre)%string rest = Some r ->
  re_star p k acc (pre ++ rest) = Some r.
Proof.
  revert acc. induction pre as [|c pre IH]; intros acc Hall Hstop Hk.
  - rewrite append_empty_r in Hk. simpl.
    destruct rest as [|d rest]; simpl; [assumption|].
    simpl in Hstop. destruct (p d); [discriminate | assumption].
  - simpl in Hall. apply andb_true_iff in Hall as [Hc Hall].
    simpl. rewrite Hc.
    rewrite (IH (acc ++ String c "")%string Hall Hstop).
    + reflexivity.
    + rewrite append_assoc. exact Hk.
Qed.

Lemma re_plus_longest (c : ascii) (pre rest : string) (r : R) :
  p c = true -> all_chars p pre = true -> stops p rest = true ->
  k (String c pre) rest = Some r ->
  re_plus p k (String c pre ++ rest) = Some r.
Proof.
  intros Hc Hall Hstop Hk. simpl. rewrite Hc.
  apply re_star_longest; assumption.
Qed.

(** Whatever a repetition matched is a run of the class, and the
    continuation accepted what follows it. *)
Lemma re_star_sound (acc s : string) (r : R) :
  re_star p k acc s = Some r ->
  exists pre rest,
    s = (pre ++ rest)%string /\ all_chars p pre = true
    /\ k (acc ++ pre)%string rest = Some r.
Proof.
  revert acc. induction s as [|c s IH]; intros acc H; simpl in H.
  - exists "", "". rewrite (append_empty_r acc). auto.
  - destruct (p c) eqn:Hc.
    + destruct (re_star p k (acc ++ String c "") s) eqn:Hs.
      * inversion H; subst. apply IH in Hs as (pre & rest & -> & Hall & Hk).
        exists (String c pre), rest. simpl. rewrite Hc, Hall.
        rewrite append_assoc in Hk. auto.
      * exists "", (String c s). rewrite (append_empty_r acc). auto.
    + exists "", (String c s). rewrite (append_empty_r acc). auto.
Qed.

Lemma re_plus_sound (s : string) (r : R) :
  re_plus p k s = Some r ->
  exists c pre rest,
    s = String c (pre ++ rest) /\ p c = true /\ all_chars p pre = true
    /\ k (String c pre) rest = Some r.
Proof.
  destruct s as [|c s]; simpl; [discriminate|].
  destruct (p c) eqn:Hc; [|discriminate].
  intros H. apply re_star_sound in H as (pre & rest & -> & Hall & Hk).
  exists c, pre, rest. auto.
Qed.

End RegexFacts.

(** What a matching line looks like: a token, white space, the bar, white
    space, the payload, and at most a final newline. *)
Lemma re_match_sound (line svc payload : string) :
  re_match line = Some (svc, payload) ->
  exists ws1 ws2 tail,
    line = (svc ++ ws1 ++ "|" ++ ws2 ++ payload ++ tail)%string
    /\ svc <> "" /\ all_chars nonspace svc = true
    /\ ws1 <> "" /\ all_chars isspace ws1 = true
    /\ ws2 <> "" /\ all_chars isspace ws2 = true
    /\ payload <> "" /\ all_chars dot payload = true
    /\ (tail = "" \/ tail = String newline "").
Proof.
  unfold re_match. intros H.
  apply re_plus_sound in H as (c1 & g1 & s1 & -> & Hc1 & Hg1 & H).
  apply re_plus_sound in H as (c2 & w1 & s2 & -> & Hc2 & Hw1 & H).
  unfold re_char in H. destruct s2 as [|b s3]; [discriminate|].
  destruct (Ascii.eqb_spec b "|"); [subst b | discriminate].
  apply re_plus_sound in H as (c3 & w2 & s4 & -> & Hc3 & Hw2 & H).
  apply re_plus_sound in H as (c4 & g2 & s5 & -> & Hc4 & Hg2 & H).
  assert (Htail : (s5 = "" \/ s5 = String newline "")
                  /\ (String c1 g1, String c4 g2) = (svc, payload)).
  { unfold re_end in H. destruct s5 as [|d [|d' s6]].
    - inversion H. auto.
    - destruct (Ascii.eqb_spec d newline); [subst d | discriminate].
      inversion H. auto.
    - discriminate. }
  destruct Htail as [Htail Heq]. inversion Heq; subst svc payload.
  exists (String c2 w1), (String c3 w2), s5.
  repeat split; try discriminate; simpl;
    try (rewrite ?Hc1, ?Hc2, ?Hc3, ?Hc4; assumption); assumption.
Qed.

(** A token, white space, the bar, white space and a payload that starts
    with a character that is not white space and has no newline: the line
    matches, with these two groups. *)
Lemma re_match_complete (svc ws1 ws2 payload : string) :
  svc <> "" -> all_chars nonspace svc = true ->
  ws1 <> "" -> all_chars isspace ws1 = true ->
  ws2 <> "" -> all_chars isspace ws2 = true ->
  payload <> "" -> stops isspace payload = true ->
  all_chars dot payload = true ->
  re_match (svc ++ ws1 ++ "|" ++ ws2 ++ payload) = Some (svc, payload).
Proof.
  intros Hs Hsa Hw1 Hw1a Hw2 Hw2a Hp Hps Hpa.
  destruct svc as [|c1 g1]; [congruence|].
  destruct ws1 as [|c2 w1]; [congruence|].
  destruct ws2 as [|c3 w2]; [congruence|].
  destruct payload as [|c4 g2]; [congruence|].
  simpl in Hsa, Hw1a, Hw2a, Hpa, Hps.
  apply andb_true_iff in Hsa as [Hc1 Hg1].
  apply andb_true_iff in Hw1a as [Hc2 Hw1a].
  apply andb_true_iff in Hw2a as [Hc3 Hw2a].
  apply andb_true_iff in Hpa as [Hc4 Hg2].
  unfold re_match.
  apply re_plus_longest; try assumption.
  { simpl. unfold nonspace. rewrite Hc2. reflexivity. }
  apply re_plus_longest; try assumption.
  { reflexivity. }
  simpl re_char.
  apply re_plus_longest; try assumption.
  pose proof (re_plus_longest dot
                (fun g s => re_end (String c1 g1, g) s) c4 g2 ""
                (String c1 g1, String c4 g2) Hc4 Hg2 eq_refl eq_refl) as H.
  simpl in H. rewrite append_empty_r in H. exact H.
Qed.

(** ** [parse_log_line] *)

Ltac mrun :=
  unfold bind, lift, modify, get, ret, when, try_except; simpl.

Section ParseFacts.
Variable json_loads : string -> res pyval.

Lemma parse_unmatched (line : string) :
  re_match line = None ->
  parse_log_line json_loads line = Ok (init_result line).
Proof. intros H. unfold parse_log_line. rewrite H. reflexivity. Qed.

Lemma parse_plain_text (line svc p : string) :
  re_match line = Some (svc, p) -> startswith "{" p = false ->
  parse_log_line json_loads line
  = Ok (mk_parsed (Some svc) PNone (guessed_level p) (PStr p) PNone None
          (strip line)).
Proof.
  intros H Hs. unfold parse_log_line, parse_plain, guessed_level.
  rewrite H, Hs. mrun.
  destruct (contains "error" (lower p)); [reflexivity|].
  destruct (contains "warn" (lower p)); reflexivity.
Qed.

Lemma parse_document (line svc p : string) (d : list (string * pyval)) :
  re_match line = Some (svc, p) -> startswith "{" p = true ->
  json_loads p = Ok (PDict d) ->
  parse_log_line json_loads line
  = Ok (mk_parsed (Some svc)
          (match dict_lookup d "ts" with Some v => v | None => PInt 0 end)
          (match dict_lookup d "level" with
           | Some v => v | None => PStr "info" end)
          (match dict_lookup d "msg" with Some v => v | None => PStr "" end)
          (match dict_lookup d "error" with Some v => v | None => PStr "" end)
          (dict_lookup d "caller")
          (strip line)).
Proof.
  intros H Hs Hj. unfold parse_log_line, parse_structured.
  rewrite H, Hs. mrun. rewrite Hj. simpl.
  destruct (dict_lookup d "caller"); reflexivity.
Qed.

Lemma parse_fallback (line svc p : string) :
  re_match line = Some (svc, p) -> startswith "{" p = true ->
  (forall d, json_loads p <> Ok (PDict d)) ->
  parse_log_line json_loads line
  = Ok (mk_parsed (Some svc) PNone PNone (PStr p) PNone None (strip line)).
Proof.
  intros H Hs Hj. unfold parse_log_line, parse_structured.
  rewrite H, Hs. mrun.
  destruct (json_loads p) as [v|e] eqn:E; [|reflexivity].
  destruct v; try reflexivity. exfalso. exact (Hj d eq_refl).
Qed.

(** [parse_log_line] returns a record for every line. *)
Lemma parse_total (line : string) :
  exists r, parse_log_line json_loads line = Ok r
            /\ raw r = strip line
            /\ service r = option_map fst (re_match line).
Proof.
  destruct (re_match line) as [[svc p]|] eqn:H.
  - destruct (startswith "{" p) eqn:Hs.
    + destruct (json_loads p) as [v|e] eqn:E.
      * destruct v;
          try (eexists; split;
               [apply (parse_fallback line svc p H Hs); congruence
               | split; reflexivity]).
        eexists; split; [apply (parse_document line svc p d H Hs E)|].
        split; reflexivity.
      * eexists; split;
          [apply (parse_fallback line svc p H Hs); congruence
          | split; reflexivity].
    + eexists; split; [apply (parse_plain_text line svc p H Hs)|].
      split; reflexivity.
  - eexists; split; [apply (parse_unmatched line H)|]. split; reflexivity.
Qed.

End ParseFacts.

(** C5: [parse_log_line] returns a record for every line and never raises;
    when the payload starts with a brace and [json.loads] does not give a
    dict for it, the record has the whole payload as its message and no
    level. *)
Theorem parse_log_line_never_raises
        (json_loads : string -> res pyval) (line : string) :
  exists r,
    parse_log_line json_loads line = Ok r
    /\ forall svc payload,
        re_match line = Some (svc, payload) ->
        startswith "{" payload = true ->
        (forall d, json_loads payload <> Ok (PDict d)) ->
        message r = PStr payload /\ level r = PNone.
Proof.
  destruct (parse_total json_loads line) as (r & Hr & _).
  exists r. split; [exact Hr|].
  intros svc payload Hm Hs Hj.
  rewrite (parse_fallback json_loads line svc payload Hm Hs Hj) in Hr.
  inversion Hr. split; reflexivity.
Qed.

Lemma parse_log_line_never_raises_witness :
  exists r,
    parse_log_line Json.json_loads_ref "svc | {not json" = Ok r
    /\ message r = PStr "{not json" /\ level r = PNone.
Proof.
  destruct (parse_log_line_never_raises Json.json_loads_ref
              "svc | {not json") as (r & Hr & H).
  exists r. split; [exact Hr|].
  apply (H "svc" "{not json").
  - reflexivity.
  - reflexivity.
  - intros d. vm_compute. discriminate.
Defined.

(** ** What a computation leaves unchanged *)

Section Keeps.
Context {S X : Type}.
Variable f : S -> X.

Lemma keeps_ret {A} (a : A) : keeps f (ret a).
Proof. intros s. reflexivity. Qed.

Lemma keeps_lift {A} (r : res A) : keeps f (lift r).
Proof. intros s. reflexivity. Qed.

Lemma keeps_modify (g : S -> S) :
  (forall s, f (g s) = f s) -> keeps f (modify g).
Proof. intros H s. apply H. Qed.

Lemma keeps_bind {A B} (m : M S A) (k : A -> M S B) :
  keeps f m -> (forall a, keeps f (k a)) -> keeps f (bind m k).
Proof.
  intros Hm Hk s. unfold bind.
  specialize (Hm s). destruct (m s) as [s' [a|e]]; simpl in *.
  - rewrite Hk. exact Hm.
  - exact Hm.
Qed.

Lemma keeps_when (c : bool) (m : M S unit) :
  keeps f m -> keeps f (when c m).
Proof. intros H. destruct c; [exact H | apply keeps_ret]. Qed.

Lemma keeps_for_each {Y} (xs : list Y) (body : Y -> M S unit) :
  (forall x, keeps f (body x)) -> keeps f (for_each xs body).
Proof.
  intros H. induction xs as [|x xs IH]; simpl.
  - apply keeps_ret.
  - apply keeps_bind; [apply H | intros _; exact IH].
Qed.

End Keeps.

(** Splits a computation along its binds and tests; what is left are the
    writes to the state. *)
Ltac keeps_step :=
  match goal with
  | |- keeps _ (bind _ _) => apply keeps_bind; [|intros ?]
  | |- keeps _ (when _ _) => apply keeps_when
  | |- keeps _ (ret _) => apply keeps_ret
  | |- keeps _ (lift _) => apply keeps_lift
  | |- keeps _ (if ?c then _ else _) => destruct c
  | |- keeps _ (modify _) => apply keeps_modify; intros ?; reflexivity
  end.

Section Moves.
Context {S X : Type}.
Variable f : S -> X.
Variable R : X -> X -> Prop.
Hypothesis R_refl : forall x, R x x.

Lemma moves_bind_after {A B} (m : M S A) (k : A -> M S B) :
  keeps f m -> (forall a, moves R f (k a)) -> moves R f (bind m k).
Proof.
  intros Hm Hk s. unfold bind. specialize (Hm s).
  destruct (m s) as [s' [a|e]]; simpl in *.
  - rewrite <- Hm. apply Hk.
  - rewrite Hm. apply R_refl.
Qed.

Lemma moves_bind_before {A B} (m : M S A) (k : A -> M S B) :
  moves R f m -> (forall a, keeps f (k a)) -> moves R f (bind m k).
Proof.
  intros Hm Hk s. unfold bind. specialize (Hm s).
  destruct (m s) as [s' [a|e]]; simpl in *.
  - rewrite Hk. exact Hm.
  - exact Hm.
Qed.

End Moves.

(** What follows a bind does not touch [f]: the state after the bind shows
    what the first computation left. *)
Lemma fst_bind_keeps {S X A B} (f : S -> X) (m : M S A) (k : A -> M S B)
      (s : S) :
  (forall a, keeps f (k a)) -> f (fst (bind m k s)) = f (fst (m s)).
Proof.
  intros Hk. unfold bind. destruct (m s) as [s' [a|e]]; simpl.
  - apply Hk.
  - reflexivity.
Qed.

Lemma bind_ok {S A B} (m : M S A) (k : A -> M S B) (s s' : S) (a : A) :
  m s = (s', Ok a) -> bind m k s = k a s'.
Proof. intros H. unfold bind. rewrite H. reflexivity. Qed.

Lemma for_each_cons_ok {S X} (x : X) (xs : list X) (body : X -> M S unit)
      (s s' : S) (u : unit) :
  for_each (x :: xs) body s = (s', Ok u) ->
  exists s1, body x s = (s1, Ok tt) /\ for_each xs body s1 = (s', Ok u).
Proof.
  simpl. unfold bind. destruct (body x s) as [s1 [[]|e]]; intros H.
  - exists s1. auto.
  - discriminate.
Qed.

(** A loop whose body adds [w x] to a counter adds the sum of the [w x]. *)
Lemma for_each_counts {S X} (f : S -> nat) (w : X -> nat)
      (body : X -> M S unit) :
  (forall x s, f (fst (body x s)) = f s + w x) ->
  forall xs s s' u,
    for_each xs body s = (s', Ok u) ->
    f s' = f s + list_sum (map w xs).
Proof.
  intros Hbody. induction xs as [|x xs IH]; intros s s' u H.
  - inversion H. simpl. lia.
  - apply for_each_cons_ok in H as (s1 & H1 & H2).
    apply IH in H2. rewrite H2. simpl.
    specialize (Hbody x s). rewrite H1 in Hbody. simpl in Hbody. lia.
Qed.

Lemma list_sum_indicator {X} (c : X -> bool) (xs : list X) :
  list_sum (map (fun x => indicator (c x)) xs) = List.length (filter c xs).
Proof.
  induction xs as [|x xs IH]; simpl; [reflexivity|].
  destruct (c x); simpl; lia.
Qed.

(** ** The blocks of the loop body *)

Ltac unfold_blocks :=
  unfold count_service, route_level, find_connection_error, find_startup,
    find_health_check; cbv zeta.

Section ClassifyFacts.
Variable json_loads : string -> res pyval.

(** no statement of the loop writes [service_status] *)
Lemma classify_line_keeps_service_status (line : string) :
  keeps service_status (classify_line json_loads line).
Proof. unfold classify_line. unfold_blocks. repeat keeps_step. Qed.

(** after the count, nothing writes [services] *)
Lemma after_count_keeps_services (line : string) (p : parsed) :
  keeps services
    (lvl <- lift (py_lower (py_or (level p) (PStr "info"))) ;;
     let msg := py_or (message p) (PStr "") in
     let err := py_or (error p) (PStr "") in
     route_level p lvl msg err ;;
     find_connection_error p msg err ;;
     find_startup p msg ;;
     find_health_check line p msg).
Proof. unfold_blocks. repeat keeps_step. Qed.

Lemma sum_counts_incr (d : list (string * nat)) (k : string) :
  sum_counts
    (dict_set d k
       (match dict_lookup d k with Some n => n | None => 0 end + 1))
  = sum_counts d + 1.
Proof.
  induction d as [|[k' v'] d IH]; simpl; [reflexivity|].
  destruct (k' =? k); simpl; [lia|].
  rewrite IH. lia.
Qed.

(** The service map after one line. *)
Lemma classify_line_services (line : string) (a : analysis) :
  services (fst (classify_line json_loads line a))
  = match re_match line with
    | Some (svc, _) =>
        if strip line =? "" then services a
        else services (incr_service svc a)
    | None => services a
    end.
Proof.
  unfold classify_line.
  destruct (strip line =? "") eqn:Hb.
  { destruct (re_match line) as [[? ?]|]; reflexivity. }
  destruct (parse_total json_loads line) as (r & Hr & _ & Hsvc).
  rewrite (bind_ok _ _ a a r) by (unfold lift; rewrite Hr; reflexivity).
  rewrite (fst_bind_keeps services)
    by (intros _; apply after_count_keeps_services).
  unfold count_service. rewrite Hsvc.
  destruct (re_match line) as [[svc p]|] eqn:Hm; simpl; [|reflexivity].
  apply re_match_sound in Hm as (_ & _ & _ & _ & Hne & _).
  destruct (String.eqb_spec svc ""); [contradiction | reflexivity].
Qed.

Lemma classify_line_sum_counts (line : string) (a : analysis) :
  sum_counts (services (fst (classify_line json_loads line a)))
  = sum_counts (services a) + indicator (has_service line).
Proof.
  rewrite classify_line_services. unfold has_service, indicator.
  destruct (re_match line) as [[svc p]|]; simpl.
  - destruct (strip line =? ""); simpl; [lia|]. apply sum_counts_incr.
  - rewrite andb_false_r. lia.
Qed.

End ClassifyFacts.

Lemma analyze_logs_run (json_loads : string -> res pyval)
      (logs : list string) (a : analysis) :
  analyze_logs json_loads logs = Ok a ->
  for_each logs (classify_line json_loads) init_analysis = (a, Ok tt).
Proof.
  unfold analyze_logs.
  destruct (for_each logs (classify_line json_loads) init_analysis)
    as [a' [[]|e]]; intros H; inversion H; reflexivity.
Qed.

Lemma for_each_app {S X} (xs ys : list X) (body : X -> M S unit) (s : S) :
  for_each (xs ++ ys) body s
  = match for_each xs body s with
    | (s', Ok _) => for_each ys body s'
    | (s', Raise e) => (s', Raise e)
    end.
Proof.
  revert s. induction xs as [|x xs IH]; intros s; simpl; [reflexivity|].
  unfold bind. destruct (body x s) as [s1 [u|e]]; [apply IH | reflexivity].
Qed.

(** The statements below are about one pass of the loop, from the analysis
    [a] that the lines before have built: the analysis of [logs ++ [line]]
    is that pass applied to the analysis of [logs]. *)
Lemma analyze_logs_snoc (json_loads : string -> res pyval)
      (logs : list string) (line : string) (a : analysis) :
  analyze_logs json_loads logs = Ok a ->
  analyze_logs json_loads (logs ++ [line])
  = match classify_line json_loads line a with
    | (a', Ok _) => Ok a'
    | (_, Raise e) => Raise e
    end.
Proof.
  intros H. apply analyze_logs_run in H. unfold analyze_logs.
  rewrite for_each_app, H. simpl. unfold bind.
  destruct (classify_line json_loads line a) as [a' [u|e]]; reflexivity.
Qed.

(** C6: the counts of the service map add up to the number of lines that
    are not blank and match the pattern; a matching line has a token that
    is not empty; and a line that does not match leaves every counter as
    it was. *)
Theorem service_counts_sum
        (json_loads : string -> res pyval) (logs : list string)
        (a : analysis) :
  analyze_logs json_loads logs = Ok a ->
  sum_counts (services a) = List.length (filter has_service logs)
  /\ (forall line svc payload,
         re_match line = Some (svc, payload) -> svc <> "")
  /\ (forall line a0,
         re_match line = None ->
         services (fst (classify_line json_loads line a0)) = services a0).
Proof.
  intros H. apply analyze_logs_run in H. split; [|split].
  - rewrite <- list_sum_indicator.
    apply (for_each_counts (fun s => sum_counts (services s))
             (fun l => indicator (has_service l))
             (classify_line json_loads)
             (classify_line_sum_counts json_loads)) in H.
    exact H.
  - intros line svc payload Hm.
    apply re_match_sound in Hm as (_ & _ & _ & _ & Hne & _). exact Hne.
  - intros line a0 Hm. rewrite classify_line_services, Hm. reflexivity.
Qed.

(** C9: the [service_status] map of a returned analysis is empty. *)
Theorem service_status_empty
        (json_loads : string -> res pyval) (logs : list string)
        (a : analysis) :
  analyze_logs json_loads logs = Ok a -> service_status a = [].
Proof.
  intros H. apply analyze_logs_run in H.
  pose proof (keeps_for_each service_status logs (classify_line json_loads)
                (classify_line_keeps_service_status json_loads)
                init_analysis) as K.
  rewrite H in K. exact K.
Qed.

Lemma service_counts_sum_witness :
  exists a,
    analyze_logs Json.json_loads_ref sample_logs = Ok a
    /\ sum_counts (services a) = 5.
Proof.
  destruct (analyze_logs Json.json_loads_ref sample_logs) as [a|e] eqn:E;
    [|vm_compute in E; discriminate].
  exists a. split; [reflexivity|].
  rewrite (proj1 (service_counts_sum _ _ _ E)). vm_compute. reflexivity.
Defined.

Lemma service_status_empty_witness :
  exists a,
    analyze_logs Json.json_loads_ref sample_logs = Ok a
    /\ service_status a = [].
Proof.
  destruct (analyze_logs Json.json_loads_ref sample_logs) as [a|e] eqn:E;
    [|vm_compute in E; discriminate].
  exists a. split; [reflexivity|].
  exact (service_status_empty _ _ _ E).
Defined.

(** The sample, run. *)
Example sample_run :
  match analyze_logs Json.json_loads_ref sample_logs with
  | Ok a =>
      services a
      = [("api-gateway-1", 2); ("couchdb0", 1); ("api-gateway-nginx", 1);
         ("api-gateway-2", 1)]
      /\ map err_service (errors a) = [Some "api-gateway-nginx"]
      /\ map fat_service (fatal a) = [Some "api-gateway-1"]
      /\ map lvl_service (info a)
         = [Some "api-gateway-1"; Some "couchdb0"; Some "api-gateway-2"; None]
      /\ warnings a = []
      /\ map conn_service (connection_errors a)
         = [Some "api-gateway-1"; Some "api-gateway-nginx"]
      /\ map st_message (startup_sequence a)
         = [PStr "Connected to PostgreSQL"]
      /\ map hc_status (health_checks a) = ["unknown"]
  | Raise _ => False
  end.
Proof. vm_compute. repeat split. Qed.

(** ** The level lists *)

Lemma at_most_one_more_refl b : at_most_one_more b b.
Proof. destruct b as [[[e w] f] i]. left. auto. Qed.

Section LevelFacts.
Variable json_loads : string -> res pyval.

Lemma route_level_moves (p : parsed) (lvl : string) (msg err : pyval) :
  moves at_most_one_more level_lists (route_level p lvl msg err).
Proof.
  intros a. unfold route_level, level_lists.
  destruct (lvl =? "error"); [simpl; right; left; eauto|].
  destruct (lvl =? "warn"); [simpl; right; right; left; eauto|].
  destruct (lvl =? "fatal"); [simpl; right; right; right; left; eauto|].
  destruct (lvl =? "info"); [simpl; right; right; right; right; eauto|].
  simpl. left. auto.
Qed.

Lemma after_route_keeps_level_lists (line : string) (p : parsed)
      (msg err : pyval) :
  keeps level_lists
    (find_connection_error p msg err ;;
     find_startup p msg ;;
     find_health_check line p msg).
Proof. unfold_blocks. repeat keeps_step. Qed.

Lemma classify_line_moves (line : string) :
  moves at_most_one_more level_lists (classify_line json_loads line).
Proof.
  unfold classify_line.
  destruct (strip line =? ""); [intros a; apply at_most_one_more_refl|].
  apply (moves_bind_after _ _ at_most_one_more_refl); [apply keeps_lift|].
  intros p.
  apply (moves_bind_after _ _ at_most_one_more_refl).
  { unfold_blocks. repeat keeps_step. }
  intros _.
  apply (moves_bind_after _ _ at_most_one_more_refl); [apply keeps_lift|].
  intros lvl. cbv zeta.
  apply moves_bind_before; [apply route_level_moves|].
  intros _. apply after_route_keeps_level_lists.
Qed.

End LevelFacts.

(** C2: one line puts a record in at most one of the four level lists; and
    whichever of them it is (or none), each of the three substring tests
    may or may not add the line to its list. *)
Theorem level_buckets_exclusive_heuristics_free
        (json_loads : string -> res pyval) :
  (forall line a,
      at_most_one_more (level_lists a)
        (level_lists (fst (classify_line json_loads line a))))
  /\ (forall (lv : option bucket) (c s h : bool),
         exists line a',
           negb (strip line =? "") = true
           /\ classify_line Json.json_loads_ref line init_analysis
              = (a', Ok tt)
           /\ (forall b, bucket_length b a'
                         = indicator (match lv with
                                      | Some b' => bucket_eqb b b'
                                      | None => false
                                      end))
           /\ List.length (connection_errors a') = indicator c
           /\ List.length (startup_sequence a') = indicator s
           /\ List.length (health_checks a') = indicator h).
Proof.
  split.
  - intros line a. apply (classify_line_moves json_loads line a).
  - intros lv c s h. exists (example_line lv c s h).
    destruct lv as [[| | |]|], c, s, h; eexists;
      (split; [vm_compute; reflexivity|]);
      (split; [vm_compute; reflexivity|]);
      (split; [intros []; reflexivity|]);
      repeat split.
Qed.

(** ** The decoder is the only thing outside the input *)

Lemma parse_log_line_ext (jl1 jl2 : string -> res pyval) (line : string) :
  (forall svc payload,
      re_match line = Some (svc, payload) ->
      startswith "{" payload = true -> jl1 payload = jl2 payload) ->
  parse_log_line jl1 line = parse_log_line jl2 line.
Proof.
  intros H. unfold parse_log_line.
  destruct (re_match line) as [[svc p]|]; [|reflexivity].
  destruct (startswith "{" p) eqn:Hs; [|reflexivity].
  unfold parse_structured. mrun. rewrite (H svc p eq_refl Hs). reflexivity.
Qed.

Lemma classify_line_ext (jl1 jl2 : string -> res pyval) (line : string)
      (a : analysis) :
  parse_log_line jl1 line = parse_log_line jl2 line ->
  classify_line jl1 line a = classify_line jl2 line a.
Proof. intros H. unfold classify_line. rewrite H. reflexivity. Qed.

Lemma for_each_ext {S X} (xs : list X) (b1 b2 : X -> M S unit) :
  (forall x s, In x xs -> b1 x s = b2 x s) ->
  forall s, for_each xs b1 s = for_each xs b2 s.
Proof.
  induction xs as [|x xs IH]; intros H s; simpl; [reflexivity|].
  unfold bind. rewrite (H x s (or_introl eq_refl)).
  destruct (b2 x s) as [s' [u|e]]; [|reflexivity].
  apply IH. intros y t Hy. apply H. right. exact Hy.
Qed.

(** X21: the only thing that a run of [analyze_logs] reads besides its
    lines is what [json.loads] answers on the payloads that start with a
    brace, of the lines that match the pattern: two decoders that agree
    on these payloads give the same result, an analysis or an exception,
    however they differ elsewhere. *)
Theorem decoder_read_on_brace_payloads
        (jl1 jl2 : string -> res pyval) (logs : list string) :
  (forall line svc payload,
      In line logs -> re_match line = Some (svc, payload) ->
      startswith "{" payload = true -> jl1 payload = jl2 payload) ->
  analyze_logs jl1 logs = analyze_logs jl2 logs.
Proof.
  intros H. unfold analyze_logs.
  rewrite (for_each_ext logs (classify_line jl1) (classify_line jl2));
    [reflexivity|].
  intros line a Hin. apply classify_line_ext, parse_log_line_ext.
  intros svc payload. apply H. exact Hin.
Qed.

Lemma decoder_read_on_brace_payloads_witness :
  (json_loads_other "plain text" <> Json.json_loads_ref "plain text")
  /\ analyze_logs Json.json_loads_ref sample_logs
     = analyze_logs json_loads_other sample_logs.
Proof.
  split; [discriminate|].
  apply (decoder_read_on_brace_payloads Json.json_loads_ref
           json_loads_other sample_logs).
  intros line svc payload _ _ Hs. unfold json_loads_other.
  rewrite Hs. reflexivity.
Defined.

(** ** Blocks that always return *)

Lemma bind_returns {S A B} (m : M S A) (k : A -> M S B) (s : S) (a : A) :
  snd (m s) = Ok a -> bind m k s = k a (fst (m s)).
Proof.
  intros H. unfold bind. destruct (m s) as [s' r]. simpl in *.
  rewrite H. reflexivity.
Qed.

Lemma count_service_returns (p : parsed) (a : analysis) :
  snd (count_service p a) = Ok tt.
Proof. unfold count_service, when. destruct (service p) as [s|];
         [destruct (negb (s =? ""))|]; reflexivity. Qed.

Lemma route_level_returns (p : parsed) (lvl : string) (msg err : pyval)
      (a : analysis) :
  snd (route_level p lvl msg err a) = Ok tt.
Proof.
  unfold route_level.
  repeat match goal with
         | |- context [if ?c then _ else _] => destruct c
         end; reflexivity.
Qed.

Lemma find_connection_error_str (p : parsed) (m e : string) (a : analysis) :
  find_connection_error p (PStr m) (PStr e) a
  = (if is_connection_text (lower (m ++ " " ++ e))
     then add_connection_error (mk_conn (service p) (PStr m) (PStr e) (raw p)) a
     else a,
     Ok tt).
Proof.
  unfold find_connection_error. mrun.
  rewrite append_assoc. simpl.
  destruct (is_connection_text _); reflexivity.
Qed.

Lemma find_startup_str (p : parsed) (m : string) (a : analysis) :
  find_startup p (PStr m) a
  = (if existsb (fun keyword => contains keyword (lower m)) startup_keywords
     then add_startup (mk_startup (service p) (PStr m) (timestamp p)) a
     else a,
     Ok tt).
Proof.
  unfold find_startup. mrun.
  destruct (contains "starting" (lower m) || _); reflexivity.
Qed.

Lemma find_health_check_str (line : string) (p : parsed) (m : string)
      (a : analysis) :
  find_health_check line p (PStr m) a
  = (if contains "health" (lower m) || contains "/health" m
     then add_health_check
            (mk_health (service p) (PStr m)
               (if contains status_200 line then "200" else "unknown")) a
     else a,
     Ok tt).
Proof.
  unfold find_health_check. mrun.
  destruct (contains "health" (lower m)); simpl; [reflexivity|].
  destruct (contains "/health" m); reflexivity.
Qed.

(** The loop body on a line that is not blank, once the types of the
    level, the message and the error are known to be str. *)
Lemma classify_line_str (json_loads : string -> res pyval) (line : string)
      (a : analysis) (p : parsed) (lvl m e : string) :
  (strip line =? "") = false ->
  parse_log_line json_loads line = Ok p ->
  py_lower (py_or (level p) (PStr "info")) = Ok lvl ->
  py_or (message p) (PStr "") = PStr m ->
  py_or (error p) (PStr "") = PStr e ->
  classify_line json_loads line a
  = (find_connection_error p (PStr m) (PStr e) ;;
     find_startup p (PStr m) ;;
     find_health_check line p (PStr m))
      (fst (route_level p lvl (PStr m) (PStr e) (fst (count_service p a)))).
Proof.
  intros Hb Hp Hl Hm He. unfold classify_line. rewrite Hb, Hp.
  rewrite (bind_ok _ _ a a p) by reflexivity.
  rewrite (bind_returns _ _ a tt) by apply count_service_returns.
  rewrite Hl, Hm, He.
  rewrite (bind_ok _ _ _ (fst (count_service p a)) lvl) by reflexivity.
  cbv zeta.
  rewrite (bind_returns _ _ _ tt) by apply route_level_returns.
  reflexivity.
Qed.

Lemma classify_line_str_returns (json_loads : string -> res pyval)
      (line : string) (a : analysis) (p : parsed) (lvl m e : string) :
  (strip line =? "") = false ->
  parse_log_line json_loads line = Ok p ->
  py_lower (py_or (level p) (PStr "info")) = Ok lvl ->
  py_or (message p) (PStr "") = PStr m ->
  py_or (error p) (PStr "") = PStr e ->
  snd (classify_line json_loads line a) = Ok tt.
Proof.
  intros Hb Hp Hl Hm He.
  rewrite (classify_line_str json_loads line a p lvl m e) by assumption.
  rewrite (bind_ok _ _ _ _ tt (find_connection_error_str _ _ _ _)).
  rewrite (bind_ok _ _ _ _ tt (find_startup_str _ _ _)).
  rewrite find_health_check_str. reflexivity.
Qed.

(** ** Connection errors *)

Lemma re_match_not_blank (line svc payload : string) :
  re_match line = Some (svc, payload) -> (strip line =? "") = false.
Proof.
  intros H.
  apply re_match_sound in H
    as (ws1 & ws2 & tail & -> & Hne & Hall & _).
  destruct svc as [|c g]; [congruence|].
  simpl in Hall. apply andb_true_iff in Hall as [Hc _].
  unfold nonspace in Hc. apply negb_true_iff in Hc.
  change (String c g ++ ws1 ++ "|" ++ ws2 ++ payload ++ tail)%string
    with (String c (g ++ ws1 ++ "|" ++ ws2 ++ payload ++ tail)).
  rewrite strip_starts_nonspace by assumption. reflexivity.
Qed.

Section ConnectionFacts.
Variable json_loads : string -> res pyval.

Lemma before_connection_keeps (p : parsed) (lvl : string) (msg err : pyval)
      (a : analysis) :
  connection_errors (fst (route_level p lvl msg err (fst (count_service p a))))
  = connection_errors a.
Proof.
  assert (K1 : keeps connection_errors (route_level p lvl msg err))
    by (unfold_blocks; repeat keeps_step).
  assert (K2 : keeps connection_errors (count_service p))
    by (unfold_blocks; repeat keeps_step).
  rewrite K1. apply K2.
Qed.

Lemma after_connection_keeps (line : string) (p : parsed) (msg : pyval) :
  keeps connection_errors
    (find_startup p msg ;; find_health_check line p msg).
Proof. unfold_blocks. repeat keeps_step. Qed.

(** The connection list after a line whose level, message and error are
    strs. *)
Lemma classify_line_connection_errors (line : string) (a : analysis)
      (p : parsed) (lvl m e : string) :
  (strip line =? "") = false ->
  parse_log_line json_loads line = Ok p ->
  py_lower (py_or (level p) (PStr "info")) = Ok lvl ->
  py_or (message p) (PStr "") = PStr m ->
  py_or (error p) (PStr "") = PStr e ->
  connection_errors (fst (classify_line json_loads line a))
  = if is_connection_text (lower (m ++ " " ++ e))
    then connection_errors a
         ++ [mk_conn (service p) (PStr m) (PStr e) (strip line)]
    else connection_errors a.
Proof.
  intros Hb Hp Hl Hm He.
  rewrite (classify_line_str json_loads line a p lvl m e) by assumption.
  rewrite (fst_bind_keeps connection_errors)
    by (intros _; apply after_connection_keeps).
  rewrite find_connection_error_str.
  destruct (parse_total json_loads line) as (r & Hr & Hraw & _).
  rewrite Hp in Hr. inversion Hr; subst r. rewrite Hraw.
  destruct (is_connection_text (lower (m ++ " " ++ e))); simpl;
    rewrite before_connection_keeps; reflexivity.
Qed.

End ConnectionFacts.

(** C1, as stated, fails: a line without the bar that contains the words
    is put in [info] and in no other list. *)
Lemma connection_refused_anywhere_counterexample :
  negb (strip "upstream said Connection Refused" =? "") = true
  /\ contains "connection refused"
       (lower "upstream said Connection Refused") = true
  /\ forall json_loads,
      exists a,
        analyze_logs json_loads ["upstream said Connection Refused"] = Ok a
        /\ connection_errors a = []
        /\ info a = [mk_level None (PStr "")].
Proof.
  split; [reflexivity|]. split; [reflexivity|].
  intros json_loads. eexists. split; [vm_compute; reflexivity|].
  split; reflexivity.
Qed.

(** The same for a structured payload that has the words in a field that
    is neither the message nor the error. *)
Example connection_refused_in_other_field :
  exists a,
    analyze_logs Json.json_loads_ref
      [Json.q "svc | {'level':'info','msg':'upstream down','detail':'connection refused'}"]
    = Ok a
    /\ connection_errors a = []
    /\ info a = [mk_level (Some "svc") (PStr "upstream down")].
Proof. eexists. split; [vm_compute; reflexivity|]. split; reflexivity. Qed.

(** A plain-text payload is the message as it is: the words anywhere in
    it, in any letter case, put the line in [connection_errors]. *)
Lemma connection_refused_plain_text
      (json_loads : string -> res pyval) (line svc payload : string)
      (a : analysis) :
  re_match line = Some (svc, payload) ->
  startswith "{" payload = false ->
  contains "connection refused" (lower payload) = true ->
  connection_errors (fst (classify_line json_loads line a))
  = connection_errors a
    ++ [mk_conn (Some svc) (PStr payload) (PStr "") (strip line)].
Proof.
  intros Hm Hs Hc.
  pose proof (parse_plain_text json_loads line svc payload Hm Hs) as Hp.
  assert (Hne : payload <> "")
    by (apply re_match_sound in Hm; destruct Hm as (? & ? & ? & H); tauto).
  assert (Hmsg : py_or (PStr payload) (PStr "") = PStr payload).
  { unfold py_or. simpl. destruct payload; [congruence | reflexivity]. }
  assert (Hlvl : exists lvl,
             py_lower (py_or (guessed_level payload) (PStr "info")) = Ok lvl).
  { unfold guessed_level.
    destruct (contains "error" (lower payload)); [eexists; reflexivity|].
    destruct (contains "warn" (lower payload)); eexists; reflexivity. }
  destruct Hlvl as [lvl Hlvl].
  rewrite (classify_line_connection_errors json_loads line a _ lvl payload
             "" (re_match_not_blank _ _ _ Hm) Hp Hlvl Hmsg eq_refl).
  unfold is_connection_text.
  rewrite lower_append, (contains_append_l _ _ _ Hc). reflexivity.
Qed.

(** ** A structured line with the level [error] *)

Lemma py_or_str (m : string) : py_or (PStr m) (PStr "") = PStr m.
Proof. destruct m; reflexivity. Qed.

Lemma startswith_brace (payload : string) :
  startswith "{" payload = true ->
  payload <> "" /\ stops isspace payload = true.
Proof.
  destruct payload as [|c s]; [discriminate|].
  unfold startswith.
  change (prefix "{" (String c s))
    with (if ascii_dec "{" c then prefix "" s else false).
  destruct (ascii_dec "{" c) as [E|]; [|discriminate].
  subst c. intros _. split; [discriminate | reflexivity].
Qed.

(** The loop body on a line whose payload decodes to a dict with the
    level [error] and str message and error. *)
Lemma error_document_recorded
        (json_loads : string -> res pyval)
        (svc ws1 ws2 payload m e : string) (d : list (string * pyval))
        (a : analysis) :
  svc <> "" -> all_chars nonspace svc = true ->
  ws1 <> "" -> all_chars isspace ws1 = true ->
  ws2 <> "" -> all_chars isspace ws2 = true ->
  startswith "{" payload = true -> all_chars dot payload = true ->
  json_loads payload = Ok (PDict d) ->
  dict_lookup d "level" = Some (PStr "error") ->
  dict_lookup d "msg" = Some (PStr m) ->
  dict_lookup d "error" = Some (PStr e) ->
  let line := (svc ++ ws1 ++ "|" ++ ws2 ++ payload)%string in
  let a' := fst (classify_line json_loads line a) in
  snd (classify_line json_loads line a) = Ok tt
  /\ (exists entry,
         errors a' = errors a ++ [entry]
         /\ err_service entry = Some svc
         /\ err_message entry = PStr m
         /\ err_error entry = PStr e)
  /\ warnings a' = warnings a /\ fatal a' = fatal a /\ info a' = info a.
Proof.
  intros Hs Hsa Hw1 Hw1a Hw2 Hw2a Hb Hdot Hj Hl Hm He line a'.
  destruct (startswith_brace payload Hb) as [Hpne Hstop].
  assert (Hmatch : re_match line = Some (svc, payload))
    by (apply re_match_complete; assumption).
  pose proof (re_match_not_blank _ _ _ Hmatch) as Hnb.
  pose proof (parse_document json_loads line svc payload d Hmatch Hb Hj)
    as Hp.
  rewrite Hl, Hm, He in Hp.
  split.
  { apply (classify_line_str_returns json_loads line a _ "error" m e
             Hnb Hp eq_refl (py_or_str m) (py_or_str e)). }
  assert (Hlists : level_lists a'
                   = (errors a
                      ++ [mk_error (Some svc) (PStr m) (PStr e)
                            (match dict_lookup d "caller" with
                             | Some v => v | None => PStr "" end)
                            (strip line)],
                      warnings a, fatal a, info a)).
  { unfold a'.
    rewrite (classify_line_str json_loads line a _ "error" m e
               Hnb Hp eq_refl (py_or_str m) (py_or_str e)).
    rewrite (after_route_keeps_level_lists line).
    assert (K : keeps level_lists
                  (count_service
                     (mk_parsed (Some svc)
                        (match dict_lookup d "ts" with
                         | Some v => v | None => PInt 0 end)
                        (PStr "error") (PStr m) (PStr e)
                        (dict_lookup d "caller") (strip line))))
      by (unfold_blocks; repeat keeps_step).
    specialize (K a). unfold level_lists in *. simpl.
    injection K as K1 K2 K3 K4. rewrite K1, K2, K3, K4.
    reflexivity. }
  unfold level_lists in Hlists. injection Hlists as H1 H2 H3 H4.
  split; [|auto].
  eexists. split; [exact H1|]. simpl. auto.
Qed.


(** ** Fields of a structured payload that are not consumed *)

Section Related.

Lemma related_ret {A} (x : A) : related (ret x) (ret x).
Proof. intros s1 s2 H. split; [exact H | reflexivity]. Qed.

Lemma related_lift {A} (r : res A) : related (lift r) (lift r).
Proof. intros s1 s2 H. split; [exact H | reflexivity]. Qed.

Lemma related_bind {A B} (m1 m2 : M analysis A) (k1 k2 : A -> M analysis B) :
  related m1 m2 -> (forall x, related (k1 x) (k2 x)) ->
  related (bind m1 k1) (bind m2 k2).
Proof.
  intros Hm Hk s1 s2 H. unfold bind.
  destruct (Hm s1 s2 H) as [Hs Hr].
  destruct (m1 s1) as [t1 r1], (m2 s2) as [t2 r2]. simpl in *. subst r2.
  destruct r1 as [x|e]; [apply Hk; exact Hs | split; [exact Hs | reflexivity]].
Qed.

Lemma related_when (c : bool) (m1 m2 : M analysis unit) :
  related m1 m2 -> related (when c m1) (when c m2).
Proof. intros H. destruct c; [exact H | apply related_ret]. Qed.

Lemma related_modify (f1 f2 : analysis -> analysis) :
  (forall s1 s2, forget_line_text s1 = forget_line_text s2 ->
                 forget_line_text (f1 s1) = forget_line_text (f2 s2)) ->
  related (modify f1) (modify f2).
Proof. intros Hf s1 s2 H. split; [apply Hf; exact H | reflexivity]. Qed.

End Related.

(** the writes of the loop body, up to the text of the line *)
Ltac forget_write :=
  let H := fresh "H" in
  intros ? ? H; unfold forget_line_text in *;
  injection H; clear H; intros; simpl;
  rewrite ?map_app; simpl;
  repeat match goal with E : _ = _ |- _ => rewrite E; clear E end;
  reflexivity.

Ltac related_step :=
  match goal with
  | |- related (bind _ _) (bind _ _) => apply related_bind; [|intros ?]
  | |- related (when _ _) (when _ _) => apply related_when
  | |- related (ret _) (ret _) => apply related_ret
  | |- related (lift _) (lift _) => apply related_lift
  | |- related (if ?c then _ else _) (if ?c then _ else _) => destruct c
  | |- related (modify _) (modify _) => apply related_modify; forget_write
  end.

Section ConsumedFacts.
Variable json_loads : string -> res pyval.

(** The loop body after parsing, for two records that differ in [raw]
    only, on two lines. *)
Lemma classify_parsed_related (l1 l2 r1 r2 : string) (svc : option string)
      (t lv mg er : pyval) (c : option pyval) :
  let p1 := mk_parsed svc t lv mg er c r1 in
  let p2 := mk_parsed svc t lv mg er c r2 in
  related
    (count_service p1 ;;
     lvl <- lift (py_lower (py_or (level p1) (PStr "info"))) ;;
     let msg := py_or (message p1) (PStr "") in
     let err := py_or (error p1) (PStr "") in
     route_level p1 lvl msg err ;;
     find_connection_error p1 msg err ;;
     find_startup p1 msg ;;
     find_health_check l1 p1 msg)
    (count_service p2 ;;
     lvl <- lift (py_lower (py_or (level p2) (PStr "info"))) ;;
     let msg := py_or (message p2) (PStr "") in
     let err := py_or (error p2) (PStr "") in
     route_level p2 lvl msg err ;;
     find_connection_error p2 msg err ;;
     find_startup p2 msg ;;
     find_health_check l2 p2 msg).
Proof.
  intros p1 p2. unfold p1, p2. unfold_blocks. simpl.
  repeat related_step.
Qed.

Lemma parse_document_agree (l1 l2 svc q1 q2 : string)
      (d1 d2 : list (string * pyval)) :
  re_match l1 = Some (svc, q1) -> re_match l2 = Some (svc, q2) ->
  startswith "{" q1 = true -> startswith "{" q2 = true ->
  json_loads q1 = Ok (PDict d1) -> json_loads q2 = Ok (PDict d2) ->
  agree_on_consumed d1 d2 ->
  exists t lv mg er c,
    parse_log_line json_loads l1
    = Ok (mk_parsed (Some svc) t lv mg er c (strip l1))
    /\ parse_log_line json_loads l2
       = Ok (mk_parsed (Some svc) t lv mg er c (strip l2)).
Proof.
  intros M1 M2 S1 S2 J1 J2 Hag.
  rewrite (parse_document json_loads l1 svc q1 d1 M1 S1 J1).
  rewrite (parse_document json_loads l2 svc q2 d2 M2 S2 J2).
  rewrite (Hag "level"), (Hag "msg"), (Hag "ts"), (Hag "error"),
    (Hag "caller") by (simpl; tauto).
  repeat eexists.
Qed.

End ConsumedFacts.

(** C8, as stated, fails: two lines whose payloads have the same five
    fields and differ in [status] get different health-check records. *)
Lemma other_fields_ignored_counterexample :
  (exists d1 d2,
      Json.json_loads_ref (Json.q "{'msg':'health probe','status':200}")
      = Ok (PDict d1)
      /\ Json.json_loads_ref (Json.q "{'msg':'health probe','status':500}")
         = Ok (PDict d2)
      /\ forallb (fun k =>
                    match dict_lookup d1 k, dict_lookup d2 k with
                    | Some (PStr x), Some (PStr y) => x =? y
                    | None, None => true
                    | _, _ => false
                    end) consumed_keys = true)
  /\ health_checks
       (fst (classify_line Json.json_loads_ref health_line_200 init_analysis))
     = [mk_health (Some "svc") (PStr "health probe") "200"]
  /\ health_checks
       (fst (classify_line Json.json_loads_ref health_line_500 init_analysis))
     = [mk_health (Some "svc") (PStr "health probe") "unknown"].
Proof.
  split.
  - eexists. eexists. split; [vm_compute; reflexivity|].
    split; [vm_compute; reflexivity|]. vm_compute. reflexivity.
  - split; vm_compute; reflexivity.
Qed.

(** The loop body on two such lines, from any two analyses that differ in
    the text of their lines only. *)
Lemma classify_lines_related
      (json_loads : string -> res pyval)
      (l1 l2 svc q1 q2 : string) (d1 d2 : list (string * pyval)) :
  re_match l1 = Some (svc, q1) -> re_match l2 = Some (svc, q2) ->
  startswith "{" q1 = true -> startswith "{" q2 = true ->
  json_loads q1 = Ok (PDict d1) -> json_loads q2 = Ok (PDict d2) ->
  agree_on_consumed d1 d2 ->
  related (classify_line json_loads l1) (classify_line json_loads l2).
Proof.
  intros M1 M2 S1 S2 J1 J2 Hag a1 a2 Ha.
  destruct (parse_document_agree json_loads l1 l2 svc q1 q2 d1 d2
              M1 M2 S1 S2 J1 J2 Hag)
    as (t & lv & mg & er & c & P1 & P2).
  unfold classify_line.
  rewrite (re_match_not_blank _ _ _ M1), (re_match_not_blank _ _ _ M2).
  rewrite P1, P2.
  rewrite (bind_ok _ _ a1 a1 _ eq_refl), (bind_ok _ _ a2 a2 _ eq_refl).
  apply (classify_parsed_related l1 l2 (strip l1) (strip l2) (Some svc)
           t lv mg er c a1 a2 Ha).
Qed.

(** The loop body on one line, from two such analyses. *)
Lemma classify_line_self_related
      (json_loads : string -> res pyval) (line : string) :
  related (classify_line json_loads line) (classify_line json_loads line).
Proof.
  unfold classify_line. destruct (strip line =? ""); [apply related_ret|].
  apply related_bind; [apply related_lift|].
  intros [svc t lv mg er c r].
  apply (classify_parsed_related line line r r svc t lv mg er c).
Qed.

Lemma related_for_each (body : string -> M analysis unit)
      (xs ys : list string) :
  Forall2 (fun x y => related (body x) (body y)) xs ys ->
  related (for_each xs body) (for_each ys body).
Proof.
  induction 1 as [|x y xs ys Hxy Hall IH]; simpl.
  - apply related_ret.
  - apply related_bind; [exact Hxy | intros _; exact IH].
Qed.

Lemma Forall2_same {A} (R : A -> A -> Prop) (l : list A) :
  (forall x, R x x) -> Forall2 R l l.
Proof. intros H. induction l; constructor; auto. Qed.

(** C8, amended: two lines with the same token whose payloads decode to
    dicts with the same five fields are classified alike up to the text of
    the line: the loop body has the same result on both, and the analyses
    it leaves differ at most in the [raw] fields and in the [status] of
    the health checks, which are taken from the text of the line. And so
    for whole runs: with one line in the place of the other, among the
    same lines before and after, [analyze_logs] raises the same exception
    or returns analyses that differ at most in these fields. *)
Theorem other_fields_ignored_up_to_line_text
        (json_loads : string -> res pyval)
        (l1 l2 svc q1 q2 : string) (d1 d2 : list (string * pyval))
        (a1 a2 : analysis) :
  re_match l1 = Some (svc, q1) -> re_match l2 = Some (svc, q2) ->
  startswith "{" q1 = true -> startswith "{" q2 = true ->
  json_loads q1 = Ok (PDict d1) -> json_loads q2 = Ok (PDict d2) ->
  agree_on_consumed d1 d2 ->
  forget_line_text a1 = forget_line_text a2 ->
  (forget_line_text (fst (classify_line json_loads l1 a1))
   = forget_line_text (fst (classify_line json_loads l2 a2))
   /\ snd (classify_line json_loads l1 a1)
      = snd (classify_line json_loads l2 a2))
  /\ forall pre post : list string,
      match analyze_logs json_loads (pre ++ l1 :: post),
            analyze_logs json_loads (pre ++ l2 :: post) with
      | Ok r1, Ok r2 => forget_line_text r1 = forget_line_text r2
      | Raise e1, Raise e2 => e1 = e2
      | _, _ => False
      end.
Proof.
  intros M1 M2 S1 S2 J1 J2 Hag Ha.
  pose proof (classify_lines_related json_loads l1 l2 svc q1 q2 d1 d2
                M1 M2 S1 S2 J1 J2 Hag) as Hrel.
  split; [exact (Hrel a1 a2 Ha)|].
  intros pre post. unfold analyze_logs.
  assert (Hall : Forall2 (fun x y => related (classify_line json_loads x)
                                       (classify_line json_loads y))
                   (pre ++ l1 :: post) (pre ++ l2 :: post)).
  { apply Forall2_app;
      [apply Forall2_same; apply classify_line_self_related|].
    constructor; [exact Hrel|].
    apply Forall2_same. apply classify_line_self_related. }
  destruct (related_for_each (classify_line json_loads) _ _ Hall
              init_analysis init_analysis eq_refl) as [Hs Hr].
  destruct (for_each (pre ++ l1 :: post) (classify_line json_loads)
              init_analysis) as [r1 [u1|e1]],
           (for_each (pre ++ l2 :: post) (classify_line json_loads)
              init_analysis) as [r2 [u2|e2]];
    simpl in *; try discriminate; [exact Hs | congruence].
Qed.

Lemma other_fields_ignored_up_to_line_text_witness :
  (forget_line_text
     (fst (classify_line Json.json_loads_ref health_line_200 init_analysis))
   = forget_line_text
       (fst (classify_line Json.json_loads_ref health_line_500
               init_analysis))
   /\ snd (classify_line Json.json_loads_ref health_line_200 init_analysis)
      = snd (classify_line Json.json_loads_ref health_line_500
               init_analysis))
  /\ match analyze_logs Json.json_loads_ref
             [nginx_line; health_line_200; nginx_line],
           analyze_logs Json.json_loads_ref
             [nginx_line; health_line_500; nginx_line] with
     | Ok r1, Ok r2 => forget_line_text r1 = forget_line_text r2
     | Raise e1, Raise e2 => e1 = e2
     | _, _ => False
     end.
Proof.
  destruct (other_fields_ignored_up_to_line_text Json.json_loads_ref
              health_line_200 health_line_500 "svc"
              (Json.q "{'msg':'health probe','status':200}")
              (Json.q "{'msg':'health probe','status':500}")
              [("msg", PStr "health probe"); ("status", PInt 200)]
              [("msg", PStr "health probe"); ("status", PInt 500)]
              init_analysis init_analysis) as [Hpass Hrun];
    try (vm_compute; reflexivity).
  - intros k Hk. simpl in Hk.
    destruct Hk as [<-|[<-|[<-|[<-|[<-|[]]]]]]; reflexivity.
  - split; [exact Hpass|]. exact (Hrun [nginx_line] [nginx_line]).
Defined.

(** ** The labels of the connection errors *)

Lemma for_each_invariant {S X} (P : S -> Prop) (xs : list X)
      (body : X -> M S unit) :
  (forall x s, P s -> P (fst (body x s))) ->
  forall s, P s -> P (fst (for_each xs body s)).
Proof.
  intros Hbody. induction xs as [|x xs IH]; intros s Hs; simpl.
  - exact Hs.
  - unfold bind. specialize (Hbody x s Hs).
    destruct (body x s) as [s' [u|e]]; simpl in *.
    + apply IH. exact Hbody.
    + exact Hbody.
Qed.

Section ConnectionEntries.
Variable json_loads : string -> res pyval.

Let all_str (c c' : list conn_entry) : Prop :=
  Forall conn_entry_str c -> Forall conn_entry_str c'.

Lemma find_connection_error_moves (p : parsed) (msg err : pyval) :
  moves all_str connection_errors (find_connection_error p msg err).
Proof.
  intros a H. unfold find_connection_error.
  destruct msg; try exact H. destruct err; try exact H.
  mrun. destruct (is_connection_text _); simpl; [|exact H].
  apply Forall_app. split; [exact H|].
  constructor; [|constructor]. eexists. eexists. split; reflexivity.
Qed.

Lemma classify_line_connection_entries (line : string) (a : analysis) :
  Forall conn_entry_str (connection_errors a) ->
  Forall conn_entry_str
    (connection_errors (fst (classify_line json_loads line a))).
Proof.
  assert (Hrefl : forall c, all_str c c) by (intros c H; exact H).
  revert a. change (moves all_str connection_errors
                      (classify_line json_loads line)).
  unfold classify_line.
  destruct (strip line =? ""); [intros a; apply Hrefl|].
  apply (moves_bind_after _ _ Hrefl); [apply keeps_lift|]. intros p.
  apply (moves_bind_after _ _ Hrefl);
    [unfold_blocks; repeat keeps_step|]. intros _.
  apply (moves_bind_after _ _ Hrefl); [apply keeps_lift|]. intros lvl.
  cbv zeta.
  apply (moves_bind_after _ _ Hrefl);
    [unfold_blocks; repeat keeps_step|]. intros _.
  apply moves_bind_before; [apply find_connection_error_moves|].
  intros _. apply after_connection_keeps.
Qed.

Lemma analyze_logs_connection_entries (logs : list string) (a : analysis) :
  analyze_logs json_loads logs = Ok a ->
  Forall conn_entry_str (connection_errors a).
Proof.
  intros H. apply analyze_logs_run in H.
  pose proof (for_each_invariant
                (fun s => Forall conn_entry_str (connection_errors s))
                logs (classify_line json_loads)
                classify_line_connection_entries init_analysis
                (Forall_nil _)) as K.
  rewrite H in K. exact K.
Qed.

End ConnectionEntries.

(** What [print_connection_error] writes for an entry with a str message
    and a str error. *)
Lemma print_connection_error_labels (i : nat) (entry : conn_entry)
      (out : list out_line) :
  conn_entry_str entry ->
  let raw := conn_raw entry in
  exists lines,
    print_connection_error i entry out = (out ++ lines, Ok tt)
    /\ (In LabelFabricPeer lines <-> contains "7051" raw = true)
    /\ (In LabelPostgreSQL lines
        <-> contains "7051" raw = false /\ contains "5432" raw = true)
    /\ (In LabelApiGateway lines
        <-> contains "7051" raw = false /\ contains "5432" raw = false
            /\ contains "172.21.0." raw = true
            /\ contains "8080" raw = true)
    /\ List.length (filter is_label lines) <= 1.
Proof.
  intros (m & er & Hm & He) raw. unfold print_connection_error.
  rewrite Hm, He. fold raw. unfold emit. mrun.
  destruct (negb (m =? "")), (negb (er =? ""));
    destruct (contains "172.21.0." raw), (contains "7051" raw),
      (contains "5432" raw), (contains "8080" raw); simpl;
    rewrite <- ?app_assoc; simpl;
    (eexists; split; [reflexivity|]);
    simpl; repeat split; intros;
    repeat match goal with
           | H : _ \/ _ |- _ => destruct H
           | H : _ /\ _ |- _ => destruct H
           end;
    try discriminate; try contradiction; auto 6.
Qed.


(** C4, as stated, fails: the connection error of a line with 8080 and
    an upstream outside 172.21.0.x is printed without the label. *)
Lemma gateway_label_counterexample :
  exists a entry out,
    analyze_logs Json.json_loads_ref [gateway_line] = Ok a
    /\ connection_errors a = [entry]
    /\ contains "8080" (conn_raw entry) = true
    /\ print_connection_errors a [] = (out, Ok tt)
    /\ existsb is_gateway_label out = false.
Proof.
  eexists. eexists. eexists.
  split; [vm_compute; reflexivity|].
  split; [reflexivity|].
  split; [vm_compute; reflexivity|].
  split; [vm_compute; reflexivity|].
  vm_compute. reflexivity.
Qed.

(** Nor does 5432 give the PostgreSQL label when 7051 is there too. *)
Example postgres_label_shadowed :
  let entry := mk_conn (Some "svc") (PStr "dial error") (PStr "")
                       "svc | dial error 172.21.0.26:7051 172.21.0.14:5432" in
  fst (print_connection_error 1 entry [])
  = [ConnHeader 1 (Some "svc"); ConnMessage (PStr "dial error");
     LabelFabricPeer].
Proof. vm_compute. reflexivity. Qed.

(** What [print_connection_error] writes does not depend on what was
    written before. *)
Lemma print_connection_error_appends (i : nat) (entry : conn_entry)
      (out : list out_line) :
  conn_entry_str entry ->
  print_connection_error i entry out
  = (out ++ fst (print_connection_error i entry []), Ok tt).
Proof.
  intros (m & er & Hm & He). unfold print_connection_error.
  rewrite Hm, He. unfold emit. mrun.
  destruct (negb (m =? "")), (negb (er =? ""));
    destruct (contains "172.21.0." (conn_raw entry)),
      (contains "7051" (conn_raw entry)),
      (contains "5432" (conn_raw entry)),
      (contains "8080" (conn_raw entry)); simpl;
    rewrite <- ?app_assoc; reflexivity.
Qed.

Lemma for_each_appends {X L} (f : X -> list L)
      (body : X -> M (list L) unit) (xs : list X) :
  (forall x, In x xs -> forall out, body x out = (out ++ f x, Ok tt)) ->
  forall out, for_each xs body out = (out ++ flat_map f xs, Ok tt).
Proof.
  induction xs as [|x xs IH]; intros H out; simpl.
  - rewrite app_nil_r. reflexivity.
  - rewrite (bind_ok _ _ out (out ++ f x) tt (H x (or_introl eq_refl) out)).
    rewrite IH by (intros y Hy; apply H; right; exact Hy).
    rewrite <- app_assoc. reflexivity.
Qed.

Lemma enumerate_app {X} (l1 l2 : list X) (n : nat) :
  enumerate (l1 ++ l2) n
  = enumerate l1 n ++ enumerate l2 (n + List.length l1).
Proof.
  revert n. induction l1 as [|x l1 IH]; intros n; simpl.
  - rewrite Nat.add_0_r. reflexivity.
  - rewrite IH. do 3 f_equal. lia.
Qed.

Lemma enumerate_snd_in {X} (xs : list X) (n i : nat) (x : X) :
  In (i, x) (enumerate xs n) -> In x xs.
Proof.
  revert n. induction xs as [|y xs IH]; simpl; intros n; [tauto|].
  intros [H|H]; [inversion H; auto | right; exact (IH _ H)].
Qed.

(** The section on the connection errors: the title, and for every entry
    what [print_connection_error] writes for it under its number. *)
Lemma print_connection_errors_entry (a : analysis) (k : nat)
      (entry : conn_entry) :
  Forall conn_entry_str (connection_errors a) ->
  nth_error (connection_errors a) k = Some entry ->
  exists before after,
    print_connection_errors a []
    = (ConnSectionTitle
         :: before ++ fst (print_connection_error (S k) entry []) ++ after,
       Ok tt).
Proof.
  intros Hstr Hk. unfold print_connection_errors.
  rewrite (bind_ok _ _ [] [ConnSectionTitle] tt eq_refl).
  destruct (connection_errors a) as [|c cs] eqn:E;
    [destruct k; discriminate Hk|].
  rewrite <- E in *. clear E c cs.
  rewrite (for_each_appends
             (fun ie => fst (print_connection_error (fst ie) (snd ie) [])));
    [|intros [i x] Hin out; simpl;
      apply print_connection_error_appends;
      rewrite Forall_forall in Hstr; apply Hstr;
      exact (enumerate_snd_in _ _ _ _ Hin)].
  destruct (nth_error_split _ _ Hk) as (l1 & l2 & Hl & Hlen).
  rewrite Hl, enumerate_app, flat_map_app. simpl.
  rewrite Hlen.
  eexists. eexists. reflexivity.
Qed.

(** C4, amended: for every entry of [connection_errors] of a returned
    analysis, [print_analysis] writes the Fabric peer label when the raw
    line contains 7051; the PostgreSQL label when it contains 5432 and not
    7051; the API gateway label when it contains 8080 and 172.21.0. and
    neither 7051 nor 5432; and never two labels for one entry. This is
    what [print_connection_error] writes for the entry, and these lines
    are in the section that [print_analysis] prints, under the number of
    the entry. *)
Theorem connection_labels
        (json_loads : string -> res pyval) (logs : list string)
        (a : analysis) (i : nat) (entry : conn_entry)
        (out : list out_line) :
  analyze_logs json_loads logs = Ok a ->
  In entry (connection_errors a) ->
  let raw := conn_raw entry in
  (exists lines,
      print_connection_error i entry out = (out ++ lines, Ok tt)
      /\ (contains "7051" raw = true -> In LabelFabricPeer lines)
      /\ (contains "5432" raw = true -> contains "7051" raw = false ->
          In LabelPostgreSQL lines)
      /\ (contains "8080" raw = true -> contains "172.21.0." raw = true ->
          contains "7051" raw = false -> contains "5432" raw = false ->
          In LabelApiGateway lines)
      /\ List.length (filter is_label lines) <= 1)
  /\ forall k,
      nth_error (connection_errors a) k = Some entry ->
      exists before lines after,
        print_connection_errors a []
        = (ConnSectionTitle :: before ++ lines ++ after, Ok tt)
        /\ print_connection_error (S k) entry [] = (lines, Ok tt)
        /\ (contains "7051" raw = true -> In LabelFabricPeer lines)
        /\ (contains "5432" raw = true -> contains "7051" raw = false ->
            In LabelPostgreSQL lines)
        /\ (contains "8080" raw = true ->
            contains "172.21.0." raw = true ->
            contains "7051" raw = false -> contains "5432" raw = false ->
            In LabelApiGateway lines)
        /\ List.length (filter is_label lines) <= 1.
Proof.
  intros H Hin raw.
  pose proof (analyze_logs_connection_entries json_loads logs a H) as K.
  assert (Kin : conn_entry_str entry)
    by (rewrite Forall_forall in K; exact (K entry Hin)).
  split.
  - destruct (print_connection_error_labels i entry out Kin)
      as (lines & Hrun & Hf & Hp & Hg & Hone).
    exists lines. split; [exact Hrun|].
    split; [apply Hf|]. split; [intros; apply Hp; auto|].
    split; [intros; apply Hg; auto | exact Hone].
  - intros k Hk.
    destruct (print_connection_errors_entry a k entry K Hk)
      as (before & after & Hsec).
    destruct (print_connection_error_labels (S k) entry [] Kin)
      as (lines & Hrun & Hf & Hp & Hg & Hone).
    rewrite Hrun in Hsec. simpl in Hsec, Hrun.
    exists before, lines, after. split; [exact Hsec|].
    split; [exact Hrun|].
    split; [apply Hf|]. split; [intros; apply Hp; auto|].
    split; [intros; apply Hg; auto | exact Hone].
Qed.

Lemma connection_labels_witness :
  exists a entry lines before after,
    analyze_logs Json.json_loads_ref sample_logs = Ok a
    /\ nth_error (connection_errors a) 1 = Some entry
    /\ conn_service entry = Some "api-gateway-nginx"
    /\ print_connection_error 2 entry [] = (lines, Ok tt)
    /\ In LabelApiGateway lines
    /\ print_connection_errors a []
       = (ConnSectionTitle :: before ++ lines ++ after, Ok tt).
Proof.
  destruct (analyze_logs Json.json_loads_ref sample_logs) as [a|e] eqn:E;
    [|vm_compute in E; discriminate].
  destruct (nth_error (connection_errors a) 1) as [entry|] eqn:N;
    [|vm_compute in E; inversion E; subst a; discriminate N].
  destruct (connection_labels Json.json_loads_ref sample_logs a 2 entry []
              E (nth_error_In _ _ N)) as (_ & Hsec).
  destruct (Hsec 1 N)
    as (before & lines & after & Hs & Hp & _ & _ & Hg & _).
  exists a, entry, lines, before, after.
  split; [reflexivity|]. split; [exact N|].
  vm_compute in E. inversion E; subst a.
  vm_compute in N. inversion N; subst entry.
  split; [reflexivity|]. split; [exact Hp|].
  split; [apply Hg; vm_compute; reflexivity | exact Hs].
Defined.

(** ** The seed generator *)

Lemma flat_map_singleton {A B} (f : A -> B) (xs : list A) :
  flat_map (fun x => [f x]) xs = map f xs.
Proof. induction xs; simpl; congruence. Qed.

Lemma flat_map_nil {A B} (xs : list A) :
  flat_map (fun _ : A => @nil B) xs = [].
Proof. induction xs; simpl; congruence. Qed.

Module SeedFacts.
Import Seed.

Ltac unfold_seed :=
  unfold generate_tx_id, generate_block_hash, get_timestamp, randint,
    uuid4, draw, now, append_batch, append_package, append_sql;
  mrun.

Section World.
Variable entropy : nat -> N.
Variable clock : nat -> N.
Variable sha256_hexdigest : string -> string.
Variable uuid_str : N -> string.
Variable uuid_hex : N -> string.
Variable isoformat_days_before : N -> Z -> string.

(** [random.choice] of a list that is not empty returns one of its
    elements. *)
Lemma choice_returns (xs : list string) (g : globals) :
  xs <> [] ->
  exists x,
    In x xs
    /\ choice entropy xs g
       = (mk_globals (S (tick g)) (batches g) (packages g)
            (sql_statements g), Ok x).
Proof.
  intros Hne. unfold choice, draw. mrun.
  destruct (nth_error xs (N.to_nat (entropy (tick g)) mod List.length xs))
    as [x|] eqn:E.
  - exists x. split; [exact (nth_error_In _ _ E) | reflexivity].
  - exfalso. apply nth_error_None in E.
    assert (List.length xs <> 0) by (destruct xs; simpl; congruence).
    pose proof (Nat.mod_upper_bound
                  (N.to_nat (entropy (tick g))) (List.length xs) H).
    lia.
Qed.

(** A loop whose passes each append what one row describes: the rows of
    the whole loop, and the lists after it. [I] and [Q] are facts about
    the two lists of ids that appending keeps true. *)
Lemma for_each_rows {X} (body : X -> M globals unit)
      (I : list string -> list string -> Prop)
      (Q : list string -> list string -> row -> Prop)
      (fb fp : row -> list string) (fs : X -> row -> string) :
  (forall B P B' P', I B P -> I (B ++ B') (P ++ P')) ->
  (forall B P B' P' r, Q B P r -> Q (B ++ B') (P ++ P') r) ->
  (forall x g,
      I (batches g) (packages g) ->
      exists r g',
        body x g = (g', Ok tt)
        /\ Q (batches g) (packages g) r
        /\ batches g' = batches g ++ fb r
        /\ packages g' = packages g ++ fp r
        /\ sql_statements g' = sql_statements g ++ [fs x r]) ->
  forall xs g,
    I (batches g) (packages g) ->
    exists rs g',
      for_each xs body g = (g', Ok tt)
      /\ List.length rs = List.length xs
      /\ Forall (Q (batches g') (packages g')) rs
      /\ batches g' = batches g ++ flat_map fb rs
      /\ packages g' = packages g ++ flat_map fp rs
      /\ sql_statements g'
         = sql_statements g
           ++ map (fun xr => fs (fst xr) (snd xr)) (combine xs rs).
Proof.
  intros HI HQ Hbody. induction xs as [|x xs IH]; intros g Hg.
  - exists [], g. simpl. rewrite !app_nil_r. repeat split. constructor.
  - destruct (Hbody x g Hg) as (r & g1 & Hrun & Hq & Hb & Hp & Hs).
    assert (Hg1 : I (batches g1) (packages g1))
      by (rewrite Hb, Hp; apply HI; exact Hg).
    destruct (IH g1 Hg1) as (rs & g' & Hrun' & Hlen & Hall & Hb' & Hp' & Hs').
    exists (r :: rs), g'. simpl.
    rewrite (bind_ok _ _ g g1 tt Hrun).
    split; [exact Hrun'|]. split; [congruence|].
    split.
    { constructor; [|exact Hall].
      rewrite Hb', Hp', Hb, Hp, <- !app_assoc. apply HQ. exact Hq. }
    rewrite Hb', Hp', Hs', Hb, Hp, Hs, <- !app_assoc. simpl.
    repeat split.
Qed.

Lemma map_snd_combine {X Y Z} (f : Y -> Z) (xs : list X) (ys : list Y) :
  List.length ys = List.length xs ->
  map (fun xy => f (snd xy)) (combine xs ys) = map f ys.
Proof.
  revert ys. induction xs as [|x xs IH]; intros [|y ys] H; simpl in *;
    try discriminate; try reflexivity.
  rewrite IH by lia. reflexivity.
Qed.

Lemma nonempty_of_length {A} (xs : list A) (n : nat) :
  List.length xs = S n -> xs <> [].
Proof. destruct xs; simpl; [discriminate | discriminate]. Qed.

End World.

(** One run, in a world chosen for the example. *)
Example demo_output_run :
  exists stmts,
    demo_output = Ok stmts
    /\ List.length stmts = 28
    /\ nth_error stmts 0
       = Some (insert_sql "h(u3)" "CreateBatch"
                 (batch_args "BATCH_00AB10CD" 0) 27 "h(u24)" "1005-6")
    /\ nth_error stmts 5
       = Some (insert_sql "h(u213)" "CreatePackage"
                 (package_args "PKG_00AB220C" "BATCH_00AB94CD") 135
                 "h(u241)" "1036-5").
Proof. eexists. split; [vm_compute; reflexivity|]. repeat split. Qed.

End SeedFacts.

(** ** The reference decoder on the payload of C3 *)

Lemma scan_string_plain (m rest acc : string) :
  all_chars plain_char m = true ->
  Json.scan_string (m ++ String dquote rest) acc = Some ((acc ++ m)%string, rest).
Proof.
  revert acc. induction m as [|c m IH]; intros acc H.
  - simpl. rewrite append_empty_r. reflexivity.
  - simpl in H. apply andb_true_iff in H as [Hc Hm].
    unfold plain_char in Hc.
    apply andb_true_iff in Hc as [Hc H32].
    apply andb_true_iff in Hc as [Hq Hb].
    apply negb_true_iff in Hq, Hb, H32.
    simpl. rewrite Hq, Hb, H32. rewrite (IH _ Hm), append_assoc.
    reflexivity.
Qed.

Lemma scan_members_last (fuel : nat) (pairs : list (string * pyval))
      (k v rest : string) :
  plain k = true -> plain v = true ->
  Json.scan_members (S (S fuel)) pairs
    (k ++ String dquote ":" ++ dq v ++ "}" ++ rest)
  = Some (PDict (dict_set pairs k (PStr v)), rest).
Proof.
  intros Hk Hv. unfold dq. cbn [append]. rewrite ?append_assoc.
  cbn [append Json.scan_members].
  rewrite (scan_string_plain k _ "" Hk).
  cbn -[Json.scan_once Json.scan_members Json.scan_string].
  cbn [Json.scan_once].
  cbn -[Json.scan_once Json.scan_members Json.scan_string].
  rewrite (scan_string_plain v _ "" Hv).
  reflexivity.
Qed.

Lemma scan_members_more (fuel : nat) (pairs : list (string * pyval))
      (k v rest : string) :
  plain k = true -> plain v = true ->
  Json.scan_members (S (S fuel)) pairs
    (k ++ String dquote ":" ++ dq v ++ "," ++ String dquote rest)
  = Json.scan_members (S fuel) (dict_set pairs k (PStr v)) rest.
Proof.
  intros Hk Hv. unfold dq. cbn [append]. rewrite ?append_assoc.
  cbn [append Json.scan_members].
  rewrite (scan_string_plain k _ "" Hk).
  cbn -[Json.scan_once Json.scan_members Json.scan_string].
  cbn [Json.scan_once].
  cbn -[Json.scan_once Json.scan_members Json.scan_string].
  rewrite (scan_string_plain v _ "" Hv).
  reflexivity.
Qed.

(** The reference decoder reads back an object of plain strings. *)
Lemma scan_members_flat (more : list (string * string)) :
  forall (k v : string) (pairs : list (string * pyval)) (fuel : nat),
    plain k = true -> plain v = true ->
    Forall (fun kv => plain (fst kv) = true /\ plain (snd kv) = true) more ->
    Json.scan_members (S (S (List.length more + fuel))) pairs
      (render_members k v more)
    = Some (PDict (dict_of (dict_set pairs k (PStr v)) more), "").
Proof.
  induction more as [|[k' v'] more IH]; intros k v pairs fuel Hk Hv Hall.
  - exact (scan_members_last _ pairs k v "" Hk Hv).
  - inversion Hall as [|? ? [Hk' Hv'] Hmore]; subst.
    transitivity
      (Json.scan_members (S (S (List.length more + fuel)))
         (dict_set pairs k (PStr v)) (render_members k' v' more)).
    + exact (scan_members_more _ pairs k v _ Hk Hv).
    + exact (IH k' v' (dict_set pairs k (PStr v)) fuel Hk' Hv' Hmore).
Qed.

Lemma length_append (a b : string) :
  String.length (a ++ b) = String.length a + String.length b.
Proof. induction a; simpl; congruence. Qed.

Lemma render_members_length (more : list (string * string)) :
  forall k v, List.length more <= String.length (render_members k v more).
Proof.
  induction more as [|[k' v'] more IH]; intros k v; simpl; [lia|].
  rewrite !length_append. simpl. rewrite !length_append.
  specialize (IH k' v'). simpl. lia.
Qed.

Lemma json_loads_ref_flat (k v : string) (more : list (string * string)) :
  plain k = true -> plain v = true ->
  Forall (fun kv => plain (fst kv) = true /\ plain (snd kv) = true) more ->
  Json.json_loads_ref (render_object k v more)
  = Ok (PDict (dict_of [(k, PStr v)] more)).
Proof.
  intros Hk Hv Hall. unfold Json.json_loads_ref, render_object.
  cbn -[Json.scan_once Json.scan_members Json.scan_string render_members].
  cbn [Json.scan_once].
  cbn -[Json.scan_once Json.scan_members Json.scan_string render_members].
  pose proof (render_members_length more k v) as Hlen.
  replace (String.length (render_members k v more))
    with (List.length more
          + (String.length (render_members k v more) - List.length more))
    by lia.
  rewrite (scan_members_flat more k v [] _ Hk Hv Hall). reflexivity.
Qed.

Example error_payload_text :
  error_payload "m" "e" = Json.q "{'level':'error','msg':'m','error':'e'}".
Proof. reflexivity. Qed.


(** ** The line of C3 with the reference decoder *)

Lemma plain_char_dot (c : ascii) : plain_char c = true -> dot c = true.
Proof.
  destruct c as [[] [] [] [] [] [] [] []]; vm_compute; intros H;
    congruence.
Qed.

Lemma plain_dot (s : string) : plain s = true -> all_chars dot s = true.
Proof.
  unfold plain. induction s as [|c s IH]; simpl; [reflexivity|].
  intros H. apply andb_true_iff in H as [Hc Hs].
  rewrite (plain_char_dot c Hc). auto.
Qed.

Lemma error_payload_dot (m e : string) :
  plain m = true -> plain e = true ->
  all_chars dot (error_payload m e) = true.
Proof.
  intros Hm He. apply plain_dot in Hm, He.
  unfold error_payload, render_object, render_members, dq.
  cbn [append all_chars].
  rewrite !all_chars_append. cbn [append all_chars].
  rewrite !all_chars_append. cbn [append all_chars].
  rewrite Hm, He. reflexivity.
Qed.

(** For every token [svc] and all plain texts [m] and [e], the line
    [svc | {"level":"error","msg":"m","error":"e"}], decoded by the
    reference decoder, adds one entry to [errors], with [svc], [m] and
    [e]. *)
Lemma error_line_reference (svc m e : string) (a : analysis) :
  svc <> "" -> all_chars nonspace svc = true ->
  plain m = true -> plain e = true ->
  let line := (svc ++ " | " ++ error_payload m e)%string in
  let a' := fst (classify_line Json.json_loads_ref line a) in
  snd (classify_line Json.json_loads_ref line a) = Ok tt
  /\ (exists entry,
         errors a' = errors a ++ [entry]
         /\ err_service entry = Some svc
         /\ err_message entry = PStr m
         /\ err_error entry = PStr e)
  /\ warnings a' = warnings a /\ fatal a' = fatal a /\ info a' = info a.
Proof.
  intros Hs Hsa Hm He.
  apply (error_document_recorded Json.json_loads_ref svc " " " "
           (error_payload m e) m e
           [("level", PStr "error"); ("msg", PStr m); ("error", PStr e)] a);
    try assumption; try discriminate; try reflexivity.
  - apply error_payload_dot; assumption.
  - unfold error_payload.
    rewrite json_loads_ref_flat;
      [reflexivity | reflexivity | reflexivity |].
    repeat constructor; assumption.
Qed.

(** ** Runs of the pattern, of the decoder and of the loop *)

Example re_match_runs :
  re_match "svc | payload" = Some ("svc", "payload")
  /\ re_match "api-gateway-1          | {x" = Some ("api-gateway-1", "{x")
  /\ re_match "a|b | c d" = Some ("a|b", "c d")
  /\ re_match ("svc | foo" ++ String newline "") = Some ("svc", "foo")
  /\ re_match "svc |  " = Some ("svc", " ")
  /\ re_match "svc | " = None
  /\ re_match "svc |x" = None
  /\ re_match " svc | x" = None
  /\ re_match ("svc | foo" ++ String newline "bar") = None
  /\ re_match "not a log line" = None.
Proof. vm_compute. repeat split. Qed.

Example strip_runs :
  strip "  a b  " = "a b"
  /\ strip (String newline (" x" ++ String newline "")) = "x"
  /\ strip "   " = ""
  /\ lower "Connection REFUSED (111)" = "connection refused (111)".
Proof. vm_compute. repeat split. Qed.

Example json_ref_object :
  Json.json_loads_ref (Json.q "{'level':'error', 'n': [1, -20, null], 'msg':'a\\b'}")
  = Ok (PDict [("level", PStr "error");
               ("n", PList [PInt 1; PInt (-20); PNone]);
               ("msg", PStr ("a" ++ String Json.backslash "b"))]).
Proof. vm_compute. reflexivity. Qed.

Example json_ref_duplicate_key :
  Json.json_loads_ref (Json.q "{'a':1,'b':2,'a':3}")
  = Ok (PDict [("a", PInt 3); ("b", PInt 2)]).
Proof. vm_compute. reflexivity. Qed.

Example json_ref_rejects :
  Json.json_loads_ref (Json.q "{'a':1,}") = Raise DecodeError
  /\ Json.json_loads_ref (Json.q "{'a' 1}") = Raise DecodeError
  /\ Json.json_loads_ref (Json.q "{not json") = Raise DecodeError.
Proof. vm_compute. repeat split. Qed.

(** A level, a message or an error that is not a str and not falsy makes
    the loop raise: the caller of [analyze_logs] gets no analysis. *)
Example analyze_logs_raises :
  analyze_logs Json.json_loads_ref [Json.q "svc | {'level':5}"]
  = Raise AttributeError
  /\ analyze_logs Json.json_loads_ref [Json.q "svc | {'msg':['a']}"]
     = Raise TypeError
  /\ analyze_logs Json.json_loads_ref [Json.q "svc | {'msg':'m','error':7}"]
     = Raise TypeError
  /\ exists a,
      analyze_logs Json.json_loads_ref
        [Json.q "svc | {'level':'','msg':null,'error':0}"] = Ok a
      /\ info a = [mk_level (Some "svc") (PStr "")].
Proof.
  split; [vm_compute; reflexivity|].
  split; [vm_compute; reflexivity|].
  split; [vm_compute; reflexivity|].
  eexists. split; [vm_compute; reflexivity|]. reflexivity.
Qed.

(** * Further properties of [analyze_logs.py] *)

(** ** One pass of the loop, in full *)

Lemma classify_line_run (json_loads : string -> res pyval) (line : string)
      (a : analysis) (p : parsed) (lvl m e : string) :
  (strip line =? "") = false ->
  parse_log_line json_loads line = Ok p ->
  py_lower (py_or (level p) (PStr "info")) = Ok lvl ->
  py_or (message p) (PStr "") = PStr m ->
  py_or (error p) (PStr "") = PStr e ->
  classify_line json_loads line a = (run_line line p lvl m e a, Ok tt).
Proof.
  intros Hb Hp Hl Hm He.
  rewrite (classify_line_str json_loads line a p lvl m e) by assumption.
  rewrite (bind_ok _ _ _ _ tt (find_connection_error_str _ _ _ _)).
  rewrite (bind_ok _ _ _ _ tt (find_startup_str _ _ _)).
  rewrite find_health_check_str. reflexivity.
Qed.

(** A pass that returns had a str (or falsy) level, message and error. *)
Lemma classify_line_ok_inv (json_loads : string -> res pyval)
      (line : string) (a a' : analysis) (u : unit) :
  (strip line =? "") = false ->
  classify_line json_loads line a = (a', Ok u) ->
  exists p lvl m e,
    parse_log_line json_loads line = Ok p
    /\ py_lower (py_or (level p) (PStr "info")) = Ok lvl
    /\ py_or (message p) (PStr "") = PStr m
    /\ py_or (error p) (PStr "") = PStr e
    /\ a' = run_line line p lvl m e a.
Proof.
  intros Hb H.
  destruct (parse_total json_loads line) as (p & Hp & _).
  destruct (py_lower (py_or (level p) (PStr "info"))) as [lvl|x] eqn:Hl.
  - destruct (py_or (message p) (PStr "")) as [| | | |m| |] eqn:Hm;
      destruct (py_or (error p) (PStr "")) as [| | | |e| |] eqn:He;
      try (exfalso; revert H; unfold classify_line;
           rewrite Hb, Hp; rewrite (bind_ok _ _ a a p) by reflexivity;
           rewrite (bind_returns _ _ a tt) by apply count_service_returns;
           rewrite Hl, Hm, He;
           rewrite (bind_ok _ _ _ (fst (count_service p a)) lvl)
             by reflexivity;
           cbv zeta;
           rewrite (bind_returns _ _ _ tt) by apply route_level_returns;
           unfold find_connection_error, bind, lift; simpl;
           discriminate).
    rewrite (classify_line_run json_loads line a p lvl m e Hb Hp Hl Hm He)
      in H.
    inversion H. exists p, lvl, m, e. auto.
  - exfalso. revert H. unfold classify_line. rewrite Hb, Hp.
    rewrite (bind_ok _ _ a a p) by reflexivity.
    rewrite (bind_returns _ _ a tt) by apply count_service_returns.
    rewrite Hl. unfold bind, lift. discriminate.
Qed.

Lemma classify_line_blank (json_loads : string -> res pyval)
      (line : string) (a : analysis) :
  (strip line =? "") = true ->
  classify_line json_loads line a = (a, Ok tt).
Proof. intros H. unfold classify_line. rewrite H. reflexivity. Qed.

(** What holds before a loop whose passes all return, and is kept by each
    returning pass, holds after it. *)
Lemma for_each_ok_invariant {S X} (P : S -> Prop) (body : X -> M S unit) :
  forall xs : list X,
    (forall x s s' u, In x xs -> body x s = (s', Ok u) -> P s -> P s') ->
    forall s s' u, for_each xs body s = (s', Ok u) -> P s -> P s'.
Proof.
  induction xs as [|x xs IH]; intros Hbody s s' u H Hs.
  - inversion H; subst. exact Hs.
  - apply for_each_cons_ok in H as (s1 & H1 & H2).
    apply (IH (fun y t t' v Hy => Hbody y t t' v (or_intror Hy)) s1 s' u H2).
    exact (Hbody x s s1 tt (or_introl eq_refl) H1 Hs).
Qed.

Lemma for_each_returns {S X} (body : X -> M S unit) :
  forall xs : list X,
    (forall x s, In x xs -> snd (body x s) = Ok tt) ->
    forall s, snd (for_each xs body s) = Ok tt.
Proof.
  induction xs as [|x xs IH]; intros H s; simpl; [reflexivity|].
  rewrite (bind_returns _ _ s tt (H x s (or_introl eq_refl))).
  apply IH. intros y t Hy. apply H. right. exact Hy.
Qed.

(** ** Blank lines, lines that do not match, plain text *)

(** X1: blank lines are skipped: the result for a list of lines is the
    result for its lines that are not blank. *)
Theorem blank_lines_ignored
        (json_loads : string -> res pyval) (logs : list string) :
  analyze_logs json_loads logs
  = analyze_logs json_loads (filter nonblank logs).
Proof.
  unfold analyze_logs.
  assert (H : forall a,
             for_each logs (classify_line json_loads) a
             = for_each (filter nonblank logs) (classify_line json_loads) a).
  { induction logs as [|line logs IH]; intros a; [reflexivity|].
    simpl. unfold nonblank at 1.
    destruct (strip line =? "") eqn:Hb; simpl.
    - rewrite (bind_ok _ _ a a tt (classify_line_blank _ _ _ Hb)). apply IH.
    - unfold bind.
      destruct (classify_line json_loads line a) as [a1 [u|e]];
        [apply IH | reflexivity]. }
  rewrite H. reflexivity.
Qed.

Lemma classify_line_unmatched (json_loads : string -> res pyval)
      (line : string) (a : analysis) :
  (strip line =? "") = false -> re_match line = None ->
  classify_line json_loads line a
  = (add_info (mk_level None (PStr "")) a, Ok tt).
Proof.
  intros Hb Hm.
  rewrite (classify_line_run json_loads line a (init_result line)
             "info" "" "" Hb (parse_unmatched json_loads line Hm)
             eq_refl eq_refl eq_refl).
  reflexivity.
Qed.

(** X2: a line that is not blank and does not match the pattern adds one
    record to [info], with no service and an empty message, and changes
    nothing else: no count, no other list. *)
Theorem unmatched_line_is_info
        (json_loads : string -> res pyval) (line : string) (a : analysis) :
  nonblank line = true -> re_match line = None ->
  classify_line json_loads line a
  = (add_info (mk_level None (PStr "")) a, Ok tt).
Proof.
  intros Hb Hm. apply classify_line_unmatched; [|exact Hm].
  unfold nonblank in Hb. apply negb_true_iff in Hb. exact Hb.
Qed.

Lemma unmatched_line_is_info_witness :
  classify_line json_loads_never "not a log line" init_analysis
  = (add_info (mk_level None (PStr "")) init_analysis, Ok tt).
Proof.
  apply (unmatched_line_is_info json_loads_never "not a log line"
           init_analysis); reflexivity.
Defined.

Lemma re_match_leading_space (c : ascii) (s : string) :
  isspace c = true -> re_match (String c s) = None.
Proof.
  intros H. unfold re_match, re_plus, nonspace. rewrite H. reflexivity.
Qed.

(** X3: the pattern is anchored at the first character of the line as it
    is, not of the stripped line: a line that starts with white space
    never gets a service, whatever follows; if it is not blank it is one
    more [info] record without service and message. *)
Theorem indented_line_not_parsed
        (json_loads : string -> res pyval) (c : ascii) (s : string)
        (a : analysis) :
  isspace c = true ->
  re_match (String c s) = None
  /\ (nonblank (String c s) = true ->
      classify_line json_loads (String c s) a
      = (add_info (mk_level None (PStr "")) a, Ok tt)).
Proof.
  intros H. split; [apply re_match_leading_space; exact H|].
  intros Hb. apply classify_line_unmatched.
  - unfold nonblank in Hb. apply negb_true_iff in Hb. exact Hb.
  - apply re_match_leading_space; exact H.
Qed.

Lemma indented_line_not_parsed_witness :
  re_match "  svc | starting" = None
  /\ classify_line Json.json_loads_ref "  svc | starting" init_analysis
     = (add_info (mk_level None (PStr "")) init_analysis, Ok tt).
Proof.
  destruct (indented_line_not_parsed Json.json_loads_ref " " " svc | starting"
              init_analysis eq_refl) as [H1 H2].
  split; [exact H1 | apply H2; reflexivity].
Defined.

Lemma guessed_level_lower (payload : string) :
  py_lower (py_or (guessed_level payload) (PStr "info"))
  = Ok (if contains "error" (lower payload) then "error"
        else if contains "warn" (lower payload) then "warn" else "info").
Proof.
  unfold guessed_level.
  destruct (contains "error" (lower payload)); [reflexivity|].
  destruct (contains "warn" (lower payload)); reflexivity.
Qed.

Lemma run_line_level_lists (line : string) (p : parsed) (lvl m e : string)
      (a : analysis) :
  level_lists (run_line line p lvl m e a)
  = level_lists (fst (route_level p lvl (PStr m) (PStr e) a)).
Proof.
  unfold run_line, level_lists, count_service, route_level, when.
  repeat match goal with
         | |- context [if ?c then _ else _] => destruct c
         | |- context [match ?o with Some _ => _ | None => _ end] =>
             destruct o
         end; reflexivity.
Qed.

(** X4: a matching line with a plain-text payload always passes; it goes
    to [errors] when the payload contains "error" in any letter case
    (also when it contains "warn"), else to [warnings] when it contains
    "warn", else to [info]; never to [fatal]. *)
Theorem plain_text_level
        (json_loads : string -> res pyval) (line svc payload : string)
        (a : analysis) :
  re_match line = Some (svc, payload) ->
  startswith "{" payload = false ->
  exists a',
    classify_line json_loads line a = (a', Ok tt)
    /\ level_lists a'
       = if contains "error" (lower payload) then
           (errors a ++ [mk_error (Some svc) (PStr payload) (PStr "")
                           (PStr "") (strip line)],
            warnings a, fatal a, info a)
         else if contains "warn" (lower payload) then
           (errors a, warnings a ++ [mk_level (Some svc) (PStr payload)],
            fatal a, info a)
         else
           (errors a, warnings a, fatal a,
            info a ++ [mk_level (Some svc) (PStr payload)]).
Proof.
  intros Hm Hs.
  pose proof (parse_plain_text json_loads line svc payload Hm Hs) as Hp.
  eexists. split.
  - apply (classify_line_run json_loads line a _ _ payload ""
             (re_match_not_blank _ _ _ Hm) Hp (guessed_level_lower payload)
             (py_or_str payload) eq_refl).
  - rewrite run_line_level_lists. unfold route_level, level_lists.
    destruct (contains "error" (lower payload)); [reflexivity|].
    destruct (contains "warn" (lower payload)); reflexivity.
Qed.

Lemma plain_text_level_witness :
  exists a',
    classify_line json_loads_never nginx_line init_analysis = (a', Ok tt)
    /\ map err_service (errors a') = [Some "api-gateway-nginx"]
    /\ warnings a' = [] /\ fatal a' = [] /\ info a' = [].
Proof.
  destruct (plain_text_level json_loads_never nginx_line
              "api-gateway-nginx"
              (Json.q "2025/11/17 04:04:17 [error] 24#24: *11 connect() failed (111: Connection refused) while connecting to upstream, client: 127.0.0.1, server: localhost, request: 'GET /health HTTP/1.1', upstream: 'http://172.21.0.15:8080/health', host: '127.0.0.1'")
              init_analysis eq_refl eq_refl) as (a' & Hrun & Hl).
  exists a'. split; [exact Hrun|].
  unfold level_lists in Hl. injection Hl as H1 H2 H3 H4.
  rewrite H1, H2, H3, H4. repeat split.
Defined.

(** ** Runs that cannot raise *)

Lemma classify_line_undecoded_returns (json_loads : string -> res pyval)
      (line : string) (a : analysis) :
  (forall svc payload,
      re_match line = Some (svc, payload) ->
      startswith "{" payload = true ->
      forall d, json_loads payload <> Ok (PDict d)) ->
  snd (classify_line json_loads line a) = Ok tt.
Proof.
  intros H.
  destruct (strip line =? "") eqn:Hb.
  { rewrite classify_line_blank by assumption. reflexivity. }
  destruct (re_match line) as [[svc payload]|] eqn:Hm.
  - destruct (startswith "{" payload) eqn:Hs.
    + apply (classify_line_str_returns json_loads line a _ "info" payload ""
               Hb (parse_fallback json_loads line svc payload Hm Hs
                     (H svc payload eq_refl Hs))
               eq_refl (py_or_str payload) eq_refl).
    + apply (classify_line_str_returns json_loads line a _ _ payload ""
               Hb (parse_plain_text json_loads line svc payload Hm Hs)
               (guessed_level_lower payload) (py_or_str payload) eq_refl).
  - rewrite classify_line_unmatched by assumption. reflexivity.
Qed.

(** X5: when no payload of the lines decodes to a dict (plain text, or a
    document that the decoder rejects), [analyze_logs] returns an
    analysis: malformed input alone never makes it raise. *)
Theorem undecoded_logs_return
        (json_loads : string -> res pyval) (logs : list string) :
  (forall line svc payload,
      In line logs -> re_match line = Some (svc, payload) ->
      startswith "{" payload = true ->
      forall d, json_loads payload <> Ok (PDict d)) ->
  exists a, analyze_logs json_loads logs = Ok a.
Proof.
  intros H. unfold analyze_logs.
  pose proof (for_each_returns (classify_line json_loads) logs
                (fun line a Hin =>
                   classify_line_undecoded_returns json_loads line a
                     (fun svc payload => H line svc payload Hin))
                init_analysis) as R.
  destruct (for_each logs (classify_line json_loads) init_analysis)
    as [a r]. simpl in R. subst r. exists a. reflexivity.
Qed.

Lemma undecoded_logs_return_witness :
  exists a,
    analyze_logs json_loads_never
      ("svc | {not json" :: "svc | {}" :: plain_logs) = Ok a.
Proof.
  apply (undecoded_logs_return json_loads_never).
  intros line svc payload _ _ _ d. discriminate.
Defined.

(** ** The records of a returned analysis *)

Ltac split_run :=
  unfold run_line, count_service, route_level, when;
  repeat match goal with
         | |- context [if ?c then _ else _] => destruct c
         | |- context [match ?o with Some _ => _ | None => _ end] =>
             destruct o
         end.

Lemma run_line_str_fields (line : string) (p : parsed) (lvl m e : string)
      (a : analysis) :
  str_fields a -> str_fields (run_line line p lvl m e a).
Proof.
  intros (H1 & H2 & H3 & H4 & H5 & H6 & H7).
  assert (Hm : is_str (PStr m)) by (eexists; reflexivity).
  assert (He : is_str (PStr e)) by (eexists; reflexivity).
  split_run; unfold str_fields; simpl;
    repeat split; try assumption;
    apply Forall_app; (split; [assumption|]);
    repeat constructor; assumption.
Qed.

Lemma str_fields_init : str_fields init_analysis.
Proof. unfold str_fields. simpl. repeat split; constructor. Qed.

Lemma analyze_logs_str_fields
        (json_loads : string -> res pyval) (logs : list string)
        (a : analysis) :
  analyze_logs json_loads logs = Ok a -> str_fields a.
Proof.
  intros H. apply analyze_logs_run in H.
  apply (for_each_ok_invariant str_fields (classify_line json_loads) logs)
    with (s := init_analysis) (s' := a) (u := tt);
    [|exact H|exact str_fields_init].
  intros line s s' u _ Hrun Hs.
  destruct (strip line =? "") eqn:Hb.
  - rewrite classify_line_blank in Hrun by assumption.
    inversion Hrun; subst. exact Hs.
  - apply classify_line_ok_inv in Hrun as (p & lvl & m & e & _ & _ & _ & _ & ->);
      [|exact Hb].
    apply run_line_str_fields. exact Hs.
Qed.


(** X6: in an analysis that [analyze_logs] returns, the message of every
    record of every list is a str, and so is the error of every record
    that has one. *)
Theorem returned_records_are_strs
        (json_loads : string -> res pyval) (logs : list string)
        (a : analysis) :
  analyze_logs json_loads logs = Ok a -> str_fields a.
Proof. apply analyze_logs_str_fields. Qed.

Lemma returned_records_are_strs_witness :
  exists a,
    analyze_logs Json.json_loads_ref sample_logs = Ok a /\ str_fields a.
Proof.
  destruct (analyze_logs Json.json_loads_ref sample_logs) as [a|e] eqn:E;
    [|vm_compute in E; discriminate].
  exists a. split; [reflexivity|].
  exact (returned_records_are_strs _ _ _ E).
Defined.

Lemma run_line_heuristics (line : string) (p : parsed) (lvl m e : string)
      (a : analysis) :
  (has_token (service p) \/ (m = "" /\ e = "")) ->
  heuristics_have_service a ->
  heuristics_have_service (run_line line p lvl m e a).
Proof.
  intros [Hsvc|[-> ->]] (H1 & H2 & H3).
  - split_run; unfold heuristics_have_service; simpl;
      repeat split; try assumption;
      apply Forall_app; (split; [assumption|]);
      repeat constructor; assumption.
  - unfold run_line. simpl. unfold count_service, route_level, when.
    repeat match goal with
           | |- context [if ?c then _ else _] => destruct c
           | |- context [match ?o with Some _ => _ | None => _ end] =>
               destruct o
           end; unfold heuristics_have_service; simpl; auto.
Qed.

Lemma parsed_service_or_empty (json_loads : string -> res pyval)
      (line : string) (p : parsed) (m e : string) :
  parse_log_line json_loads line = Ok p ->
  py_or (message p) (PStr "") = PStr m ->
  py_or (error p) (PStr "") = PStr e ->
  has_token (service p) \/ (m = "" /\ e = "").
Proof.
  intros Hp Hm He.
  destruct (re_match line) as [[svc payload]|] eqn:Hmatch.
  - left. destruct (parse_total json_loads line) as (r & Hr & _ & Hsvc).
    rewrite Hp in Hr. inversion Hr; subst r. rewrite Hmatch in Hsvc.
    exists svc. split; [exact Hsvc|].
    apply re_match_sound in Hmatch as (_ & _ & _ & _ & Hne & _). exact Hne.
  - right. rewrite (parse_unmatched json_loads line Hmatch) in Hp.
    inversion Hp; subst p. simpl in Hm, He.
    inversion Hm. inversion He. auto.
Qed.

Lemma analyze_logs_heuristics
        (json_loads : string -> res pyval) (logs : list string)
        (a : analysis) :
  analyze_logs json_loads logs = Ok a -> heuristics_have_service a.
Proof.
  intros H. apply analyze_logs_run in H.
  apply (for_each_ok_invariant heuristics_have_service
           (classify_line json_loads) logs)
    with (s := init_analysis) (s' := a) (u := tt); [|exact H|].
  - intros line s s' u _ Hrun Hs.
    destruct (strip line =? "") eqn:Hb.
    + rewrite classify_line_blank in Hrun by assumption.
      inversion Hrun; subst. exact Hs.
    + apply classify_line_ok_inv in Hrun
        as (p & lvl & m & e & Hp & _ & Hm & He & ->); [|exact Hb].
      apply run_line_heuristics; [|exact Hs].
      exact (parsed_service_or_empty json_loads line p m e Hp Hm He).
  - unfold heuristics_have_service. simpl. repeat split; constructor.
Qed.


(** X7: every record of [connection_errors], of [startup_sequence] and of
    [health_checks] has a service: a line without the bar has no message
    and no error, so no substring test can see it. (This is why
    ['nginx' in err.get('service', '')] of [main] is safe.) *)
Theorem heuristic_records_have_service
        (json_loads : string -> res pyval) (logs : list string)
        (a : analysis) :
  analyze_logs json_loads logs = Ok a -> heuristics_have_service a.
Proof. apply analyze_logs_heuristics. Qed.

Lemma heuristic_records_have_service_witness :
  exists a,
    analyze_logs Json.json_loads_ref sample_logs = Ok a
    /\ heuristics_have_service a.
Proof.
  destruct (analyze_logs Json.json_loads_ref sample_logs) as [a|e] eqn:E;
    [|vm_compute in E; discriminate].
  exists a. split; [reflexivity|].
  exact (heuristic_records_have_service _ _ _ E).
Defined.

(** ** The service map *)

Lemma dict_lookup_set {V} (d : list (string * V)) (k k' : string) (v : V) :
  dict_lookup (dict_set d k v) k'
  = if k =? k' then Some v else dict_lookup d k'.
Proof.
  induction d as [|[k0 v0] d IH]; simpl; [reflexivity|].
  destruct (String.eqb_spec k0 k) as [->|Hne]; simpl.
  - destruct (k =? k'); reflexivity.
  - rewrite IH. destruct (String.eqb_spec k0 k') as [->|Hne'];
      [|reflexivity].
    destruct (String.eqb_spec k k'); [congruence | reflexivity].
Qed.

Lemma dict_set_keys_in {V} (d : list (string * V)) (k x : string) (v : V) :
  In x (map fst (dict_set d k v)) -> x = k \/ In x (map fst d).
Proof.
  induction d as [|[k0 v0] d IH]; simpl.
  - intros [H|[]]; auto.
  - destruct (k0 =? k); simpl; intros [H|H]; auto.
    destruct (IH H); auto.
Qed.

Lemma dict_set_nodup {V} (d : list (string * V)) (k : string) (v : V) :
  NoDup (map fst d) -> NoDup (map fst (dict_set d k v)).
Proof.
  induction d as [|[k0 v0] d IH]; simpl; intros H.
  - constructor; [intros [] | constructor].
  - inversion H as [|? ? Hnin Hd]; subst.
    destruct (String.eqb_spec k0 k) as [->|Hne]; simpl.
    + constructor; assumption.
    + constructor; [|apply IH; exact Hd].
      intros Hin. apply dict_set_keys_in in Hin as [->|Hin];
        [congruence | contradiction].
Qed.

Lemma dict_set_forall {V} (P : string * V -> Prop) (d : list (string * V))
      (k : string) (v : V) :
  Forall P d -> P (k, v) -> Forall P (dict_set d k v).
Proof.
  intros Hd Hk. induction d as [|[k0 v0] d IH]; simpl.
  - constructor; [exact Hk | constructor].
  - inversion Hd; subst.
    destruct (String.eqb_spec k0 k) as [->|Hne].
    + constructor; assumption.
    + constructor; [assumption | apply IH; assumption].
Qed.

Section ServiceMap.
Variable json_loads : string -> res pyval.

Lemma classify_line_count_of (k line : string) (a : analysis) :
  count_of (services (fst (classify_line json_loads line a))) k
  = count_of (services a) k + indicator (token_is k line).
Proof.
  rewrite classify_line_services. unfold token_is, nonblank, indicator.
  destruct (re_match line) as [[svc p]|]; simpl.
  - destruct (strip line =? ""); simpl; [lia|].
    unfold count_of at 1. rewrite dict_lookup_set.
    destruct (svc =? k) eqn:E; [|unfold count_of; lia].
    apply String.eqb_eq in E. subst. unfold count_of. lia.
  - rewrite andb_false_r. lia.
Qed.

Lemma for_each_count_of (k : string) (logs : list string)
      (a a' : analysis) (u : unit) :
  for_each logs (classify_line json_loads) a = (a', Ok u) ->
  count_of (services a') k
  = count_of (services a) k + List.length (filter (token_is k) logs).
Proof.
  intros H. rewrite <- list_sum_indicator.
  exact (for_each_counts (fun s => count_of (services s) k)
           (fun l => indicator (token_is k l))
           (classify_line json_loads)
           (classify_line_count_of k) logs a a' u H).
Qed.

Lemma classify_line_service_keys (line : string) (a : analysis) :
  NoDup (map fst (services a))
  /\ Forall (fun kv => fst kv <> "" /\ 1 <= snd kv) (services a) ->
  NoDup (map fst (services (fst (classify_line json_loads line a))))
  /\ Forall (fun kv => fst kv <> "" /\ 1 <= snd kv)
       (services (fst (classify_line json_loads line a))).
Proof.
  intros [Hn Hf]. rewrite classify_line_services.
  destruct (re_match line) as [[svc p]|] eqn:Hm; [|auto].
  destruct (strip line =? ""); [auto|]. simpl. split.
  - apply dict_set_nodup. exact Hn.
  - apply dict_set_forall; [exact Hf|]. simpl. split; [|lia].
    apply re_match_sound in Hm as (_ & _ & _ & _ & Hne & _). exact Hne.
Qed.

End ServiceMap.

(** X8: the count of a service in the returned map is the number of lines
    that are not blank and have that token; a token that no such line has
    is not in the map. *)
Theorem service_count_per_token
        (json_loads : string -> res pyval) (logs : list string)
        (a : analysis) (k : string) :
  analyze_logs json_loads logs = Ok a ->
  count_of (services a) k = List.length (filter (token_is k) logs)
  /\ (dict_lookup (services a) k = None
      <-> filter (token_is k) logs = []).
Proof.
  intros H. apply analyze_logs_run in H.
  pose proof (for_each_count_of json_loads k logs _ _ _ H) as Hc.
  pose proof (for_each_invariant
                (fun s => NoDup (map fst (services s))
                          /\ Forall (fun kv => fst kv <> "" /\ 1 <= snd kv)
                               (services s))
                logs (classify_line json_loads)
                (classify_line_service_keys json_loads) init_analysis
                (conj (NoDup_nil _) (Forall_nil _))) as [_ Hpos].
  rewrite H in Hpos. simpl in Hpos, Hc.
  split; [exact Hc|].
  unfold count_of in Hc.
  destruct (dict_lookup (services a) k) as [n|] eqn:E.
  - split; [discriminate|]. intros Hnil. exfalso.
    rewrite Hnil in Hc. simpl in Hc.
    assert (Hin : In (k, n) (services a)).
    { clear - E. induction (services a) as [|[k0 v0] d IH];
        simpl in *; [discriminate|].
      destruct (String.eqb_spec k0 k) as [->|Hne].
      - inversion E; subst. left. reflexivity.
      - right. apply IH. exact E. }
    rewrite Forall_forall in Hpos. specialize (Hpos _ Hin). simpl in Hpos.
    lia.
  - split; [|reflexivity]. intros _.
    destruct (filter (token_is k) logs); [reflexivity | discriminate].
Qed.

Lemma service_count_per_token_witness :
  exists a,
    analyze_logs Json.json_loads_ref sample_logs = Ok a
    /\ count_of (services a) "api-gateway-1" = 2
    /\ dict_lookup (services a) "redis" = None.
Proof.
  destruct (analyze_logs Json.json_loads_ref sample_logs) as [a|e] eqn:E;
    [|vm_compute in E; discriminate].
  exists a. split; [reflexivity|]. split.
  - rewrite (proj1 (service_count_per_token _ _ _ "api-gateway-1" E)).
    vm_compute. reflexivity.
  - apply (proj2 (service_count_per_token _ _ _ "redis" E)).
    vm_compute. reflexivity.
Defined.

(** X9: the service map is a dict: no token is in it twice, no token is
    empty, and every count is at least one. *)
Theorem service_map_is_dict
        (json_loads : string -> res pyval) (logs : list string)
        (a : analysis) :
  analyze_logs json_loads logs = Ok a ->
  NoDup (map fst (services a))
  /\ Forall (fun kv => fst kv <> "" /\ 1 <= snd kv) (services a).
Proof.
  intros H. apply analyze_logs_run in H.
  pose proof (for_each_invariant
                (fun s => NoDup (map fst (services s))
                          /\ Forall (fun kv => fst kv <> "" /\ 1 <= snd kv)
                               (services s))
                logs (classify_line json_loads)
                (classify_line_service_keys json_loads) init_analysis
                (conj (NoDup_nil _) (Forall_nil _))) as K.
  rewrite H in K. exact K.
Qed.

Lemma service_map_is_dict_witness :
  exists a,
    analyze_logs Json.json_loads_ref sample_logs = Ok a
    /\ NoDup (map fst (services a))
    /\ Forall (fun kv => fst kv <> "" /\ 1 <= snd kv) (services a).
Proof.
  destruct (analyze_logs Json.json_loads_ref sample_logs) as [a|e] eqn:E;
    [|vm_compute in E; discriminate].
  exists a. split; [reflexivity|].
  exact (service_map_is_dict _ _ _ E).
Defined.

(** ** The lists only grow *)

Lemma is_prefix_refl {A} (l : list A) : is_prefix l l.
Proof. exists []. rewrite app_nil_r. reflexivity. Qed.

Lemma is_prefix_snoc {A} (l : list A) (x : A) : is_prefix l (l ++ [x]).
Proof. exists [x]. reflexivity. Qed.

Lemma is_prefix_trans {A} (l1 l2 l3 : list A) :
  is_prefix l1 l2 -> is_prefix l2 l3 -> is_prefix l1 l3.
Proof.
  intros [t ->] [t' ->]. exists (t ++ t'). rewrite app_assoc. reflexivity.
Qed.

Lemma extends_refl (a : analysis) : extends a a.
Proof. unfold extends. repeat split; apply is_prefix_refl. Qed.

Lemma extends_trans (a b c : analysis) :
  extends a b -> extends b c -> extends a c.
Proof.
  unfold extends.
  intros (A1 & A2 & A3 & A4 & A5 & A6 & A7) (B1 & B2 & B3 & B4 & B5 & B6 & B7).
  repeat split; eapply is_prefix_trans; eassumption.
Qed.

Lemma moves_bind_trans {S A B X} (R : X -> X -> Prop) (f : S -> X)
      (m : M S A) (k : A -> M S B) :
  (forall x y z, R x y -> R y z -> R x z) ->
  moves R f m -> (forall a, moves R f (k a)) -> moves R f (bind m k).
Proof.
  intros Htrans Hm Hk s. unfold bind. specialize (Hm s).
  destruct (m s) as [s' [a|e]]; simpl in *; [|exact Hm].
  exact (Htrans _ _ _ Hm (Hk a s')).
Qed.

Lemma moves_for_each {S X Y} (R : Y -> Y -> Prop) (f : S -> Y)
      (xs : list X) (body : X -> M S unit) :
  (forall y, R y y) -> (forall x y z, R x y -> R y z -> R x z) ->
  (forall x, moves R f (body x)) -> moves R f (for_each xs body).
Proof.
  intros Hrefl Htrans Hbody. induction xs as [|x xs IH]; simpl.
  - intros s. apply Hrefl.
  - apply moves_bind_trans; [exact Htrans | apply Hbody | intros _; exact IH].
Qed.

Ltac extends_step :=
  match goal with
  | |- moves extends _ (bind _ _) =>
      apply (moves_bind_trans _ _ _ _ extends_trans); [|intros ?]
  | |- moves extends _ (when ?c _) => destruct c; unfold when
  | |- moves extends _ (ret _) => intros ?; apply extends_refl
  | |- moves extends _ (lift _) => intros ?; apply extends_refl
  | |- moves extends _ (if ?c then _ else _) => destruct c
  | |- moves extends _ (modify _) =>
      intros ?; unfold extends; simpl; repeat split;
      first [apply is_prefix_refl | apply is_prefix_snoc]
  end.

Lemma classify_line_extends (json_loads : string -> res pyval)
      (line : string) :
  moves extends (fun a => a) (classify_line json_loads line).
Proof.
  unfold classify_line. unfold_blocks. repeat extends_step.
Qed.

(** X10: the lists are append-only and keep the order of the input: the
    analysis of a longer input starts, list by list, with the analysis of
    the shorter one, and no count of a service gets smaller. *)
Theorem analysis_grows
        (json_loads : string -> res pyval) (logs more : list string)
        (a a' : analysis) :
  analyze_logs json_loads logs = Ok a ->
  analyze_logs json_loads (logs ++ more) = Ok a' ->
  extends a a'
  /\ forall k, count_of (services a) k <= count_of (services a') k.
Proof.
  intros H H'. apply analyze_logs_run in H, H'.
  rewrite for_each_app, H in H'.
  split.
  - pose proof (moves_for_each extends (fun a => a) more
                  (classify_line json_loads) extends_refl extends_trans
                  (classify_line_extends json_loads) a) as K.
    simpl in K. rewrite H' in K. exact K.
  - intros k. rewrite (for_each_count_of json_loads k more a a' tt H'). lia.
Qed.

Lemma analysis_grows_witness :
  exists a a',
    analyze_logs Json.json_loads_ref (firstn 2 sample_logs) = Ok a
    /\ analyze_logs Json.json_loads_ref sample_logs = Ok a'
    /\ extends a a'
    /\ forall k, count_of (services a) k <= count_of (services a') k.
Proof.
  destruct (analyze_logs Json.json_loads_ref (firstn 2 sample_logs))
    as [a|e] eqn:E; [|vm_compute in E; discriminate].
  destruct (analyze_logs Json.json_loads_ref sample_logs)
    as [a'|e] eqn:E'; [|vm_compute in E'; discriminate].
  exists a, a'. split; [reflexivity|]. split; [reflexivity|].
  apply (analysis_grows Json.json_loads_ref (firstn 2 sample_logs)
           (skipn 2 sample_logs) a a' E).
  rewrite firstn_skipn. exact E'.
Defined.

(** ** No line is counted twice by level *)

Lemma at_most_one_more_length (a a' : analysis) :
  at_most_one_more (level_lists a) (level_lists a') ->
  level_total a' <= level_total a + 1.
Proof.
  unfold at_most_one_more, level_lists, level_total.
  intros [(-> & -> & -> & ->)
         |[([x ->] & -> & -> & ->)
          |[(-> & [x ->] & -> & ->)
           |[(-> & -> & [x ->] & ->)
            |(-> & -> & -> & [x ->])]]]];
    rewrite ?length_app; simpl; lia.
Qed.

Lemma for_each_bound {S X} (f : S -> nat) (w : X -> nat)
      (body : X -> M S unit) :
  (forall x s, f (fst (body x s)) <= f s + w x) ->
  forall xs s, f (fst (for_each xs body s)) <= f s + list_sum (map w xs).
Proof.
  intros Hbody. induction xs as [|x xs IH]; intros s; simpl; [lia|].
  unfold bind. specialize (Hbody x s).
  destruct (body x s) as [s1 [u|e]]; simpl in *.
  - specialize (IH s1). lia.
  - lia.
Qed.

(** X11: the four level lists together hold at most one record per line
    that is not blank (a line with a level that is none of the four is in
    none of them). *)
Theorem level_records_bounded
        (json_loads : string -> res pyval) (logs : list string)
        (a : analysis) :
  analyze_logs json_loads logs = Ok a ->
  level_total a <= List.length (filter nonblank logs).
Proof.
  intros H. apply analyze_logs_run in H.
  assert (Hstep : forall line s,
             level_total (fst (classify_line json_loads line s))
             <= level_total s + indicator (nonblank line)).
  { intros line s. unfold nonblank, indicator.
    destruct (strip line =? "") eqn:Hb; simpl.
    - rewrite classify_line_blank by assumption. simpl. lia.
    - apply at_most_one_more_length.
      apply (classify_line_moves json_loads line s). }
  pose proof (for_each_bound level_total
                (fun l => indicator (nonblank l))
                (classify_line json_loads) Hstep logs init_analysis) as K.
  rewrite <- list_sum_indicator. rewrite H in K. exact K.
Qed.

Lemma level_records_bounded_witness :
  exists a,
    analyze_logs Json.json_loads_ref sample_logs = Ok a
    /\ level_total a <= 6.
Proof.
  destruct (analyze_logs Json.json_loads_ref sample_logs) as [a|e] eqn:E;
    [|vm_compute in E; discriminate].
  exists a. split; [reflexivity|].
  exact (level_records_bounded _ _ _ E).
Defined.

(** * Further properties of [print_analysis] and [main] *)

Lemma for_each_say {X} (f : X -> report_line) (xs : list X)
      (out : list report_line) :
  for_each xs (fun x => say (f x)) out = (out ++ map f xs, Ok tt).
Proof.
  revert out. induction xs as [|x xs IH]; intros out; simpl.
  - rewrite app_nil_r. reflexivity.
  - unfold bind, say, modify at 1. simpl. rewrite IH, <- app_assoc.
    reflexivity.
Qed.

(** ** The services, by count *)

Lemma insert_by_count_perm (x : string * nat) (l : list (string * nat)) :
  Permutation (insert_by_count x l) (x :: l).
Proof.
  induction l as [|y l IH]; simpl; [reflexivity|].
  destruct (snd y <=? snd x)%nat; [reflexivity|].
  rewrite IH. apply perm_swap.
Qed.

Lemma sorted_by_count_perm (l : list (string * nat)) :
  Permutation (sorted_by_count l) l.
Proof.
  induction l as [|x l IH]; simpl; [reflexivity|].
  rewrite insert_by_count_perm. constructor. exact IH.
Qed.

Lemma insert_by_count_sorted (x : string * nat) (l : list (string * nat)) :
  StronglySorted count_ge l -> StronglySorted count_ge (insert_by_count x l).
Proof.
  induction l as [|y l IH]; simpl; intros H.
  - constructor; [constructor | constructor].
  - inversion H as [|? ? Hl Hy]; subst.
    destruct (Nat.leb_spec (snd y) (snd x)) as [Hle|Hlt].
    + constructor; [exact H|]. constructor; [exact Hle|].
      eapply Forall_impl; [|exact Hy]. unfold count_ge. intros z Hz. lia.
    + constructor; [apply IH; exact Hl|].
      apply (Permutation_Forall (Permutation_sym (insert_by_count_perm x l))).
      constructor; [unfold count_ge; lia | exact Hy].
Qed.

Lemma sorted_by_count_sorted (l : list (string * nat)) :
  StronglySorted count_ge (sorted_by_count l).
Proof.
  induction l as [|x l IH]; simpl; [constructor|].
  apply insert_by_count_sorted. exact IH.
Qed.

Lemma insert_by_count_stable (c : nat) (x : string * nat)
      (l : list (string * nat)) :
  filter (fun y => (snd y =? c)%nat) (insert_by_count x l)
  = filter (fun y => (snd y =? c)%nat) (x :: l).
Proof.
  induction l as [|y l IH]; [reflexivity|].
  cbn [insert_by_count].
  destruct (Nat.leb_spec (snd y) (snd x)) as [Hle|Hlt]; [reflexivity|].
  cbn [filter] in *. rewrite IH.
  destruct (Nat.eqb_spec (snd y) c), (Nat.eqb_spec (snd x) c);
    try reflexivity.
  lia.
Qed.

Lemma sorted_by_count_stable (c : nat) (l : list (string * nat)) :
  filter (fun y => (snd y =? c)%nat) (sorted_by_count l)
  = filter (fun y => (snd y =? c)%nat) l.
Proof.
  induction l as [|x l IH]; [reflexivity|].
  cbn [sorted_by_count fold_right]. rewrite insert_by_count_stable.
  cbn [filter]. fold (sorted_by_count l). rewrite IH. reflexivity.
Qed.

(** X12: the section on the services prints its title and one line per
    service of the map, each service once, larger counts first, and
    services with the same count in the order of the map (the order in
    which the logs first name them). *)
Theorem services_printed_by_count (a : analysis) (out : list report_line) :
  exists rows,
    print_services a out
    = (out ++ SectionTitle SecServices
           :: map (fun sc => ServiceCount (fst sc) (snd sc)) rows,
       Ok tt)
    /\ Permutation rows (services a)
    /\ StronglySorted count_ge rows
    /\ forall c, filter (fun y => (snd y =? c)%nat) rows
                 = filter (fun y => (snd y =? c)%nat) (services a).
Proof.
  exists (sorted_by_count (services a)). split; [|split; [|split]].
  - unfold print_services.
    rewrite (bind_ok _ _ out (out ++ [SectionTitle SecServices]) tt eq_refl).
    rewrite for_each_say, <- app_assoc. reflexivity.
  - apply sorted_by_count_perm.
  - apply sorted_by_count_sorted.
  - intros c. apply sorted_by_count_stable.
Qed.

Example services_printed_run :
  fst (print_services
         (mk_analysis [("a", 2); ("b", 5); ("c", 2); ("d", 5)]
            [] [] [] [] [] [] [] []) [])
  = [SectionTitle SecServices; ServiceCount "b" 5; ServiceCount "d" 5;
     ServiceCount "a" 2; ServiceCount "c" 2].
Proof. reflexivity. Qed.

(** ** The groups by service *)

Lemma key_eqb_spec (a b : option string) : reflect (a = b) (key_eqb a b).
Proof.
  destruct a as [x|], b as [y|]; simpl; try (constructor; congruence).
  destruct (String.eqb_spec x y); constructor; congruence.
Qed.

Section Groups.
Context {E V : Type}.
Variable key : E -> option string.
Variable val : E -> V.

Lemma group_lookup_append (d : list (option string * list V))
      (k0 k : option string) (v : V) :
  group_lookup (group_append d k0 v) k
  = if key_eqb k0 k
    then Some (match group_lookup d k0 with
               | Some vs => vs ++ [v]
               | None => [v]
               end)
    else group_lookup d k.
Proof.
  induction d as [|[k1 vs] d IH]; simpl.
  - destruct (key_eqb_spec k0 k); [|reflexivity].
    destruct (key_eqb_spec k0 k0); [reflexivity | congruence].
  - destruct (key_eqb_spec k1 k0) as [->|Hne]; simpl.
    + destruct (key_eqb k0 k); reflexivity.
    + rewrite IH. destruct (key_eqb_spec k1 k) as [->|Hne'];
        [|reflexivity].
      destruct (key_eqb_spec k0 k); [congruence | reflexivity].
Qed.

Lemma group_append_keys_in (d : list (option string * list V))
      (k x : option string) (v : V) :
  In x (map fst (group_append d k v)) -> x = k \/ In x (map fst d).
Proof.
  induction d as [|[k0 vs] d IH]; simpl.
  - intros [H|[]]; auto.
  - destruct (key_eqb k0 k); simpl; intros [H|H]; auto.
    destruct (IH H); auto.
Qed.

Lemma group_append_nodup (d : list (option string * list V))
      (k : option string) (v : V) :
  NoDup (map fst d) -> NoDup (map fst (group_append d k v)).
Proof.
  induction d as [|[k0 vs] d IH]; simpl; intros H.
  - constructor; [intros [] | constructor].
  - inversion H as [|? ? Hnin Hd]; subst.
    destruct (key_eqb_spec k0 k) as [->|Hne]; simpl.
    + constructor; assumption.
    + constructor; [|apply IH; exact Hd].
      intros Hin. apply group_append_keys_in in Hin as [->|Hin];
        [congruence | contradiction].
Qed.

Lemma group_append_total (d : list (option string * list V))
      (k : option string) (v : V) :
  list_sum (map (fun g => List.length (snd g)) (group_append d k v))
  = list_sum (map (fun g => List.length (snd g)) d) + 1.
Proof.
  induction d as [|[k0 vs] d IH]; simpl; [reflexivity|].
  destruct (key_eqb k0 k); simpl.
  - rewrite length_app. simpl. lia.
  - rewrite IH. lia.
Qed.

Lemma group_by_snoc (es : list E) (e : E) :
  group_by key val (es ++ [e])
  = group_append (group_by key val es) (key e) (val e).
Proof. unfold group_by. rewrite fold_left_app. reflexivity. Qed.

Lemma group_by_nodup (es : list E) :
  NoDup (map fst (group_by key val es)).
Proof.
  induction es as [|e es IH] using rev_ind; [constructor|].
  rewrite group_by_snoc. apply group_append_nodup. exact IH.
Qed.

Lemma group_by_total (es : list E) :
  list_sum (map (fun g => List.length (snd g)) (group_by key val es))
  = List.length es.
Proof.
  induction es as [|e es IH] using rev_ind; [reflexivity|].
  rewrite group_by_snoc, group_append_total, IH, length_app. reflexivity.
Qed.

(** The group of a key holds the values of the elements with that key,
    in their order; a key without elements has no group. *)
Lemma group_by_lookup (es : list E) (k : option string) :
  group_lookup (group_by key val es) k
  = match filter (fun e => key_eqb (key e) k) es with
    | [] => None
    | l => Some (map val l)
    end.
Proof.
  induction es as [|e es IH] using rev_ind; [reflexivity|].
  rewrite group_by_snoc, group_lookup_append, filter_app. simpl.
  destruct (key_eqb_spec (key e) k) as [Hk|Hk].
  - rewrite Hk, IH.
    destruct (filter (fun e0 => key_eqb (key e0) k) es) as [|x l];
      [reflexivity|].
    simpl. rewrite map_app. reflexivity.
  - rewrite IH, app_nil_r. reflexivity.
Qed.

Lemma group_append_keys (d : list (option string * list V))
      (k : option string) (v : V) :
  map fst (group_append d k v)
  = if existsb (fun k' => key_eqb k' k) (map fst d) then map fst d
    else map fst d ++ [k].
Proof.
  induction d as [|[k0 vs] d IH]; simpl; [reflexivity|].
  destruct (key_eqb k0 k); simpl; [reflexivity|].
  rewrite IH. destruct (existsb _ (map fst d)); reflexivity.
Qed.

Lemma fold_group_append_keys (es : list E)
      (d : list (option string * list V)) :
  map fst (fold_left (fun d e => group_append d (key e) (val e)) es d)
  = map fst d ++ first_seen_from (map fst d) (map key es).
Proof.
  revert d. induction es as [|e es IH]; intros d; simpl.
  - rewrite app_nil_r. reflexivity.
  - rewrite IH, group_append_keys.
    destruct (existsb _ (map fst d)); [reflexivity|].
    rewrite <- app_assoc. reflexivity.
Qed.

(** The groups are in the order in which their keys are first seen. *)
Lemma group_by_keys (es : list E) :
  map fst (group_by key val es) = first_seen (map key es).
Proof. unfold group_by. rewrite fold_group_append_keys. reflexivity. Qed.

End Groups.

Lemma last_n_suffix {V} (n : nat) (l : list V) :
  List.length (last_n n l) = Nat.min n (List.length l)
  /\ exists pre, l = pre ++ last_n n l.
Proof.
  unfold last_n. split.
  - rewrite length_skipn. lia.
  - exists (firstn (List.length l - n) l). rewrite firstn_skipn. reflexivity.
Qed.

Lemma for_each_startup (groups : list (option string * list pyval))
      (out : list report_line) :
  for_each groups
    (fun sm =>
       say (StartupService (fst sm)) ;;
       for_each (last_n 5 (snd sm)) (fun msg => say (StartupMessage msg)))
    out
  = (out ++ flat_map startup_lines groups, Ok tt).
Proof.
  revert out. induction groups as [|g groups IH]; intros out; simpl.
  - rewrite app_nil_r. reflexivity.
  - rewrite (bind_ok _ _ out
               (out ++ startup_lines g) tt).
    + rewrite IH, <- app_assoc. reflexivity.
    + rewrite (bind_ok _ _ out (out ++ [StartupService (fst g)]) tt eq_refl).
      rewrite for_each_say, <- app_assoc. reflexivity.
Qed.

(** X13: the startup section prints, for every service with startup
    records, in the order in which these services first occur, one
    heading and then the last five (or all, if fewer) of its startup
    messages in the order of the input; every service has one group, and
    the group of a service holds the messages of its records and no
    others. *)
Theorem startup_grouped_by_service (a : analysis) (out : list report_line) :
  exists groups,
    print_startup a out
    = (out ++ SectionTitle SecStartup :: flat_map startup_lines groups,
       Ok tt)
    /\ NoDup (map fst groups)
    /\ (forall k,
           group_lookup groups k
           = match filter (fun e => key_eqb (st_service e) k)
                     (startup_sequence a) with
             | [] => None
             | l => Some (map st_message l)
             end)
    /\ map fst groups = first_seen (map st_service (startup_sequence a))
    /\ Forall (fun g =>
                 List.length (last_n 5 (snd g))
                 = Nat.min 5 (List.length (snd g))
                 /\ exists pre, snd g = pre ++ last_n 5 (snd g)) groups.
Proof.
  exists (group_by st_service st_message (startup_sequence a)).
  split; [|split; [|split; [|split]]].
  - unfold print_startup.
    rewrite (bind_ok _ _ out (out ++ [SectionTitle SecStartup]) tt eq_refl).
    cbv zeta. rewrite for_each_startup, <- app_assoc. reflexivity.
  - apply group_by_nodup.
  - intros k. apply group_by_lookup.
  - apply group_by_keys.
  - apply Forall_forall. intros g _. apply last_n_suffix.
Qed.

Example startup_grouped_run :
  fst (print_startup
         (mk_analysis [] [] [] [] [] []
            [mk_startup (Some "a") (PStr "m1") PNone;
             mk_startup (Some "b") (PStr "n1") PNone;
             mk_startup (Some "a") (PStr "m2") PNone;
             mk_startup (Some "a") (PStr "m3") PNone;
             mk_startup (Some "a") (PStr "m4") PNone;
             mk_startup (Some "a") (PStr "m5") PNone;
             mk_startup (Some "a") (PStr "m6") PNone]
            [] []) [])
  = [SectionTitle SecStartup;
     StartupService (Some "a");
     StartupMessage (PStr "m2"); StartupMessage (PStr "m3");
     StartupMessage (PStr "m4"); StartupMessage (PStr "m5");
     StartupMessage (PStr "m6");
     StartupService (Some "b"); StartupMessage (PStr "n1")].
Proof. reflexivity. Qed.

(** X14: the health section prints the placeholder when there is no
    health check; otherwise one line per service, with the number of its
    health checks as the total and the number of those with the status
    "200" as the successes; the successes never exceed the total, and the
    totals add up to the number of health checks. *)
Theorem health_summary_counts (a : analysis) (out : list report_line) :
  exists groups,
    print_health a out
    = (out ++ SectionTitle SecHealth
           :: match health_checks a with
              | [] => [NoHealthChecks]
              | _ :: _ => map health_line groups
              end,
       Ok tt)
    /\ NoDup (map fst groups)
    /\ (forall k,
           group_lookup groups k
           = match filter (fun e => key_eqb (hc_service e) k)
                     (health_checks a) with
             | [] => None
             | l => Some (map hc_status l)
             end)
    /\ list_sum (map (fun g => List.length (snd g)) groups)
       = List.length (health_checks a)
    /\ Forall (fun g =>
                 List.length (filter (fun s => s =? "200") (snd g))
                 <= List.length (snd g)) groups.
Proof.
  exists (group_by hc_service hc_status (health_checks a)).
  split; [|split; [|split; [|split]]].
  - unfold print_health.
    rewrite (bind_ok _ _ out (out ++ [SectionTitle SecHealth]) tt eq_refl).
    destruct (health_checks a) as [|h hs] eqn:E.
    + unfold say, modify. rewrite <- app_assoc. reflexivity.
    + cbv zeta.
      rewrite (for_each_say health_line), <- app_assoc. reflexivity.
  - apply group_by_nodup.
  - intros k. apply group_by_lookup.
  - apply group_by_total.
  - apply Forall_forall. intros g _. apply filter_length_le.
Qed.

Example health_summary_run :
  fst (print_health
         (mk_analysis [] [] [] [] [] [] []
            [mk_health (Some "a") (PStr "h") "200";
             mk_health (Some "b") (PStr "h") "unknown";
             mk_health (Some "a") (PStr "h") "unknown"]
            []) [])
  = [SectionTitle SecHealth; HealthSummary (Some "a") 1 2;
     HealthSummary (Some "b") 0 1].
Proof. reflexivity. Qed.

(** ** The report never raises *)

Lemma returns_bind {S} (m : M S unit) (k : unit -> M S unit) :
  returns m -> (forall u, returns (k u)) -> returns (bind m k).
Proof.
  intros Hm Hk s. rewrite (bind_returns _ _ s tt (Hm s)). apply Hk.
Qed.

Lemma returns_say (l : report_line) : returns (say l).
Proof. intros s. reflexivity. Qed.

Lemma returns_when {S} (c : bool) (m : M S unit) :
  returns m -> returns (when c m).
Proof. intros H. destruct c; [exact H | intros s; reflexivity]. Qed.

Lemma returns_for_each {S X} (xs : list X) (body : X -> M S unit) :
  (forall x, In x xs -> returns (body x)) -> returns (for_each xs body).
Proof.
  intros H s. apply for_each_returns. intros x t Hx. apply (H x Hx).
Qed.

Lemma returns_embed (m : M (list out_line) unit) :
  snd (m []) = Ok tt -> returns (embed m).
Proof.
  intros H s. unfold embed. destruct (m []) as [l r]. exact H.
Qed.

Ltac returns_step :=
  match goal with
  | |- returns (bind _ _) => apply returns_bind; [|intros ?]
  | |- returns (when _ _) => apply returns_when
  | |- returns (say _) => apply returns_say
  | |- returns (for_each _ _) => apply returns_for_each; intros ? ?
  end.

Lemma enumerate_in {X} (xs : list X) (n i : nat) (x : X) :
  In (i, x) (enumerate xs n) -> In x xs.
Proof.
  revert n. induction xs as [|y xs IH]; simpl; intros n; [tauto|].
  intros [H|H]; [inversion H; auto | right; exact (IH _ H)].
Qed.

Lemma print_connection_errors_returns (a : analysis) :
  Forall conn_entry_str (connection_errors a) ->
  snd (print_connection_errors a []) = Ok tt.
Proof.
  intros H. unfold print_connection_errors.
  rewrite (bind_ok _ _ [] ([] ++ [ConnSectionTitle]) tt eq_refl).
  destruct (connection_errors a) as [|c cs] eqn:E; [reflexivity|].
  apply for_each_returns. intros [i x] out Hin. simpl.
  apply enumerate_in in Hin. rewrite Forall_forall in H.
  destruct (print_connection_error_labels i x out (H x Hin))
    as (lines & -> & _). reflexivity.
Qed.

Lemma print_analysis_returns (a : analysis) :
  Forall conn_entry_str (connection_errors a) -> returns (print_analysis a).
Proof.
  intros H. unfold print_analysis, print_services, print_errors,
    print_warnings, print_fatal, print_startup, print_health, print_summary.
  cbv zeta.
  repeat first
    [ returns_step
    | apply returns_embed; apply print_connection_errors_returns; exact H
    | match goal with
      | |- returns (match ?l with [] => _ | _ :: _ => _ end) => destruct l
      end ].
Qed.

Lemma advise_fatal_returns (f : fatal_entry) :
  is_str (fat_error f) -> returns (advise_fatal f).
Proof.
  intros [s Hs] out. unfold advise_fatal. rewrite Hs. mrun.
  destruct (contains "database" (lower s)); reflexivity.
Qed.

(** what [main] advises for a connection error with the str error [er] *)
Lemma advise_connection_str (conn_err : conn_entry) (er : string)
      (out : list report_line) :
  conn_error conn_err = PStr er ->
  advise_connection conn_err out
  = (if contains "fabric" (lower er) || contains "7051" er
     then out ++ [AdviceFabric]
     else if contains "postgres" (lower er) || contains "5432" er
          then out ++ [AdvicePostgres]
          else out,
     Ok tt).
Proof.
  intros H. unfold advise_connection. rewrite H. unfold say. mrun.
  destruct (contains "fabric" (lower er)); simpl; [reflexivity|].
  destruct (contains "7051" er); simpl; [reflexivity|].
  destruct (contains "postgres" (lower er)); simpl; [reflexivity|].
  destruct (contains "5432" er); reflexivity.
Qed.

Lemma any_nginx_returns (es : list conn_entry) :
  Forall (fun x => has_token (conn_service x)) es ->
  any_nginx es
  = Ok (existsb (fun x => match conn_service x with
                          | Some s => contains "nginx" s
                          | None => false
                          end) es).
Proof.
  induction es as [|x es IH]; intros H; simpl; [reflexivity|].
  inversion H as [|? ? (svc & Hsvc & _) Hes]; subst. rewrite Hsvc.
  destruct (contains "nginx" svc); [reflexivity | apply IH; exact Hes].
Qed.

Lemma recommend_returns (a : analysis) :
  str_fields a -> heuristics_have_service a -> returns (recommend a).
Proof.
  intros (_ & _ & _ & Hf & Hc & _) (Hs & _). unfold recommend.
  rewrite (any_nginx_returns _ Hs).
  rewrite Forall_forall in Hf, Hc.
  repeat first
    [ returns_step
    | apply advise_fatal_returns; apply Hf; assumption
    | match goal with
      | Hin : In ?x (connection_errors a) |- returns (advise_connection ?x) =>
          let s := fresh in
          destruct (Hc x Hin) as [_ [er Her]]; intros s;
          rewrite (advise_connection_str x er s Her); reflexivity
      | |- returns (lift (Ok _)) => intros ?; reflexivity
      end ].
Qed.

(** Once the analysis is returned, the printers and the recommendations
    run to their end: the slices, the [.lower()] calls and the [in] tests
    all meet strs. When the analysis raises, no line has been collected. *)
Lemma main_with_returns
      (json_loads : string -> res pyval) (logs : list string)
      (out : list report_line) :
  match analyze_logs json_loads logs with
  | Ok _ => snd (main_with json_loads logs out) = Ok tt
  | Raise e => main_with json_loads logs out = (out, Raise e)
  end.
Proof.
  unfold main_with.
  destruct (analyze_logs json_loads logs) as [a|e] eqn:E; [|reflexivity].
  rewrite (bind_ok _ _ out out a eq_refl).
  apply returns_bind.
  - apply print_analysis_returns.
    exact (analyze_logs_connection_entries json_loads logs a E).
  - intros _. apply recommend_returns.
    + exact (analyze_logs_str_fields json_loads logs a E).
    + exact (analyze_logs_heuristics json_loads logs a E).
Qed.

Lemma printed_until_refused (accepts : report_line -> bool)
      (lines p : list report_line) (l : report_line) :
  printed_until accepts lines = (p, Some l) -> accepts l = false.
Proof.
  revert p. induction lines as [|x lines IH]; intros p; simpl;
    [discriminate|].
  destruct (accepts x) eqn:E.
  - destruct (printed_until accepts lines) as [q r].
    intros H. inversion H; subst. exact (IH q eq_refl).
  - intros H. inversion H; subst. exact E.
Qed.

Lemma printed_until_all (accepts : report_line -> bool)
      (lines : list report_line) :
  (forall l, accepts l = true) -> printed_until accepts lines = (lines, None).
Proof.
  intros H. induction lines as [|x lines IH]; simpl; [reflexivity|].
  rewrite (H x), IH. reflexivity.
Qed.

(** X15: on any standard output, [main] raises only where [analyze_logs]
    or [print] itself does. Once the analysis is returned, the run either
    completes or stops at a line that the stream refuses, with the
    exception of [print]: the code of [print_analysis] and of the
    recommendations raises nothing of its own, and on a stream that
    accepts every line the run completes. When the analysis raises,
    nothing has been printed. *)
Theorem report_raises_only_from_print
        (json_loads : string -> res pyval) (logs : list string)
        (accepts : report_line -> bool) :
  match analyze_logs json_loads logs with
  | Ok _ =>
      match snd (on_stdout accepts (main_with json_loads logs)) with
      | Completed => True
      | PrintRaised l => accepts l = false
      | Raised _ => False
      end
      /\ ((forall l, accepts l = true) ->
          snd (on_stdout accepts (main_with json_loads logs)) = Completed)
  | Raise e => on_stdout accepts (main_with json_loads logs) = ([], Raised e)
  end.
Proof.
  pose proof (main_with_returns json_loads logs []) as H.
  unfold on_stdout.
  destruct (analyze_logs json_loads logs) as [a|e].
  - destruct (main_with json_loads logs []) as [lines r]. simpl in H.
    subst r. split.
    + destruct (printed_until accepts lines) as [p [l|]] eqn:E; simpl;
        [exact (printed_until_refused accepts lines p l E) | exact I].
    + intros Hall. rewrite (printed_until_all accepts lines Hall).
      reflexivity.
  - rewrite H. reflexivity.
Qed.

Lemma report_raises_only_from_print_witness :
  snd (on_stdout (fun _ => true) (main_with Json.json_loads_ref sample_logs))
  = Completed.
Proof.
  pose proof (report_raises_only_from_print Json.json_loads_ref sample_logs
                (fun _ => true)) as H.
  destruct (analyze_logs Json.json_loads_ref sample_logs) as [a|e] eqn:E;
    [|vm_compute in E; discriminate].
  exact (proj2 H (fun _ => eq_refl)).
Defined.

(** A stream that refuses the labels (it has no character for their
    arrow): the run on one line of nginx stops at the label, after the
    fourteen lines before it. *)
Example sample_report_refused :
  let r := on_stdout (fun l => match l with
                               | Conn LabelPostgreSQL | Conn LabelFabricPeer
                               | Conn LabelApiGateway => false
                               | _ => true
                               end)
             (main_with Json.json_loads_ref [nginx_line]) in
  List.length (fst r) = 14 /\ snd r = PrintRaised (Conn LabelApiGateway).
Proof. vm_compute. split; reflexivity. Qed.

(** The report of the sample. *)
Example sample_report :
  exists out,
    main_with Json.json_loads_ref sample_logs [] = (out, Ok tt)
    /\ filter (fun l => match l with
                        | ServiceCount _ _ | Conn (ConnHeader _ _)
                        | Conn LabelPostgreSQL | Conn LabelApiGateway
                        | AdviceDatabase | AdviceFabric | AdvicePostgres
                        | AdviceNginx | AdviceHealthOk
                        | HealthSummary _ _ _ => true
                        | _ => false
                        end) out
       = [ServiceCount "api-gateway-1" 2; ServiceCount "couchdb0" 1;
          ServiceCount "api-gateway-nginx" 1; ServiceCount "api-gateway-2" 1;
          Conn (ConnHeader 1 (Some "api-gateway-1")); Conn LabelPostgreSQL;
          Conn (ConnHeader 2 (Some "api-gateway-nginx"));
          Conn LabelApiGateway;
          HealthSummary (Some "api-gateway-nginx") 0 1;
          AdviceDatabase; AdvicePostgres; AdviceNginx; AdviceHealthOk].
Proof. eexists. split; [vm_compute; reflexivity|]. reflexivity. Qed.

(** X16: the advice of [main] reads the error field, the labels of
    [print_analysis] read the raw line. A connection error recorded from a
    plain-text line has an empty error, so [main] gives neither the
    Fabric nor the PostgreSQL advice for it, whatever ports the line
    names. *)
Theorem plain_text_connection_error_gets_no_advice
        (json_loads : string -> res pyval) (line svc payload : string)
        (a : analysis) :
  re_match line = Some (svc, payload) ->
  startswith "{" payload = false ->
  is_connection_text (lower (payload ++ " ")) = true ->
  exists entry,
    connection_errors (fst (classify_line json_loads line a))
    = connection_errors a ++ [entry]
    /\ conn_raw entry = strip line
    /\ forall out, advise_connection entry out = (out, Ok tt).
Proof.
  intros Hm Hs Hc.
  exists (mk_conn (Some svc) (PStr payload) (PStr "") (strip line)).
  split; [|split; [reflexivity | intros out; reflexivity]].
  rewrite (classify_line_connection_errors json_loads line a _ _ payload ""
             (re_match_not_blank _ _ _ Hm)
             (parse_plain_text json_loads line svc payload Hm Hs)
             (guessed_level_lower payload) (py_or_str payload) eq_refl).
  change (payload ++ " " ++ "")%string with (payload ++ " ")%string.
  rewrite Hc. reflexivity.
Qed.

Lemma plain_text_connection_error_gets_no_advice_witness :
  exists entry,
    connection_errors
      (fst (classify_line json_loads_never
              "db-proxy | dial error: 172.21.0.14:5432 connection refused"
              init_analysis))
    = [entry]
    /\ contains "5432" (conn_raw entry) = true
    /\ fst (print_connection_error 1 entry [])
       = [ConnHeader 1 (Some "db-proxy");
          ConnMessage (PStr "dial error: 172.21.0.14:5432 connection refused");
          LabelPostgreSQL]
    /\ forall out, advise_connection entry out = (out, Ok tt).
Proof.
  destruct (plain_text_connection_error_gets_no_advice json_loads_never
              "db-proxy | dial error: 172.21.0.14:5432 connection refused"
              "db-proxy" "dial error: 172.21.0.14:5432 connection refused"
              init_analysis eq_refl eq_refl eq_refl)
    as (entry & Hc & Hraw & Hadv).
  exists entry. split; [exact Hc|].
  assert (E : entry
              = mk_conn (Some "db-proxy")
                  (PStr "dial error: 172.21.0.14:5432 connection refused")
                  (PStr "")
                  "db-proxy | dial error: 172.21.0.14:5432 connection refused").
  { vm_compute in Hc. inversion Hc. reflexivity. }
  subst entry. split; [reflexivity|]. split; [reflexivity | exact Hadv].
Defined.

(** * The statements of [generate_seed.py] *)

(** ** Cutting and reading *)

Lemma split_on_last (c : ascii) (a : string) :
  free_of c a = true -> split_on c a = [a].
Proof.
  unfold free_of. induction a as [|x a IH]; simpl; [reflexivity|].
  intros H. apply andb_true_iff in H as [Hx Ha].
  apply negb_true_iff in Hx. rewrite Hx, (IH Ha). reflexivity.
Qed.

Lemma split_on_sep (c : ascii) (a b : string) :
  free_of c a = true ->
  split_on c (a ++ String c b) = a :: split_on c b.
Proof.
  unfold free_of. induction a as [|x a IH]; simpl.
  - intros _. rewrite Ascii.eqb_refl. reflexivity.
  - intros H. apply andb_true_iff in H as [Hx Ha].
    apply negb_true_iff in Hx. rewrite Hx, (IH Ha). reflexivity.
Qed.

Lemma free_of_append (c : ascii) (a b : string) :
  free_of c (a ++ b) = free_of c a && free_of c b.
Proof. apply all_chars_append. Qed.

Lemma free_of_dq (c : ascii) (a : string) :
  free_of c (dq a) = negb (Ascii.eqb dquote c) && free_of c a.
Proof.
  unfold dq, free_of. cbn [all_chars]. rewrite all_chars_append.
  cbn [all_chars]. rewrite andb_true_r.
  destruct (negb (Ascii.eqb dquote c)), (all_chars _ a); reflexivity.
Qed.

Lemma all_chars_impl (p q : ascii -> bool) (s : string) :
  (forall c, p c = true -> q c = true) ->
  all_chars p s = true -> all_chars q s = true.
Proof.
  intros H. induction s as [|c s IH]; simpl; [reflexivity|].
  intros K. apply andb_true_iff in K as [Hc Hs].
  rewrite (H c Hc), (IH Hs). reflexivity.
Qed.

(** a text of characters of a class is free of a character outside it *)
Lemma class_free_of (p : ascii -> bool) (c : ascii) (s : string) :
  p c = false -> all_chars p s = true -> free_of c s = true.
Proof.
  intros Hc. apply all_chars_impl. intros x Hx.
  apply negb_true_iff, Ascii.eqb_neq. intros ->. congruence.
Qed.

Lemma string_of_uint_num (d : Decimal.uint) :
  all_chars is_num_char (NilEmpty.string_of_uint d) = true.
Proof. induction d; simpl; auto. Qed.

Lemma str_of_Z_num (z : Z) :
  all_chars is_num_char (Seed.str_of_Z z) = true.
Proof.
  unfold Seed.str_of_Z, NilZero.string_of_int, NilZero.string_of_uint.
  destruct (Z.to_int z) as [d|d]; destruct d; simpl;
    try reflexivity; apply string_of_uint_num.
Qed.

Lemma str_of_Z_free (c : ascii) (z : Z) :
  is_num_char c = false -> free_of c (Seed.str_of_Z z) = true.
Proof. intros Hc. exact (class_free_of _ c _ Hc (str_of_Z_num z)). Qed.

(** [str] of an int reads back as the int. *)
Lemma read_Z_str_of_Z (z : Z) : read_Z (Seed.str_of_Z z) = Some z.
Proof.
  unfold read_Z, Seed.str_of_Z.
  rewrite NilZero.isi.
  - simpl. rewrite DecimalZ.of_to. reflexivity.
  - destruct z; simpl; try discriminate.
    intros H. inversion H as [K].
    exact (DecimalPos.Unsigned.to_uint_nonnil _ K).
  - destruct z; simpl; try discriminate.
    intros H. inversion H as [K].
    exact (DecimalPos.Unsigned.to_uint_nonnil _ K).
Qed.

Lemma read_number_field (z : Z) :
  read_number (", " ++ Seed.str_of_Z z ++ ", ")%string = Some z.
Proof.
  unfold read_number.
  change (", " ++ Seed.str_of_Z z ++ ", ")%string
    with ("" ++ String "," (String " " (Seed.str_of_Z z)
                            ++ String "," " "))%string.
  rewrite split_on_sep by reflexivity.
  rewrite split_on_sep.
  2:{ unfold free_of. simpl. apply (str_of_Z_free "," z). reflexivity. }
  rewrite split_on_last by reflexivity.
  simpl. apply read_Z_str_of_Z.
Qed.

Lemma sql_safe_number (z : Z) :
  sql_safe (", " ++ Seed.str_of_Z z ++ ", ")%string = true.
Proof.
  unfold sql_safe. rewrite !free_of_append.
  rewrite (str_of_Z_free apostrophe z eq_refl). reflexivity.
Qed.

(** A statement of the script reads back as the values that were put in
    it, when none of them holds an apostrophe. *)
Lemma read_insert_sql (tx fn args : string) (n : Z) (h ts : string) :
  sql_safe tx = true -> sql_safe fn = true -> sql_safe args = true ->
  sql_safe h = true -> sql_safe ts = true ->
  read_insert (Seed.insert_sql tx fn args n h ts)
  = Some (mk_insert_row tx "ibnchannel" "teatrace" fn args "VALID" n h ts).
Proof.
  intros Htx Hfn Hargs Hh Hts. unfold read_insert.
  assert (E : Seed.insert_sql tx fn args n h ts
              = (insert_head ++ String apostrophe
                 (tx ++ String apostrophe
                 (", " ++ String apostrophe
                 ("ibnchannel" ++ String apostrophe
                 (", " ++ String apostrophe
                 ("teatrace" ++ String apostrophe
                 (", " ++ String apostrophe
                 (fn ++ String apostrophe
                 (", " ++ String apostrophe
                 (args ++ String apostrophe
                 (", " ++ String apostrophe
                 ("VALID" ++ String apostrophe
                 ((", " ++ Seed.str_of_Z n ++ ", ") ++ String apostrophe
                 (h ++ String apostrophe
                 (", " ++ String apostrophe
                 (ts ++ String apostrophe ");"))))))))))))))))%string).
  { rewrite (append_assoc ", " (Seed.str_of_Z n ++ ", ")).
    rewrite (append_assoc (Seed.str_of_Z n) ", "). reflexivity. }
  rewrite E.
  rewrite (split_on_sep apostrophe insert_head) by reflexivity.
  rewrite (split_on_sep apostrophe tx) by exact Htx.
  rewrite (split_on_sep apostrophe ", ") by reflexivity.
  rewrite (split_on_sep apostrophe "ibnchannel") by reflexivity.
  rewrite (split_on_sep apostrophe ", ") by reflexivity.
  rewrite (split_on_sep apostrophe "teatrace") by reflexivity.
  rewrite (split_on_sep apostrophe ", ") by reflexivity.
  rewrite (split_on_sep apostrophe fn) by exact Hfn.
  rewrite (split_on_sep apostrophe ", ") by reflexivity.
  rewrite (split_on_sep apostrophe args) by exact Hargs.
  rewrite (split_on_sep apostrophe ", ") by reflexivity.
  rewrite (split_on_sep apostrophe "VALID") by reflexivity.
  rewrite (split_on_sep apostrophe (", " ++ Seed.str_of_Z n ++ ", "))
    by apply sql_safe_number.
  rewrite (split_on_sep apostrophe h) by exact Hh.
  rewrite (split_on_sep apostrophe ", ") by reflexivity.
  rewrite (split_on_sep apostrophe ts) by exact Hts.
  rewrite (split_on_last apostrophe ");") by reflexivity.
  rewrite read_number_field.
  reflexivity.
Qed.

(** An array of four strs, and of three, reads back as its strs when
    none of them holds a double quote. *)
Lemma read_args_4 (a b c d : string) :
  free_of dquote a = true -> free_of dquote b = true ->
  free_of dquote c = true -> free_of dquote d = true ->
  read_args ("[" ++ dq a ++ ", " ++ dq b ++ ", " ++ dq c ++ ", " ++ dq d
             ++ "]")%string
  = Some [a; b; c; d].
Proof.
  intros Ha Hb Hc Hd. unfold read_args, dq.
  assert (E : ("[" ++ String dquote (a ++ String dquote "") ++ ", "
               ++ String dquote (b ++ String dquote "") ++ ", "
               ++ String dquote (c ++ String dquote "") ++ ", "
               ++ String dquote (d ++ String dquote "") ++ "]")%string
              = ("[" ++ String dquote
                 (a ++ String dquote
                 (", " ++ String dquote
                 (b ++ String dquote
                 (", " ++ String dquote
                 (c ++ String dquote
                 (", " ++ String dquote
                 (d ++ String dquote "]"))))))))%string).
  { cbn [append]. rewrite !append_assoc. reflexivity. }
  rewrite E.
  rewrite (split_on_sep dquote "[") by reflexivity.
  rewrite (split_on_sep dquote a) by exact Ha.
  rewrite (split_on_sep dquote ", ") by reflexivity.
  rewrite (split_on_sep dquote b) by exact Hb.
  rewrite (split_on_sep dquote ", ") by reflexivity.
  rewrite (split_on_sep dquote c) by exact Hc.
  rewrite (split_on_sep dquote ", ") by reflexivity.
  rewrite (split_on_sep dquote d) by exact Hd.
  rewrite (split_on_last dquote "]") by reflexivity.
  reflexivity.
Qed.

Lemma read_args_3 (a b c : string) :
  free_of dquote a = true -> free_of dquote b = true ->
  free_of dquote c = true ->
  read_args ("[" ++ dq a ++ ", " ++ dq b ++ ", " ++ dq c ++ "]")%string
  = Some [a; b; c].
Proof.
  intros Ha Hb Hc. unfold read_args, dq.
  assert (E : ("[" ++ String dquote (a ++ String dquote "") ++ ", "
               ++ String dquote (b ++ String dquote "") ++ ", "
               ++ String dquote (c ++ String dquote "") ++ "]")%string
              = ("[" ++ String dquote
                 (a ++ String dquote
                 (", " ++ String dquote
                 (b ++ String dquote
                 (", " ++ String dquote
                 (c ++ String dquote "]"))))))%string).
  { cbn [append]. rewrite !append_assoc. reflexivity. }
  rewrite E.
  rewrite (split_on_sep dquote "[") by reflexivity.
  rewrite (split_on_sep dquote a) by exact Ha.
  rewrite (split_on_sep dquote ", ") by reflexivity.
  rewrite (split_on_sep dquote b) by exact Hb.
  rewrite (split_on_sep dquote ", ") by reflexivity.
  rewrite (split_on_sep dquote c) by exact Hc.
  rewrite (split_on_last dquote "]") by reflexivity.
  reflexivity.
Qed.

Example read_insert_runs :
  read_insert (Seed.insert_sql "ab" "CreateBatch"
                 (Seed.batch_args "BATCH_1" 0) 27 "cd" "2025")
  = Some (mk_insert_row "ab" "ibnchannel" "teatrace" "CreateBatch"
            (Seed.batch_args "BATCH_1" 0) "VALID" 27 "cd" "2025")
  /\ read_args (Seed.batch_args "BATCH_1" 0)
     = Some ["BATCH_1"; "Tea Batch 1"; "Organic Green Tea"; "1000kg"]
  /\ read_insert (Seed.insert_sql "a'b" "CreateBatch" "[]" 27 "cd" "2025")
     = None
  /\ read_insert "INSERT INTO transactions () VALUES ();" = None
  /\ read_insert "" = None.
Proof. vm_compute. repeat split. Qed.

Lemma Forall2_map_both {A B C} (P : B -> C -> Prop) (f : A -> B)
      (g : A -> C) (l : list A) :
  (forall x, In x l -> P (f x) (g x)) -> Forall2 P (map f l) (map g l).
Proof.
  induction l as [|x l IH]; intros H; simpl; constructor.
  - apply H. left. reflexivity.
  - apply IH. intros y Hy. apply H. right. exact Hy.
Qed.

(** ** The rows of a run *)

Module SeedMore.
Import Seed.

Ltac unfold_seed :=
  unfold generate_tx_id, generate_block_hash, get_timestamp, randint,
    uuid4, draw, now, append_batch, append_package, append_sql;
  mrun.

Lemma randint_range (a b x : Z) :
  (a <= b)%Z -> (a <= a + x mod (b - a + 1) <= b)%Z.
Proof.
  intros H. pose proof (Z.mod_pos_bound x (b - a + 1)%Z ltac:(lia)). lia.
Qed.

Lemma upper_char_hex (c : ascii) :
  is_hex_lower c = true -> is_hex_upper (upper_char c) = true.
Proof.
  destruct c as [[] [] [] [] [] [] [] []]; vm_compute; intros H;
    first [reflexivity | discriminate H].
Qed.

Lemma upper_hex (s : string) :
  all_chars is_hex_lower s = true -> all_chars is_hex_upper (upper s) = true.
Proof.
  induction s as [|c s IH]; simpl; [reflexivity|].
  intros H. apply andb_true_iff in H as [Hc Hs].
  rewrite (upper_char_hex c Hc), (IH Hs). reflexivity.
Qed.

Lemma upper_length (s : string) : String.length (upper s) = String.length s.
Proof. induction s as [|c s IH]; simpl; congruence. Qed.

Lemma take_length (n : nat) (s : string) :
  n <= String.length s -> String.length (take n s) = n.
Proof.
  revert s. induction n as [|n IH]; intros [|c s] H; simpl in *;
    try reflexivity; try lia.
  rewrite IH by lia. reflexivity.
Qed.

Lemma take_all_chars (p : ascii -> bool) (n : nat) (s : string) :
  all_chars p s = true -> all_chars p (take n s) = true.
Proof.
  revert s. induction n as [|n IH]; intros [|c s] H; simpl in *;
    try reflexivity.
  apply andb_true_iff in H as [Hc Hs]. rewrite Hc, (IH s Hs). reflexivity.
Qed.

(** the id that [f"PREFIX_{uuid.uuid4().hex[:8].upper()}"] makes *)
Lemma made_id_shape (prefix : string) (uuid_hex : N -> string) (r : row) :
  (forall u, is_uuid_hex (uuid_hex u) = true) ->
  made_id prefix uuid_hex r -> id_shape prefix (r_id r).
Proof.
  intros Hhex [u ->]. specialize (Hhex u). unfold is_uuid_hex in Hhex.
  apply andb_true_iff in Hhex as [Hlen Hall].
  apply Nat.eqb_eq in Hlen.
  exists (upper (take 8 (uuid_hex u))). split; [reflexivity|]. split.
  - rewrite upper_length, take_length; [reflexivity | lia].
  - apply upper_hex, take_all_chars, Hall.
Qed.

(** an id of that shape holds no character that is not a digit or a
    letter of the prefix *)
Lemma id_shape_free (c : ascii) (prefix id : string) :
  is_hex_upper c = false -> free_of c prefix = true ->
  id_shape prefix id -> free_of c id = true.
Proof.
  intros Hc Hp (t & -> & _ & Ht).
  rewrite free_of_append, Hp. exact (class_free_of _ c t Hc Ht).
Qed.

Lemma batch_args_safe (id : string) (i : nat) :
  sql_safe id = true -> sql_safe (batch_args id i) = true.
Proof.
  intros H. unfold sql_safe, batch_args in *.
  rewrite !free_of_append, !free_of_dq, !free_of_append, H.
  rewrite (str_of_Z_free apostrophe _ eq_refl). reflexivity.
Qed.

Lemma package_args_safe (p b : string) :
  sql_safe p = true -> sql_safe b = true ->
  sql_safe (package_args p b) = true.
Proof.
  intros Hp Hb. unfold sql_safe, package_args in *.
  rewrite !free_of_append, !free_of_dq, Hp, Hb. reflexivity.
Qed.

Lemma update_args_safe (p : string) :
  sql_safe p = true -> sql_safe (update_args p) = true.
Proof.
  intros Hp. unfold sql_safe, update_args in *.
  rewrite !free_of_append, !free_of_dq, Hp. reflexivity.
Qed.

Lemma transfer_args_safe (p : string) :
  sql_safe p = true -> sql_safe (transfer_args p) = true.
Proof.
  intros Hp. unfold sql_safe, transfer_args in *.
  rewrite !free_of_append, !free_of_dq, Hp. reflexivity.
Qed.

Lemma read_batch_args (id : string) (i : nat) :
  free_of dquote id = true ->
  read_args (batch_args id i)
  = Some [id; ("Tea Batch " ++ str_of_Z (Z.of_nat i + 1))%string;
          "Organic Green Tea"%string; "1000kg"%string].
Proof.
  intros H. unfold batch_args.
  apply read_args_4; try reflexivity; [exact H|].
  rewrite free_of_append, (str_of_Z_free dquote _ eq_refl). reflexivity.
Qed.

Section World.
Variable entropy : nat -> N.
Variable clock : nat -> N.
Variable sha256_hexdigest : string -> string.
Variable uuid_str : N -> string.
Variable uuid_hex : N -> string.
Variable isoformat_days_before : N -> Z -> string.

Lemma create_batch_detail (i : nat) (g : globals) :
  exists r g',
    create_batch entropy clock sha256_hexdigest uuid_str uuid_hex
      isoformat_days_before i g = (g', Ok tt)
    /\ (in_phase clock sha256_hexdigest isoformat_days_before 10 100 5 10 r
        /\ made_id "BATCH_" uuid_hex r)
    /\ batches g' = batches g ++ [r_id r]
    /\ packages g' = packages g ++ []
    /\ sql_statements g' = sql_statements g ++ [batch_sql (i, r)].
Proof.
  unfold Seed.create_batch. unfold_seed.
  eexists (mk_row _ _ "" _ _ _). eexists.
  split; [reflexivity|]. rewrite app_nil_r.
  split; [|repeat split].
  split; [split; [|split; [|split]]|].
  - apply (randint_range 10 100). lia.
  - eexists. reflexivity.
  - eexists. reflexivity.
  - eexists. eexists. split; [|reflexivity].
    apply (randint_range 5 10). lia.
  - eexists. reflexivity.
Qed.

Lemma create_package_detail (i : nat) (g : globals) :
  batches g <> [] ->
  exists r g',
    create_package entropy clock sha256_hexdigest uuid_str uuid_hex
      isoformat_days_before i g = (g', Ok tt)
    /\ (In (r_ref r) (batches g)
        /\ in_phase clock sha256_hexdigest isoformat_days_before
             101 200 3 5 r
        /\ made_id "PKG_" uuid_hex r)
    /\ batches g' = batches g ++ []
    /\ packages g' = packages g ++ [r_id r]
    /\ sql_statements g' = sql_statements g ++ [package_sql r].
Proof.
  intros Hne. unfold Seed.create_package. unfold_seed.
  match goal with
  | |- context [choice entropy ?xs ?g0] =>
      destruct (SeedFacts.choice_returns entropy xs g0 Hne)
        as (b & Hin & ->)
  end.
  eexists (mk_row _ _ b _ _ _). eexists.
  split; [reflexivity|]. rewrite app_nil_r.
  split; [|repeat split].
  split; [exact Hin|]. split; [split; [|split; [|split]]|].
  - apply (randint_range 101 200). lia.
  - eexists. reflexivity.
  - eexists. reflexivity.
  - eexists. eexists. split; [|reflexivity].
    apply (randint_range 3 5). lia.
  - eexists. reflexivity.
Qed.

Lemma update_package_detail (i : nat) (g : globals) :
  packages g <> [] ->
  exists r g',
    update_package entropy clock sha256_hexdigest uuid_str
      isoformat_days_before i g = (g', Ok tt)
    /\ (In (r_ref r) (packages g)
        /\ in_phase clock sha256_hexdigest isoformat_days_before
             201 300 1 2 r)
    /\ batches g' = batches g ++ []
    /\ packages g' = packages g ++ []
    /\ sql_statements g' = sql_statements g ++ [update_sql r].
Proof.
  intros Hne. unfold Seed.update_package. unfold_seed.
  match goal with
  | |- context [choice entropy ?xs ?g0] =>
      destruct (SeedFacts.choice_returns entropy xs g0 Hne)
        as (b & Hin & ->)
  end.
  eexists (mk_row _ "" b _ _ _). eexists.
  split; [reflexivity|]. rewrite !app_nil_r.
  split; [|repeat split].
  split; [exact Hin|]. split; [|split; [|split]].
  - apply (randint_range 201 300). lia.
  - eexists. reflexivity.
  - eexists. reflexivity.
  - eexists. eexists. split; [|reflexivity].
    apply (randint_range 1 2). lia.
Qed.

Lemma transfer_package_detail (i : nat) (g : globals) :
  packages g <> [] ->
  exists r g',
    transfer_package entropy clock sha256_hexdigest uuid_str
      isoformat_days_before i g = (g', Ok tt)
    /\ (In (r_ref r) (packages g)
        /\ in_phase clock sha256_hexdigest isoformat_days_before
             301 400 0 0 r)
    /\ batches g' = batches g ++ []
    /\ packages g' = packages g ++ []
    /\ sql_statements g' = sql_statements g ++ [transfer_sql r].
Proof.
  intros Hne. unfold Seed.transfer_package. unfold_seed.
  match goal with
  | |- context [choice entropy ?xs ?g0] =>
      destruct (SeedFacts.choice_returns entropy xs g0 Hne)
        as (b & Hin & ->)
  end.
  eexists (mk_row _ "" b _ _ _). eexists.
  split; [reflexivity|]. rewrite !app_nil_r.
  split; [|repeat split].
  split; [exact Hin|]. split; [|split; [|split]].
  - apply (randint_range 301 400). lia.
  - eexists. reflexivity.
  - eexists. reflexivity.
  - eexists. eexists. split; [|reflexivity]. lia.
Qed.

(** The rows of a run, with what each loop draws for them. *)
Lemma seed_rows_detailed :
  exists (bs ps us ts : list row),
    output entropy clock sha256_hexdigest uuid_str uuid_hex
      isoformat_days_before
    = Ok (map batch_sql (combine (seq 0 5) bs) ++ map package_sql ps
          ++ map update_sql us ++ map transfer_sql ts)
    /\ (List.length bs = 5 /\ List.length ps = 10
        /\ List.length us = 8 /\ List.length ts = 5)
    /\ Forall (fun r => in_phase clock sha256_hexdigest
                          isoformat_days_before 10 100 5 10 r
                        /\ made_id "BATCH_" uuid_hex r) bs
    /\ Forall (fun r => In (r_ref r) (map r_id bs)
                        /\ in_phase clock sha256_hexdigest
                             isoformat_days_before 101 200 3 5 r
                        /\ made_id "PKG_" uuid_hex r) ps
    /\ Forall (fun r => In (r_ref r) (map r_id ps)
                        /\ in_phase clock sha256_hexdigest
                             isoformat_days_before 201 300 1 2 r) us
    /\ Forall (fun r => In (r_ref r) (map r_id ps)
                        /\ in_phase clock sha256_hexdigest
                             isoformat_days_before 301 400 0 0 r) ts.
Proof.
  destruct (SeedFacts.for_each_rows
              (create_batch entropy clock sha256_hexdigest uuid_str uuid_hex
                 isoformat_days_before)
              (fun _ _ => True)
              (fun _ _ r => in_phase clock sha256_hexdigest
                              isoformat_days_before 10 100 5 10 r
                            /\ made_id "BATCH_" uuid_hex r)
              (fun r => [r_id r]) (fun _ => [])
              (fun i r => batch_sql (i, r))
              (fun _ _ _ _ _ => I) (fun _ _ _ _ _ H => H)) with
    (xs := seq 0 5) (g := init_globals)
    as (bs & g1 & R1 & L1 & Q1 & B1 & P1 & S1); [|exact I|].
  { intros i g _. apply create_batch_detail. }
  rewrite flat_map_singleton in B1.
  rewrite flat_map_nil in P1.
  simpl in B1, P1. cbn [init_globals sql_statements app] in S1.
  rewrite length_seq in L1.
  assert (Hne : forall (B B' : list string), B <> [] -> B ++ B' <> [])
    by (intros [|b B] B' H; [congruence | discriminate]).
  destruct (SeedFacts.for_each_rows
              (create_package entropy clock sha256_hexdigest uuid_str uuid_hex
                 isoformat_days_before)
              (fun B _ => B <> [])
              (fun B _ r => In (r_ref r) B
                            /\ in_phase clock sha256_hexdigest
                                 isoformat_days_before 101 200 3 5 r
                            /\ made_id "PKG_" uuid_hex r)
              (fun _ => []) (fun r => [r_id r])
              (fun _ r => package_sql r)) with
    (xs := seq 0 10) (g := g1)
    as (ps & g2 & R2 & L2 & Q2 & B2 & P2 & S2).
  { intros B _ B' _. apply Hne. }
  { intros B _ B' _ r [H H']. split; [|exact H'].
    apply in_or_app. left. exact H. }
  { intros i g Hg. apply create_package_detail. exact Hg. }
  { rewrite B1. apply (SeedFacts.nonempty_of_length _ 4).
    rewrite length_map. exact L1. }
  rewrite flat_map_nil, app_nil_r in B2.
  rewrite flat_map_singleton in P2.
  rewrite P1 in P2. simpl in P2. rewrite length_seq in L2.
  rewrite B2, B1 in Q2.
  destruct (SeedFacts.for_each_rows
              (update_package entropy clock sha256_hexdigest uuid_str
                 isoformat_days_before)
              (fun _ P => P <> [])
              (fun _ P r => In (r_ref r) P
                            /\ in_phase clock sha256_hexdigest
                                 isoformat_days_before 201 300 1 2 r)
              (fun _ => []) (fun _ => [])
              (fun _ r => update_sql r)) with
    (xs := seq 0 8) (g := g2)
    as (us & g3 & R3 & L3 & Q3 & B3 & P3 & S3).
  { intros _ P _ P'. apply Hne. }
  { intros _ P _ P' r [H H']. split; [|exact H'].
    apply in_or_app. left. exact H. }
  { intros i g Hg. apply update_package_detail. exact Hg. }
  { rewrite P2. apply (SeedFacts.nonempty_of_length _ 9).
    rewrite length_map. exact L2. }
  rewrite flat_map_nil, app_nil_r in B3, P3.
  rewrite length_seq in L3.
  rewrite P3, P2 in Q3.
  destruct (SeedFacts.for_each_rows
              (transfer_package entropy clock sha256_hexdigest uuid_str
                 isoformat_days_before)
              (fun _ P => P <> [])
              (fun _ P r => In (r_ref r) P
                            /\ in_phase clock sha256_hexdigest
                                 isoformat_days_before 301 400 0 0 r)
              (fun _ => []) (fun _ => [])
              (fun _ r => transfer_sql r)) with
    (xs := seq 0 5) (g := g3)
    as (ts & g4 & R4 & L4 & Q4 & B4 & P4 & S4).
  { intros _ P _ P'. apply Hne. }
  { intros _ P _ P' r [H H']. split; [|exact H'].
    apply in_or_app. left. exact H. }
  { intros i g Hg. apply transfer_package_detail. exact Hg. }
  { rewrite P3, P2. apply (SeedFacts.nonempty_of_length _ 9).
    rewrite length_map. exact L2. }
  rewrite flat_map_nil, app_nil_r in B4, P4.
  rewrite length_seq in L4.
  rewrite P4, P3, P2 in Q4.
  rewrite (SeedFacts.map_snd_combine package_sql) in S2
    by (rewrite length_seq; exact L2).
  rewrite (SeedFacts.map_snd_combine update_sql) in S3
    by (rewrite length_seq; exact L3).
  rewrite (SeedFacts.map_snd_combine transfer_sql) in S4
    by (rewrite length_seq; exact L4).
  rewrite S3, S2, S1, <- !app_assoc in S4.
  exists bs, ps, us, ts.
  split.
  { unfold output, script.
    rewrite (bind_ok _ _ _ _ tt R1), (bind_ok _ _ _ _ tt R2),
      (bind_ok _ _ _ _ tt R3), R4. rewrite S4. do 2 f_equal.
    apply map_ext. intros [i r]. reflexivity. }
  auto 6.
Qed.

(** ** What the statements of a row read as

    In a world whose digests and timestamps hold no apostrophe and whose
    UUIDs are hexadecimal. *)

Section Reading.
Hypothesis digest_safe : forall x, sql_safe (sha256_hexdigest x) = true.
Hypothesis uuid_is_hex : forall u, is_uuid_hex (uuid_hex u) = true.
Hypothesis iso_safe :
  forall t days, sql_safe (isoformat_days_before t days) = true.

Lemma made_id_of (prefix : string) (rs : list row) (id : string) :
  Forall (made_id prefix uuid_hex) rs -> In id (map r_id rs) ->
  id_shape prefix id.
Proof.
  intros Hall Hid. apply in_map_iff in Hid as (r & <- & Hr).
  rewrite Forall_forall in Hall.
  exact (made_id_shape _ _ _ uuid_is_hex (Hall r Hr)).
Qed.

(** The statement of a row reads back, whatever its function and its
    arguments. *)
Lemma row_statement_reads (fn args : string) (argl : list string) (r : row)
      (lo hi dlo dhi : Z) :
  in_phase clock sha256_hexdigest isoformat_days_before lo hi dlo dhi r ->
  sql_safe fn = true -> sql_safe args = true ->
  read_args args = Some argl ->
  let s := insert_sql (r_tx_id r) fn args (r_block_number r)
             (r_block_hash r) (r_timestamp r) in
  reads_as s fn argl
  /\ reads_in_phase clock isoformat_days_before lo hi dlo dhi s.
Proof.
  intros (Hn & (x & Hx) & (y & Hy) & (n & days & Hd & Ht)) Hfn Hargs Hread s.
  assert (E : read_insert s
              = Some (mk_insert_row (r_tx_id r) "ibnchannel" "teatrace" fn
                        args "VALID" (r_block_number r) (r_block_hash r)
                        (r_timestamp r))).
  { apply read_insert_sql; try assumption.
    - rewrite Hx. apply digest_safe.
    - rewrite Hy. apply digest_safe.
    - rewrite Ht. apply iso_safe. }
  split.
  - eexists. split; [exact E|]. simpl. repeat split. exact Hread.
  - eexists. split; [exact E|]. simpl. split; [exact Hn|].
    exists n, days. split; assumption.
Qed.

Lemma batch_row_reads (i : nat) (r : row) :
  in_phase clock sha256_hexdigest isoformat_days_before 10 100 5 10 r ->
  made_id "BATCH_" uuid_hex r ->
  reads_as (batch_sql (i, r)) "CreateBatch"
    [r_id r; ("Tea Batch " ++ str_of_Z (Z.of_nat i + 1))%string;
     "Organic Green Tea"%string; "1000kg"%string]
  /\ reads_in_phase clock isoformat_days_before 10 100 5 10
       (batch_sql (i, r)).
Proof.
  intros Hp Hid. apply (made_id_shape _ _ _ uuid_is_hex) in Hid.
  apply (row_statement_reads "CreateBatch" (batch_args (r_id r) i));
    [exact Hp | reflexivity | |].
  - apply batch_args_safe.
    exact (id_shape_free apostrophe "BATCH_" _ eq_refl eq_refl Hid).
  - apply read_batch_args.
    exact (id_shape_free dquote "BATCH_" _ eq_refl eq_refl Hid).
Qed.

Lemma package_row_reads (r : row) :
  in_phase clock sha256_hexdigest isoformat_days_before 101 200 3 5 r ->
  made_id "PKG_" uuid_hex r -> id_shape "BATCH_" (r_ref r) ->
  reads_as (package_sql r) "CreatePackage"
    [r_id r; r_ref r; "Premium Tea Package"%string; "500g"%string]
  /\ reads_in_phase clock isoformat_days_before 101 200 3 5
       (package_sql r).
Proof.
  intros Hp Hid Href. apply (made_id_shape _ _ _ uuid_is_hex) in Hid.
  apply (row_statement_reads "CreatePackage"
           (package_args (r_id r) (r_ref r)));
    [exact Hp | reflexivity | |].
  - apply package_args_safe.
    + exact (id_shape_free apostrophe "PKG_" _ eq_refl eq_refl Hid).
    + exact (id_shape_free apostrophe "BATCH_" _ eq_refl eq_refl Href).
  - unfold package_args. apply read_args_4; try reflexivity.
    + exact (id_shape_free dquote "PKG_" _ eq_refl eq_refl Hid).
    + exact (id_shape_free dquote "BATCH_" _ eq_refl eq_refl Href).
Qed.

Lemma update_row_reads (r : row) :
  in_phase clock sha256_hexdigest isoformat_days_before 201 300 1 2 r ->
  id_shape "PKG_" (r_ref r) ->
  reads_as (update_sql r) "UpdatePackage"
    [r_ref r; "PROCESSING"%string; "Drying tea leaves"%string]
  /\ reads_in_phase clock isoformat_days_before 201 300 1 2 (update_sql r).
Proof.
  intros Hp Href.
  apply (row_statement_reads "UpdatePackage" (update_args (r_ref r)));
    [exact Hp | reflexivity | |].
  - apply update_args_safe.
    exact (id_shape_free apostrophe "PKG_" _ eq_refl eq_refl Href).
  - unfold update_args. apply read_args_3; try reflexivity.
    exact (id_shape_free dquote "PKG_" _ eq_refl eq_refl Href).
Qed.

Lemma transfer_row_reads (r : row) :
  in_phase clock sha256_hexdigest isoformat_days_before 301 400 0 0 r ->
  id_shape "PKG_" (r_ref r) ->
  reads_as (transfer_sql r) "TransferPackage"
    [r_ref r; "Distributor A"%string; "Retailer B"%string]
  /\ reads_in_phase clock isoformat_days_before 301 400 0 0
       (transfer_sql r).
Proof.
  intros Hp Href.
  apply (row_statement_reads "TransferPackage" (transfer_args (r_ref r)));
    [exact Hp | reflexivity | |].
  - apply transfer_args_safe.
    exact (id_shape_free apostrophe "PKG_" _ eq_refl eq_refl Href).
  - unfold transfer_args. apply read_args_3; try reflexivity.
    exact (id_shape_free dquote "PKG_" _ eq_refl eq_refl Href).
Qed.

End Reading.

(** C10: whatever the draws, the run does not raise and prints 28
    statements: 5, then 10, then 8, then 5. In a world whose digests and
    timestamps hold no apostrophe and whose UUIDs are hexadecimal, every
    one of them reads back as an INSERT into transactions with the
    channel ibnchannel, the chaincode teatrace and the status VALID: the
    first five call CreateBatch, each for a new batch id and the names
    Tea Batch 1 to 5; the next ten call CreatePackage, each for a new
    package id and one of these five batch ids; the next eight call
    UpdatePackage and the last five TransferPackage, each for one of
    these ten package ids. *)
Theorem seed_output_shape :
  exists s1 s2 s3 s4 : list string,
    output entropy clock sha256_hexdigest uuid_str uuid_hex
      isoformat_days_before = Ok (s1 ++ s2 ++ s3 ++ s4)
    /\ List.length s1 = 5 /\ List.length s2 = 10
    /\ List.length s3 = 8 /\ List.length s4 = 5
    /\ List.length (s1 ++ s2 ++ s3 ++ s4) = 28
    /\ ((forall x, sql_safe (sha256_hexdigest x) = true) ->
        (forall u, is_uuid_hex (uuid_hex u) = true) ->
        (forall t days, sql_safe (isoformat_days_before t days) = true) ->
        exists batch_ids package_ids : list string,
          List.length batch_ids = 5 /\ List.length package_ids = 10
          /\ Forall2
               (fun s name_id =>
                  reads_as s "CreateBatch"
                    [snd name_id; fst name_id; "Organic Green Tea"%string;
                     "1000kg"%string])
               s1
               (combine ["Tea Batch 1"%string; "Tea Batch 2"%string;
                         "Tea Batch 3"%string; "Tea Batch 4"%string;
                         "Tea Batch 5"%string] batch_ids)
          /\ Forall2
               (fun s p =>
                  exists b,
                    In b batch_ids
                    /\ reads_as s "CreatePackage"
                         [p; b; "Premium Tea Package"%string;
                          "500g"%string])
               s2 package_ids
          /\ Forall
               (fun s =>
                  exists p,
                    In p package_ids
                    /\ reads_as s "UpdatePackage"
                         [p; "PROCESSING"%string;
                          "Drying tea leaves"%string])
               s3
          /\ Forall
               (fun s =>
                  exists p,
                    In p package_ids
                    /\ reads_as s "TransferPackage"
                         [p; "Distributor A"%string; "Retailer B"%string])
               s4).
Proof.
  destruct seed_rows_detailed
    as (bs & ps & us & ts & Hout & (L1 & L2 & L3 & L4) & Hb & Hp & Hu & Ht).
  exists (map batch_sql (combine (seq 0 5) bs)), (map package_sql ps),
    (map update_sql us), (map transfer_sql ts).
  split; [exact Hout|].
  assert (K1 : List.length (map batch_sql (combine (seq 0 5) bs)) = 5)
    by (rewrite length_map, length_combine, length_seq, L1; reflexivity).
  split; [exact K1|].
  split; [rewrite length_map; exact L2|].
  split; [rewrite length_map; exact L3|].
  split; [rewrite length_map; exact L4|].
  split; [rewrite !length_app, K1, !length_map, L2, L3, L4; reflexivity|].
  intros digest_safe uuid_is_hex iso_safe.
  assert (Hbid : Forall (made_id "BATCH_" uuid_hex) bs)
    by (eapply Forall_impl; [|exact Hb]; cbv beta; tauto).
  assert (Hpid : Forall (made_id "PKG_" uuid_hex) ps)
    by (eapply Forall_impl; [|exact Hp]; cbv beta; tauto).
  exists (map r_id bs), (map r_id ps).
  split; [rewrite length_map; exact L1|].
  split; [rewrite length_map; exact L2|].
  rewrite Forall_forall in Hb, Hp, Hu, Ht.
  split; [|split; [|split]].
  - destruct bs as [|b0 [|b1 [|b2 [|b3 [|b4 [|b5 bs]]]]]];
      try discriminate L1.
    simpl.
    repeat constructor.
    + exact (proj1 (batch_row_reads digest_safe uuid_is_hex iso_safe 0 b0
                      (proj1 (Hb b0 (or_introl eq_refl)))
                      (proj2 (Hb b0 (or_introl eq_refl))))).
    + exact (proj1 (batch_row_reads digest_safe uuid_is_hex iso_safe 1 b1
                      (proj1 (Hb b1 (or_intror (or_introl eq_refl))))
                      (proj2 (Hb b1 (or_intror (or_introl eq_refl)))))).
    + assert (I2 : In b2 [b0; b1; b2; b3; b4]) by (simpl; auto).
      exact (proj1 (batch_row_reads digest_safe uuid_is_hex iso_safe 2 b2
                      (proj1 (Hb b2 I2)) (proj2 (Hb b2 I2)))).
    + assert (I3 : In b3 [b0; b1; b2; b3; b4]) by (simpl; auto).
      exact (proj1 (batch_row_reads digest_safe uuid_is_hex iso_safe 3 b3
                      (proj1 (Hb b3 I3)) (proj2 (Hb b3 I3)))).
    + assert (I4 : In b4 [b0; b1; b2; b3; b4]) by (simpl; auto 6).
      exact (proj1 (batch_row_reads digest_safe uuid_is_hex iso_safe 4 b4
                      (proj1 (Hb b4 I4)) (proj2 (Hb b4 I4)))).
  - apply Forall2_map_both. intros r Hr.
    destruct (Hp r Hr) as (Href & Hph & Hid).
    exists (r_ref r). split; [exact Href|].
    exact (proj1 (package_row_reads digest_safe uuid_is_hex iso_safe r
                    Hph Hid (made_id_of uuid_is_hex _ _ _ Hbid Href))).
  - apply Forall_forall. intros s Hs.
    apply in_map_iff in Hs as (r & <- & Hr).
    destruct (Hu r Hr) as (Href & Hph).
    exists (r_ref r). split; [exact Href|].
    exact (proj1 (update_row_reads digest_safe iso_safe r Hph
                    (made_id_of uuid_is_hex _ _ _ Hpid Href))).
  - apply Forall_forall. intros s Hs.
    apply in_map_iff in Hs as (r & <- & Hr).
    destruct (Ht r Hr) as (Href & Hph).
    exists (r_ref r). split; [exact Href|].
    exact (proj1 (transfer_row_reads digest_safe iso_safe r Hph
                    (made_id_of uuid_is_hex _ _ _ Hpid Href))).
Qed.

(** X17: in such a world the block number that each statement gives
    follows the phases of the script, whatever the draws: 10..100 in the
    CreateBatch statements, 101..200 in the CreatePackage statements,
    201..300 in the UpdatePackage statements and 301..400 in the
    TransferPackage statements; and the timestamp that it gives is a
    reading of the clock moved back by 5..10, 3..5, 1..2 and 0 days. *)
Theorem seed_phases_ordered :
  (forall x, sql_safe (sha256_hexdigest x) = true) ->
  (forall u, is_uuid_hex (uuid_hex u) = true) ->
  (forall t days, sql_safe (isoformat_days_before t days) = true) ->
  exists s1 s2 s3 s4 : list string,
    output entropy clock sha256_hexdigest uuid_str uuid_hex
      isoformat_days_before = Ok (s1 ++ s2 ++ s3 ++ s4)
    /\ List.length s1 = 5 /\ List.length s2 = 10
    /\ List.length s3 = 8 /\ List.length s4 = 5
    /\ Forall (reads_in_phase clock isoformat_days_before 10 100 5 10) s1
    /\ Forall (reads_in_phase clock isoformat_days_before 101 200 3 5) s2
    /\ Forall (reads_in_phase clock isoformat_days_before 201 300 1 2) s3
    /\ Forall (reads_in_phase clock isoformat_days_before 301 400 0 0) s4.
Proof.
  intros digest_safe uuid_is_hex iso_safe.
  destruct seed_rows_detailed
    as (bs & ps & us & ts & Hout & (L1 & L2 & L3 & L4) & Hb & Hp & Hu & Ht).
  exists (map batch_sql (combine (seq 0 5) bs)), (map package_sql ps),
    (map update_sql us), (map transfer_sql ts).
  split; [exact Hout|].
  split; [rewrite length_map, length_combine, length_seq, L1; reflexivity|].
  split; [rewrite length_map; exact L2|].
  split; [rewrite length_map; exact L3|].
  split; [rewrite length_map; exact L4|].
  assert (Hbid : Forall (made_id "BATCH_" uuid_hex) bs)
    by (eapply Forall_impl; [|exact Hb]; cbv beta; tauto).
  assert (Hpid : Forall (made_id "PKG_" uuid_hex) ps)
    by (eapply Forall_impl; [|exact Hp]; cbv beta; tauto).
  rewrite Forall_forall in Hb, Hp, Hu, Ht.
  split; [|split; [|split]];
    apply Forall_forall; intros s Hs; apply in_map_iff in Hs.
  - destruct Hs as ([i r] & <- & Hr). apply in_combine_r in Hr.
    exact (proj2 (batch_row_reads digest_safe uuid_is_hex iso_safe i r
                    (proj1 (Hb r Hr)) (proj2 (Hb r Hr)))).
  - destruct Hs as (r & <- & Hr). destruct (Hp r Hr) as (Href & Hph & Hid).
    exact (proj2 (package_row_reads digest_safe uuid_is_hex iso_safe r
                    Hph Hid (made_id_of uuid_is_hex _ _ _ Hbid Href))).
  - destruct Hs as (r & <- & Hr). destruct (Hu r Hr) as (Href & Hph).
    exact (proj2 (update_row_reads digest_safe iso_safe r Hph
                    (made_id_of uuid_is_hex _ _ _ Hpid Href))).
  - destruct Hs as (r & <- & Hr). destruct (Ht r Hr) as (Href & Hph).
    exact (proj2 (transfer_row_reads digest_safe iso_safe r Hph
                    (made_id_of uuid_is_hex _ _ _ Hpid Href))).
Qed.

(** X18: when [uuid4().hex] is 32 hexadecimal digits, every id that the
    statements name, the new ones and the ones drawn from the lists, is
    its prefix ([BATCH_] or [PKG_]) and eight hexadecimal digits with the
    letters in upper case. *)
Theorem seed_ids_shape :
  (forall u, is_uuid_hex (uuid_hex u) = true) ->
  exists (bs ps us ts : list row),
    output entropy clock sha256_hexdigest uuid_str uuid_hex
      isoformat_days_before
    = Ok (map batch_sql (combine (seq 0 5) bs) ++ map package_sql ps
          ++ map update_sql us ++ map transfer_sql ts)
    /\ Forall (fun r => id_shape "BATCH_" (r_id r)) bs
    /\ Forall (fun r => id_shape "PKG_" (r_id r)
                        /\ id_shape "BATCH_" (r_ref r)) ps
    /\ Forall (fun r => id_shape "PKG_" (r_ref r)) us
    /\ Forall (fun r => id_shape "PKG_" (r_ref r)) ts.
Proof.
  intros Hhex.
  destruct seed_rows_detailed
    as (bs & ps & us & ts & H & _ & Hb & Hp & Hu & Ht).
  assert (Hbid : Forall (made_id "BATCH_" uuid_hex) bs)
    by (eapply Forall_impl; [|exact Hb]; cbv beta; tauto).
  assert (Hpid : Forall (made_id "PKG_" uuid_hex) ps)
    by (eapply Forall_impl; [|exact Hp]; cbv beta; tauto).
  exists bs, ps, us, ts. split; [exact H|].
  split; [|split; [|split]].
  - eapply Forall_impl; [|exact Hbid]. cbv beta. intros r Hr.
    exact (made_id_shape _ _ _ Hhex Hr).
  - eapply Forall_impl; [|exact Hp]. cbv beta. intros r (Href & _ & Hr).
    split; [exact (made_id_shape _ _ _ Hhex Hr)|].
    exact (made_id_of Hhex _ _ _ Hbid Href).
  - eapply Forall_impl; [|exact Hu]. cbv beta. intros r [Href _].
    exact (made_id_of Hhex _ _ _ Hpid Href).
  - eapply Forall_impl; [|exact Ht]. cbv beta. intros r [Href _].
    exact (made_id_of Hhex _ _ _ Hpid Href).
Qed.

End World.

Lemma hex_digest_safe (x : string) : sql_safe (hex_digest x) = true.
Proof. unfold hex_digest. destruct (_ =? 0)%nat; reflexivity. Qed.

Lemma hex_uuid_is_hex (u : N) : is_uuid_hex (hex_uuid u) = true.
Proof. unfold hex_uuid. destruct (N.even _); reflexivity. Qed.

Lemma demo_iso_safe (t : N) (days : Z) : sql_safe (demo_iso t days) = true.
Proof.
  unfold sql_safe, demo_iso. rewrite !free_of_append.
  rewrite !(str_of_Z_free apostrophe _ eq_refl). reflexivity.
Qed.

Lemma seed_output_shape_witness :
  exists (s1 s2 s3 s4 batch_ids package_ids : list string),
    output demo_entropy demo_clock hex_digest demo_uuid_str hex_uuid
      demo_iso = Ok (s1 ++ s2 ++ s3 ++ s4)
    /\ List.length (s1 ++ s2 ++ s3 ++ s4) = 28
    /\ List.length batch_ids = 5 /\ List.length package_ids = 10
    /\ Forall2
         (fun s name_id =>
            reads_as s "CreateBatch"
              [snd name_id; fst name_id; "Organic Green Tea"%string;
               "1000kg"%string])
         s1
         (combine ["Tea Batch 1"%string; "Tea Batch 2"%string;
                   "Tea Batch 3"%string; "Tea Batch 4"%string;
                   "Tea Batch 5"%string] batch_ids)
    /\ Forall2
         (fun s p =>
            exists b,
              In b batch_ids
              /\ reads_as s "CreatePackage"
                   [p; b; "Premium Tea Package"%string; "500g"%string])
         s2 package_ids.
Proof.
  destruct (seed_output_shape demo_entropy demo_clock hex_digest
              demo_uuid_str hex_uuid demo_iso)
    as (s1 & s2 & s3 & s4 & Hout & _ & _ & _ & _ & Hlen & Hread).
  destruct (Hread hex_digest_safe hex_uuid_is_hex demo_iso_safe)
    as (batch_ids & package_ids & Lb & Lp & H1 & H2 & _).
  exists s1, s2, s3, s4, batch_ids, package_ids. auto 6.
Defined.

Lemma seed_phases_ordered_witness :
  exists s1 s2 s3 s4 : list string,
    output demo_entropy demo_clock hex_digest demo_uuid_str hex_uuid
      demo_iso = Ok (s1 ++ s2 ++ s3 ++ s4)
    /\ List.length s1 = 5 /\ List.length s2 = 10
    /\ List.length s3 = 8 /\ List.length s4 = 5
    /\ Forall (reads_in_phase demo_clock demo_iso 10 100 5 10) s1
    /\ Forall (reads_in_phase demo_clock demo_iso 101 200 3 5) s2
    /\ Forall (reads_in_phase demo_clock demo_iso 201 300 1 2) s3
    /\ Forall (reads_in_phase demo_clock demo_iso 301 400 0 0) s4.
Proof.
  exact (seed_phases_ordered demo_entropy demo_clock hex_digest
           demo_uuid_str hex_uuid demo_iso hex_digest_safe hex_uuid_is_hex
           demo_iso_safe).
Defined.

Lemma seed_ids_shape_witness :
  (forall u : N,
      is_uuid_hex ((fun _ => "0123456789abcdef0123456789abcdef"%string) u)
      = true)
  /\ exists (bs ps us ts : list row),
      output demo_entropy demo_clock demo_digest demo_uuid_str
        (fun _ => "0123456789abcdef0123456789abcdef"%string) demo_iso
      = Ok (map batch_sql (combine (seq 0 5) bs) ++ map package_sql ps
            ++ map update_sql us ++ map transfer_sql ts)
      /\ Forall (fun r => id_shape "BATCH_" (r_id r)) bs
      /\ Forall (fun r => id_shape "PKG_" (r_id r)
                          /\ id_shape "BATCH_" (r_ref r)) ps
      /\ Forall (fun r => id_shape "PKG_" (r_ref r)) us
      /\ Forall (fun r => id_shape "PKG_" (r_ref r)) ts.
Proof.
  split; [intros u; reflexivity|].
  apply (seed_ids_shape demo_entropy demo_clock demo_digest demo_uuid_str
           (fun _ => "0123456789abcdef0123456789abcdef"%string) demo_iso).
  intros u. reflexivity.
Defined.

(** One run in a hexadecimal world, read back. *)
Example hex_output_run :
  exists stmts,
    output demo_entropy demo_clock hex_digest demo_uuid_str hex_uuid
      demo_iso = Ok stmts
    /\ map (fun s =>
              option_map
                (fun v => (i_function v, i_block_number v, i_timestamp v,
                           read_args (i_args v)))
                (read_insert s))
         [nth 0 stmts ""%string; nth 5 stmts ""%string;
          nth 15 stmts ""%string; nth 27 stmts ""%string]
       = [Some ("CreateBatch"%string, 27%Z, "1005-6"%string,
                Some ["BATCH_01234567"%string; "Tea Batch 1"%string;
                      "Organic Green Tea"%string; "1000kg"%string]);
          Some ("CreatePackage"%string, 135%Z, "1036-5"%string,
                Some ["PKG_FEDCBA98"%string; "BATCH_01234567"%string;
                      "Premium Tea Package"%string; "500g"%string]);
          Some ("UpdatePackage"%string, 218%Z, "1105-2"%string,
                Some ["PKG_FEDCBA98"%string; "PROCESSING"%string;
                      "Drying tea leaves"%string]);
          Some ("TransferPackage"%string, 394%Z, "1172-0"%string,
                Some ["PKG_01234567"%string; "Distributor A"%string;
                      "Retailer B"%string])].
Proof. eexists. split; [vm_compute; reflexivity|]. reflexivity. Qed.

End SeedMore.

(** * Further properties of [parse_log_line] *)

(** X19: a record has a service only when the line has the shape of the
    pattern: the service, which is not empty and holds no whitespace, at
    the very start of the line, then whitespace, a bar, whitespace, and a
    payload that is not empty and holds no newline, up to the end of the
    line or to one last newline; the raw text of the record is the
    stripped line. *)
Theorem parsed_service_shape
        (json_loads : string -> res pyval) (line svc : string) (p : parsed) :
  parse_log_line json_loads line = Ok p ->
  service p = Some svc ->
  raw p = strip line
  /\ exists ws1 ws2 payload tail,
      line = (svc ++ ws1 ++ "|" ++ ws2 ++ payload ++ tail)%string
      /\ svc <> ""%string /\ all_chars nonspace svc = true
      /\ ws1 <> ""%string /\ all_chars isspace ws1 = true
      /\ ws2 <> ""%string /\ all_chars isspace ws2 = true
      /\ payload <> ""%string /\ all_chars dot payload = true
      /\ (tail = ""%string \/ tail = String newline "").
Proof.
  intros Hp Hsvc.
  destruct (parse_total json_loads line) as (r & Hr & Hraw & Hs).
  rewrite Hp in Hr. inversion Hr; subst r.
  split; [exact Hraw|].
  rewrite Hsvc in Hs.
  destruct (re_match line) as [[svc' payload]|] eqn:Hm; [|discriminate Hs].
  simpl in Hs. inversion Hs; subst svc'.
  destruct (re_match_sound line svc payload Hm)
    as (ws1 & ws2 & tail & H). exists ws1, ws2, payload, tail. exact H.
Qed.

Lemma parsed_service_shape_witness :
  raw (mk_parsed (Some "couchdb0") PNone PNone
         (PStr "[notice] GET /_up 200 ok 2") PNone None
         "couchdb0   | [notice] GET /_up 200 ok 2")
  = strip "couchdb0   | [notice] GET /_up 200 ok 2"
  /\ exists ws1 ws2 payload tail,
      "couchdb0   | [notice] GET /_up 200 ok 2"%string
      = ("couchdb0" ++ ws1 ++ "|" ++ ws2 ++ payload ++ tail)%string
      /\ "couchdb0"%string <> ""%string
      /\ all_chars nonspace "couchdb0" = true
      /\ ws1 <> ""%string /\ all_chars isspace ws1 = true
      /\ ws2 <> ""%string /\ all_chars isspace ws2 = true
      /\ payload <> ""%string /\ all_chars dot payload = true
      /\ (tail = ""%string \/ tail = String newline "").
Proof.
  apply (parsed_service_shape json_loads_never
           "couchdb0   | [notice] GET /_up 200 ok 2" "couchdb0"
           (mk_parsed (Some "couchdb0") PNone PNone
              (PStr "[notice] GET /_up 200 ok 2") PNone None
              "couchdb0   | [notice] GET /_up 200 ok 2")).
  - reflexivity.
  - reflexivity.
Defined.

(** X20: a line made of a service without whitespace, whitespace, a bar,
    whitespace and a plain-text payload that starts with a visible
    character and holds no newline is split at the first bar that has
    whitespace on both sides: the record has this service and the whole
    payload as its message, also when the payload holds further bars, and
    the amount of whitespace around the bar does not matter. *)
Theorem delimited_line_parsed
        (json_loads : string -> res pyval) (svc ws1 ws2 payload : string) :
  svc <> ""%string -> all_chars nonspace svc = true ->
  ws1 <> ""%string -> all_chars isspace ws1 = true ->
  ws2 <> ""%string -> all_chars isspace ws2 = true ->
  payload <> ""%string -> stops isspace payload = true ->
  all_chars dot payload = true ->
  startswith "{" payload = false ->
  parse_log_line json_loads (svc ++ ws1 ++ "|" ++ ws2 ++ payload)
  = Ok (mk_parsed (Some svc) PNone (guessed_level payload) (PStr payload)
          PNone None (strip (svc ++ ws1 ++ "|" ++ ws2 ++ payload))).
Proof.
  intros H1 H2 H3 H4 H5 H6 H7 H8 H9 Hs.
  apply parse_plain_text; [|exact Hs].
  apply re_match_complete; assumption.
Qed.

Lemma delimited_line_parsed_witness :
  parse_log_line json_loads_never
    ("peer0" ++ String "009" " " ++ "|" ++ "  " ++ "a | b warn | c")
  = Ok (mk_parsed (Some "peer0") PNone (PStr "warn")
          (PStr "a | b warn | c") PNone None
          (strip ("peer0" ++ String "009" " " ++ "|" ++ "  "
                  ++ "a | b warn | c"))).
Proof.
  apply (delimited_line_parsed json_loads_never "peer0" (String "009" " ")
           "  " "a | b warn | c");
    first [reflexivity | discriminate].
Defined.

(** * Lines in a run of [analyze_logs] *)

(** What a run has put in a list stays there when more lines follow. *)
Lemma analyze_logs_extends (json_loads : string -> res pyval)
      (logs more : list string) (a a' : analysis) :
  analyze_logs json_loads logs = Ok a ->
  analyze_logs json_loads (logs ++ more) = Ok a' ->
  extends a a'.
Proof.
  intros H H'. apply analyze_logs_run in H, H'.
  rewrite for_each_app, H in H'.
  pose proof (moves_for_each extends (fun a => a) more
                (classify_line json_loads) extends_refl extends_trans
                (classify_line_extends json_loads) a) as K.
  simpl in K. rewrite H' in K. exact K.
Qed.

(** A pass that returns, at the end of a run and inside one. *)
Lemma analyze_logs_pass (json_loads : string -> res pyval)
      (pre : list string) (line : string) (a a1 : analysis) :
  analyze_logs json_loads pre = Ok a ->
  classify_line json_loads line a = (a1, Ok tt) ->
  analyze_logs json_loads (pre ++ [line]) = Ok a1
  /\ forall post r,
      analyze_logs json_loads (pre ++ line :: post) = Ok r -> extends a1 r.
Proof.
  intros Hpre Hpass.
  assert (Hrun : analyze_logs json_loads (pre ++ [line]) = Ok a1)
    by (rewrite (analyze_logs_snoc json_loads pre line a Hpre), Hpass;
        reflexivity).
  split; [exact Hrun|].
  intros post r Hr.
  apply (analyze_logs_extends json_loads (pre ++ [line]) post a1 r Hrun).
  rewrite <- app_assoc. exact Hr.
Qed.

Lemma pass_appends_error (json_loads : string -> res pyval)
      (line svc m e : string) :
  (forall a,
      let a' := fst (classify_line json_loads line a) in
      snd (classify_line json_loads line a) = Ok tt
      /\ (exists entry,
             errors a' = errors a ++ [entry]
             /\ err_service entry = Some svc
             /\ err_message entry = PStr m
             /\ err_error entry = PStr e)
      /\ warnings a' = warnings a /\ fatal a' = fatal a
      /\ info a' = info a) ->
  appends_error json_loads line svc m e.
Proof.
  intros H pre a Hpre. specialize (H a).
  destruct (classify_line json_loads line a) as [a1 r1] eqn:E.
  simpl in H.
  destruct H as (Hr & (entry & He & Hs & Hm & Her) & Hw & Hf & Hi).
  subst r1.
  destruct (analyze_logs_pass json_loads pre line a a1 Hpre E)
    as (Hrun & Hpost).
  exists a1, entry. repeat (split; [assumption|]).
  intros post r Hrr.
  destruct (Hpost post r Hrr) as ((rest & Hrest) & _).
  exists rest. rewrite Hrest, He, <- app_assoc. reflexivity.
Qed.

(** C3: in a run of [analyze_logs], a line of the form
    [svc | {"level":"error","msg":"m","error":"e"}] appends exactly one
    entry to [errors], with the service [svc], the message [m] and the
    error [e], and nothing to the other level lists; the entry stays in
    its place when more lines follow. First for any decoder: a token,
    white space, the bar, white space and a payload that [json.loads]
    decodes to a dict with the level [error], the message [m] and the
    error [e]. Then for the literal text of the payload, decoded by the
    reference decoder, for every token and all plain [m] and [e]. *)
Theorem structured_error_line_recorded :
  (forall (json_loads : string -> res pyval)
          (svc ws1 ws2 payload m e : string) (d : list (string * pyval)),
      svc <> ""%string -> all_chars nonspace svc = true ->
      ws1 <> ""%string -> all_chars isspace ws1 = true ->
      ws2 <> ""%string -> all_chars isspace ws2 = true ->
      startswith "{" payload = true -> all_chars dot payload = true ->
      json_loads payload = Ok (PDict d) ->
      dict_lookup d "level" = Some (PStr "error") ->
      dict_lookup d "msg" = Some (PStr m) ->
      dict_lookup d "error" = Some (PStr e) ->
      appends_error json_loads (svc ++ ws1 ++ "|" ++ ws2 ++ payload)%string
        svc m e)
  /\ (forall (svc m e : string),
         svc <> ""%string -> all_chars nonspace svc = true ->
         plain m = true -> plain e = true ->
         appends_error Json.json_loads_ref
           (svc ++ " | " ++ error_payload m e)%string svc m e).
Proof.
  split.
  - intros json_loads svc ws1 ws2 payload m e d
      H1 H2 H3 H4 H5 H6 H7 H8 H9 H10 H11 H12.
    apply pass_appends_error. intros a.
    exact (error_document_recorded json_loads svc ws1 ws2 payload m e d a
             H1 H2 H3 H4 H5 H6 H7 H8 H9 H10 H11 H12).
  - intros svc m e H1 H2 H3 H4.
    apply pass_appends_error. intros a.
    exact (error_line_reference svc m e a H1 H2 H3 H4).
Qed.

Lemma structured_error_line_recorded_witness :
  exists a a' entry,
    analyze_logs Json.json_loads_ref [nginx_line] = Ok a
    /\ analyze_logs Json.json_loads_ref
         [nginx_line;
          Json.q "svc | {'level':'error','msg':'m','error':'e'}"]
       = Ok a'
    /\ errors a' = errors a ++ [entry]
    /\ err_service entry = Some "svc"%string
    /\ err_message entry = PStr "m"
    /\ err_error entry = PStr "e"
    /\ warnings a' = warnings a /\ fatal a' = fatal a /\ info a' = info a.
Proof.
  destruct (analyze_logs Json.json_loads_ref [nginx_line]) as [a|x] eqn:E;
    [|vm_compute in E; discriminate].
  destruct (proj2 structured_error_line_recorded "svc"%string "m"%string
              "e"%string ltac:(discriminate) eq_refl eq_refl eq_refl
              [nginx_line] a E)
    as (a' & entry & Hrun & He & Hs & Hm & Her & Hw & Hf & Hi & _).
  exists a, a', entry. repeat (split; [assumption || reflexivity|]).
  exact Hi.
Defined.

(** C1, amended: when the message and the error of the parsed record,
    joined by a space and in lower case, contain the words, the record of
    the line is appended to [connection_errors], whatever the level: by
    the pass of the loop over the line, and so by [analyze_logs] in a
    run in which the analysis [a] is what the lines before have built;
    the record stays in its place when more lines follow. *)
Theorem connection_refused_recorded
        (json_loads : string -> res pyval) (line : string) (a : analysis)
        (p : parsed) (lvl m e : string) :
  (strip line =? "") = false ->
  parse_log_line json_loads line = Ok p ->
  py_lower (py_or (level p) (PStr "info")) = Ok lvl ->
  py_or (message p) (PStr "") = PStr m ->
  py_or (error p) (PStr "") = PStr e ->
  contains "connection refused" (lower (m ++ " " ++ e)) = true ->
  connection_errors (fst (classify_line json_loads line a))
  = connection_errors a
    ++ [mk_conn (service p) (PStr m) (PStr e) (strip line)]
  /\ forall pre : list string,
      analyze_logs json_loads pre = Ok a ->
      (exists a',
          analyze_logs json_loads (pre ++ [line]) = Ok a'
          /\ connection_errors a'
             = connection_errors a
               ++ [mk_conn (service p) (PStr m) (PStr e) (strip line)])
      /\ forall (post : list string) (r : analysis),
          analyze_logs json_loads (pre ++ line :: post) = Ok r ->
          exists rest,
            connection_errors r
            = connection_errors a
              ++ mk_conn (service p) (PStr m) (PStr e) (strip line) :: rest.
Proof.
  intros Hb Hp Hl Hm He Hc.
  assert (Hpass : connection_errors (fst (classify_line json_loads line a))
                  = connection_errors a
                    ++ [mk_conn (service p) (PStr m) (PStr e) (strip line)]).
  { rewrite (classify_line_connection_errors json_loads line a p lvl m e)
      by assumption.
    unfold is_connection_text. rewrite Hc. reflexivity. }
  split; [exact Hpass|].
  intros pre Hpre.
  pose proof (classify_line_str_returns json_loads line a p lvl m e
                Hb Hp Hl Hm He) as Hret.
  destruct (classify_line json_loads line a) as [a1 r1] eqn:E.
  simpl in Hpass, Hret. subst r1.
  destruct (analyze_logs_pass json_loads pre line a a1 Hpre E)
    as (Hrun & Hpost).
  split; [exists a1; split; assumption|].
  intros post r Hr.
  destruct (Hpost post r Hr) as (_ & _ & _ & _ & (rest & Hrest) & _).
  exists rest. rewrite Hrest, Hpass, <- app_assoc. reflexivity.
Qed.

Lemma connection_refused_recorded_witness :
  exists entry,
    connection_errors
      (fst (classify_line Json.json_loads_ref nginx_line init_analysis))
    = [entry]
    /\ conn_service entry = Some "api-gateway-nginx"%string
    /\ conn_error entry = PStr ""
    /\ exists a',
        analyze_logs Json.json_loads_ref [nginx_line] = Ok a'
        /\ connection_errors a' = [entry].
Proof.
  eexists.
  edestruct (connection_refused_recorded Json.json_loads_ref nginx_line
               init_analysis) as [Hpass Hrun].
  - vm_compute. reflexivity.
  - vm_compute. reflexivity.
  - vm_compute. reflexivity.
  - vm_compute. reflexivity.
  - vm_compute. reflexivity.
  - vm_compute. reflexivity.
  - split; [exact Hpass|]. split; [reflexivity|]. split; [reflexivity|].
    exact (proj1 (Hrun [] eq_refl)).
Defined.
